(** * Agentic Architect: the sequential multi-agent workflow

    A shallow embedding of the Python agent service
    (src/agent_service/src): the shared [WorkflowState], the response
    parsers of the agents, the architecture continuity resolver, the
    context-prompt builder of the base agent and the sequential workflow
    driver with its aggregate.

    Python values that travel as [Dict[str, Any]] are embedded as the
    type [value]; an operation that Python would reject with an
    exception returns [Raise].  A [str] is embedded as the [string] of
    its UTF-8 encoding and measured in characters; a [float] is a
    binary64 number.

    Objects are values here: a function that updates a dict or a list
    in place returns the updated object, and the caller goes on with
    it.  An object reachable under two names is not tracked as one.
    In [_validate_architecture_design] the component list taken over
    from the existing architecture is shared with it, so the loop that
    adds [visualization_metadata] reaches the existing architecture's
    items as well.  A design that passes validation is the same either
    way, and a completion that cannot be extracted or deserialized
    fails before any update; only when validation itself raises after
    that loop does the existing architecture come back with the added
    key on its items, which is not modelled. *)

From Stdlib Require Import String Ascii List ZArith NArith Bool Lia Floats.
Import ListNotations.
Local Open Scope string_scope.
Local Open Scope list_scope.
Set Warnings "-register-all".
Set Warnings "-inexact-float".

(** String concatenation, kept apart from list concatenation. *)
Infix "+++" := String.append (right associativity, at level 60).

(** ** Text

    A Python [str] is a sequence of characters (code points).  The
    embedding keeps the bytes of its UTF-8 encoding, so a literal of
    the source is the same literal here, and splits them into
    characters wherever Python counts, indexes or slices. *)

Module Utf8.

(** A byte [10xxxxxx] continues the character begun before it. *)
Definition is_continuation (b : ascii) : bool :=
  match b with
  | Ascii _ _ _ _ _ _ false true => true
  | _ => false
  end.

(** The characters of a text, each as the text of its bytes: a
    character begins at every byte that is not a continuation. *)
Fixpoint chars (s : string) : list string :=
  match s with
  | EmptyString => []
  | String b rest =>
      match rest with
      | EmptyString => [String b EmptyString]
      | String b' _ =>
          if is_continuation b' then
            match chars rest with
            | c :: cs => String b c :: cs
            | [] => [String b EmptyString]
            end
          else String b EmptyString :: chars rest
      end
  end.

(** The text made of the given characters. *)
Definition text (cs : list string) : string := String.concat EmptyString cs.

(** The number of characters. *)
Definition length (s : string) : nat := List.length (chars s).

(** The low [bits] bits of a byte. *)
Definition payload (bits : N) (b : ascii) : N :=
  N.land (N_of_ascii b) (N.ones bits).

(** The bits of a byte above its low [bits] bits. *)
Definition marker (bits : N) (b : ascii) : N :=
  N.shiftr (N_of_ascii b) bits.

(** The code point of a character: the forms [0xxxxxxx],
    [110xxxxx 10xxxxxx], [1110xxxx 10xxxxxx 10xxxxxx] and
    [11110xxx 10xxxxxx 10xxxxxx 10xxxxxx]. *)
Definition code_point (c : string) : option N :=
  match c with
  | String b0 EmptyString =>
      if (marker 7 b0 =? 0)%N then Some (N_of_ascii b0) else None
  | String b0 (String b1 EmptyString) =>
      if (marker 5 b0 =? 6)%N
      then Some (payload 5 b0 * 64 + payload 6 b1)%N
      else None
  | String b0 (String b1 (String b2 EmptyString)) =>
      if (marker 4 b0 =? 14)%N
      then Some ((payload 4 b0 * 64 + payload 6 b1) * 64 + payload 6 b2)%N
      else None
  | String b0 (String b1 (String b2 (String b3 EmptyString))) =>
      if (marker 3 b0 =? 30)%N
      then Some (((payload 3 b0 * 64 + payload 6 b1) * 64 + payload 6 b2) * 64
                 + payload 6 b3)%N
      else None
  | _ => None
  end.

(** The byte position at which the character of index [i] begins. *)
Definition offset (s : string) (i : nat) : nat :=
  String.length (text (firstn i (chars s))).

(** The index of the character that begins at byte position [p]. *)
Definition index_at (s : string) (p : nat) : nat :=
  length (String.substring 0 p s).

End Utf8.

(** ** Python values and exceptions *)

Module Py.

(** JSON-like Python objects.  A [dict] keeps its insertion order, as
    Python's does. *)
Inductive value : Type :=
| VNone
| VBool (b : bool)
| VInt (z : Z)
| VFloat (x : float)
| VStr (s : string)
| VList (l : list value)
| VDict (d : list (string * value)).

Definition dict := list (string * value).

Inductive exn : Type :=
| AttributeError
| TypeError
| ValueError
| KeyError
| JSONDecodeError
| ServiceError (msg : string).

Inductive result (A : Type) : Type :=
| Ok (a : A)
| Raise (e : exn).
Arguments Ok {A} a.
Arguments Raise {A} e.

Definition bind {A B} (m : result A) (k : A -> result B) : result B :=
  match m with
  | Ok a => k a
  | Raise e => Raise e
  end.

(** [try: m  except Exception: h] *)
Definition catch {A} (m : result A) (h : exn -> result A) : result A :=
  match m with
  | Ok a => Ok a
  | Raise e => h e
  end.

Definition is_ok {A} (m : result A) : bool :=
  match m with Ok _ => true | Raise _ => false end.

Declare Scope py_scope.
Delimit Scope py_scope with py.
Notation "x <- m ;; k" := (bind m (fun x => k))
  (at level 61, m at next level, right associativity) : py_scope.
Notation "m ;;; k" := (bind m (fun _ => k))
  (at level 61, right associativity) : py_scope.

(** [bool(v)] *)
Definition truthy (v : value) : bool :=
  match v with
  | VNone => false
  | VBool b => b
  | VInt z => negb (Z.eqb z 0)
  | VFloat x => negb (PrimFloat.eqb x 0)
  | VStr s => negb (String.eqb s EmptyString)
  | VList l => match l with [] => false | _ => true end
  | VDict d => match d with [] => false | _ => true end
  end.

(** [v == s] for a string literal [s] *)
Definition eq_str (v : value) (s : string) : bool :=
  match v with
  | VStr t => String.eqb t s
  | _ => false
  end.

(** Dictionaries as association lists without repeated keys. *)
Fixpoint lookup (d : dict) (k : string) : option value :=
  match d with
  | [] => None
  | (k', v) :: rest => if String.eqb k' k then Some v else lookup rest k
  end.

(** [d[k] = v] on a dict: an existing key keeps its place. *)
Fixpoint insert (d : dict) (k : string) (v : value) : dict :=
  match d with
  | [] => [(k, v)]
  | (k', v') :: rest =>
      if String.eqb k' k then (k, v) :: rest else (k', v') :: insert rest k v
  end.

(** [d.get(k, dflt)] on an object known to be a dict *)
Definition dget (d : dict) (k : string) (dflt : value) : value :=
  match lookup d k with
  | Some v => v
  | None => dflt
  end.

(** [d.setdefault(k, dflt)] on a dict (the returned entry is not used
    by the callers) *)
Definition dsetdefault (d : dict) (k : string) (dflt : value) : dict :=
  match lookup d k with
  | Some _ => d
  | None => insert d k dflt
  end.

(** [v.get(k, dflt)]: only a dict has the method. *)
Definition get (v : value) (k : string) (dflt : value) : result value :=
  match v with
  | VDict d => Ok (dget d k dflt)
  | _ => Raise AttributeError
  end.

(** [v.setdefault(k, dflt)], returning the updated object *)
Definition setdefault (v : value) (k : string) (dflt : value) : result value :=
  match v with
  | VDict d => Ok (VDict (dsetdefault d k dflt))
  | _ => Raise AttributeError
  end.

(** [v[k] = x] for a string key, returning the updated object *)
Definition setitem (v : value) (k : string) (x : value) : result value :=
  match v with
  | VDict d => Ok (VDict (insert d k x))
  | _ => Raise TypeError
  end.

(** [v[k]] for a string key *)
Definition getitem (v : value) (k : string) : result value :=
  match v with
  | VDict d => match lookup d k with Some x => Ok x | None => Raise KeyError end
  | _ => Raise TypeError
  end.

(** [len(v)] *)
Definition len (v : value) : result nat :=
  match v with
  | VStr s => Ok (Utf8.length s)
  | VList l => Ok (List.length l)
  | VDict d => Ok (List.length d)
  | _ => Raise TypeError
  end.

(** [isinstance(v, list)] and [isinstance(v, dict)] *)
Definition is_list (v : value) : bool :=
  match v with VList _ => true | _ => false end.
Definition is_dict (v : value) : bool :=
  match v with VDict _ => true | _ => false end.

(** A non-empty mapping. *)
Definition nonempty_dict (v : value) : bool :=
  match v with VDict (_ :: _) => true | _ => false end.

(** A non-empty list. *)
Definition nonempty_list (v : value) : bool :=
  match v with VList (_ :: _) => true | _ => false end.

End Py.
Import Py.
Local Open Scope py_scope.

(** ** Strings the way Python slices and searches them

    Positions are indices of characters. *)

Module PyStr.

(** [sub in s]: the bytes of [sub] occur in [s] exactly where its
    characters do, a character of UTF-8 never beginning inside
    another. *)
Definition contains (s sub : string) : bool :=
  match String.index 0 sub s with Some _ => true | None => false end.

(** [s.find(sub, start)], [-1] when absent *)
Definition find_from (s sub : string) (start : nat) : Z :=
  match String.index (Utf8.offset s start) sub s with
  | Some p => Z.of_nat (Utf8.index_at s p)
  | None => (-1)%Z
  end.

Definition find (s sub : string) : Z := find_from s sub 0.

(** [s.rfind(c)] for a one-character pattern: the scan keeps the last
    position seen. *)
Fixpoint rfind_char_aux (cs : list string) (c : string) (pos : nat) (last : Z) : Z :=
  match cs with
  | [] => last
  | a :: rest =>
      rfind_char_aux rest c (S pos)
        (if String.eqb a c then Z.of_nat pos else last)
  end.

Definition rfind_char (s : string) (c : string) : Z :=
  rfind_char_aux (Utf8.chars s) c 0 (-1)%Z.

(** A slice bound as Python clamps it: a negative bound counts from the
    end. *)
Definition clamp (n : nat) (i : Z) : nat :=
  if (i <? 0)%Z then Z.to_nat (Z.max 0 (Z.of_nat n + i))
  else Nat.min (Z.to_nat i) n.

(** [s[a:b]] *)
Definition slice (s : string) (a b : Z) : string :=
  let cs := Utf8.chars s in
  let n := List.length cs in
  let lo := clamp n a in
  let hi := clamp n b in
  Utf8.text (firstn (hi - lo) (skipn lo cs)).

(** [s[:n]] for a literal [n >= 0] *)
Definition take (n : nat) (s : string) : string :=
  Utf8.text (firstn n (Utf8.chars s)).

(** [s[n:]] for a literal [n >= 0] *)
Definition drop (n : nat) (s : string) : string :=
  Utf8.text (skipn n (Utf8.chars s)).

(** The characters [str.strip()] removes: U+0009 to U+000D, U+001C to
    U+0020, U+0085, U+00A0, U+1680, U+2000 to U+200A, U+2028, U+2029,
    U+202F, U+205F and U+3000. *)
Definition is_space (c : string) : bool :=
  match Utf8.code_point c with
  | Some n =>
      ((9 <=? n) && (n <=? 13) || (28 <=? n) && (n <=? 32)
       || (n =? 133) || (n =? 160) || (n =? 5760)
       || (8192 <=? n) && (n <=? 8202)
       || (n =? 8232) || (n =? 8233) || (n =? 8239) || (n =? 8287)
       || (n =? 12288))%N
  | None => false
  end.

Fixpoint lstrip_chars (cs : list string) : list string :=
  match cs with
  | [] => []
  | c :: rest => if is_space c then lstrip_chars rest else cs
  end.

Fixpoint rstrip_chars (cs : list string) : list string :=
  match cs with
  | [] => []
  | c :: rest =>
      match rstrip_chars rest with
      | [] => if is_space c then [] else [c]
      | r => c :: r
      end
  end.

(** [s.strip()] *)
Definition strip (s : string) : string :=
  Utf8.text (rstrip_chars (lstrip_chars (Utf8.chars s))).

Definition nl : string := String (ascii_of_nat 10) EmptyString.

(** ["sep".join(parts)] *)
Definition join (sep : string) (parts : list string) : string :=
  String.concat sep parts.

End PyStr.

(** ** The shared state (src/models/agent_models.py) *)

Inductive ExpertiseLevel : Type := BEGINNER | INTERMEDIATE | ADVANCED | EXPERT.

Record BusinessContext : Type := {
  industry : option string;
  company_size : option string;
  budget_range : option string;
  timeline : option string;
  compliance_requirements : list string;
  existing_technologies : list string
}.

Record UserProfile : Type := {
  id : string;
  email : string;
  expertise_level : ExpertiseLevel;
  business_role : option string;
  profile_business_context : option BusinessContext;
  preferences : dict
}.

Record WorkflowState : Type := {
  conversation_id : string;
  user_query : string;
  user_profile : UserProfile;
  business_context : option BusinessContext;
  orchestrator_plan : value;
  requirements_analysis : value;
  research_findings : value;
  research_data : value;
  architecture_design : value;
  why_reasoning : value;
  business_impact : value;
  educational_content : value;
  documentation : value;
  current_step : string;
  completed_steps : list string;
  conversation_history : list dict;
  metadata : dict
}.

(** ** What the service calls but does not define

    [json.loads], [str()] of an object that is not a string,
    [str.lower], [str.title], [sum], the division [/] and the search
    client are the interpreter's and the libraries'.  [str.lower] and
    [str.title] follow the Unicode case tables.  [sum] adds the items
    to the integer [0] from left to right and [/] is true division;
    on floats their result is rounded as the interpreter rounds it
    (from Python 3.12 on [sum] compensates for the rounding of the
    partial sums), and both raise on operands that are not numbers or
    too large for a float.  The text of a prompt and the enrichment
    helpers that only fill one key of an agent's output do not reach
    any property stated below: they are taken as parameters, and each
    of them may raise. *)

Record Env : Type := {
  json_loads : string -> result value;
  str_of : value -> string;
  str_of_exn : exn -> string;
  str_lower : string -> string;
  str_title : string -> string;
  py_sum : list value -> result value;
  py_truediv : value -> value -> result value;
  format_expertise : ExpertiseLevel -> string;
  format_business_context : BusinessContext -> string;
  tavily_search : value -> result value;
  _build_orchestration_prompt : WorkflowState -> result string;
  _build_requirements_prompt : WorkflowState -> result string;
  _build_research_prompt : WorkflowState -> value -> value -> result string;
  complexity_prompt : string -> value -> bool -> result string;
  _build_architecture_prompt_with_analysis :
    WorkflowState -> value -> value -> value -> value -> value -> result string;
  _generate_visualization_data : value -> result value;
  _build_reasoning_prompt :
    WorkflowState -> value -> value -> value -> value -> result string;
  _generate_decision_rationale : value -> value -> value -> result value;
  _build_impact_prompt :
    WorkflowState -> value -> value -> value -> value -> value -> result string;
  _calculate_roi_estimates :
    value -> option BusinessContext -> value -> result value;
  _build_educational_prompt :
    WorkflowState -> value -> value -> value -> value -> value -> value ->
    result string;
  _generate_learning_path : ExpertiseLevel -> value -> value -> result value;
  _build_documentation_prompt :
    WorkflowState -> value -> value -> value -> value -> value -> value ->
    value -> result string;
  _generate_export_formats : value -> value -> value -> value -> result value
}.

(** [f"{v}"] *)
Definition format (E : Env) (v : value) : string :=
  match v with
  | VStr s => s
  | _ => str_of E v
  end.

(** ** Extraction of the JSON span from a completion

    The block is repeated verbatim in [_parse_research_response],
    [_parse_architecture_response], [_parse_reasoning_response],
    [_parse_impact_response], [_parse_educational_response] and
    [_parse_documentation_response]. *)

Definition fence : string := "```json".

Definition extract_json_span (response : string) : result string :=
  if PyStr.contains response fence then
    let json_start := (PyStr.find response fence + 7)%Z in
    let json_end := PyStr.find_from response "```" (Z.to_nat json_start) in
    Ok (PyStr.strip (PyStr.slice response json_start json_end))
  else if PyStr.contains response "{" && PyStr.contains response "}" then
    let json_start := PyStr.find response "{" in
    let json_end := (PyStr.rfind_char response "}" + 1)%Z in
    Ok (PyStr.slice response json_start json_end)
  else Raise ValueError.

(** A run of [setdefault] calls, in order. *)
Fixpoint setdefaults (v : value) (defaults : list (string * value)) : result value :=
  match defaults with
  | [] => Ok v
  | (k, dflt) :: rest => v' <- setdefault v k dflt ;; setdefaults v' rest
  end.

(** [key in v] for a string [key] *)
Definition contains_str (v : value) (key : string) : result bool :=
  match v with
  | VDict d => Ok (match lookup d key with Some _ => true | None => false end)
  | VList l => Ok (existsb (fun x => eq_str x key) l)
  | VStr s => Ok (PyStr.contains s key)
  | _ => Raise TypeError
  end.

(** The characters of a string, as one-character strings. *)
Definition chars (s : string) : list value := map VStr (Utf8.chars s).

(** [for x in v]: the items the loop visits *)
Definition iterate (v : value) : result (list value) :=
  match v with
  | VList l => Ok l
  | VDict d => Ok (map (fun kv => VStr (fst kv)) d)
  | VStr s => Ok (chars s)
  | _ => Raise TypeError
  end.

Fixpoint mapM {A B} (f : A -> result B) (l : list A) : result (list B) :=
  match l with
  | [] => Ok []
  | x :: rest => y <- f x ;; ys <- mapM f rest ;; Ok (y :: ys)
  end.

(** ** The architecture agent (src/agents/architecture_agent.py) *)

Module ArchitectureAgent.

(** The loop of [_extract_existing_architecture] over
    [reversed(state.conversation_history)]; falling off the end leaves
    [existing_architecture = {}]. *)
Fixpoint scan_history (msgs : list dict) : result value :=
  match msgs with
  | [] => Ok (VDict [])
  | msg :: rest =>
      if eq_str (dget msg "messageType" VNone) "ARCHITECTURE_UPDATE" then
        let metadata := dget msg "metadata" (VDict []) in
        agent_response <- get metadata "agentResponse" (VDict []) ;;
        architecture_update <- get agent_response "architectureUpdate" (VDict []) ;;
        if truthy architecture_update then
          components <- get architecture_update "components" VNone ;;
          if truthy components then
            (* the log line measures the component list *)
            shown <- get architecture_update "components" (VList []) ;;
            len shown ;;;
            Ok architecture_update
          else scan_history rest
        else scan_history rest
      else scan_history rest
  end.

Definition _extract_existing_architecture (state : WorkflowState) : result value :=
  if truthy (architecture_design state) then
    let existing_architecture := architecture_design state in
    shown <- get existing_architecture "components" (VList []) ;;
    len shown ;;;
    Ok existing_architecture
  else
    match conversation_history state with
    | [] => Ok (VDict [])
    | _ :: _ => scan_history (rev (conversation_history state))
    end.

Definition _get_fallback_architecture : value :=
  VDict [
    ("architecture_overview", VDict [
      ("pattern", VStr "layered");
      ("description", VStr "Traditional three-tier architecture with presentation, business, and data layers");
      ("key_principles", VList [
        VStr "Separation of concerns";
        VStr "Scalability";
        VStr "Maintainability"])]);
    ("components", VList [
      VDict [
        ("id", VStr "frontend");
        ("name", VStr "Frontend Application");
        ("type", VStr "frontend");
        ("description", VStr "User interface and presentation layer");
        ("responsibilities", VList [
          VStr "User interaction";
          VStr "Data presentation";
          VStr "Client-side validation"]);
        ("technology", VStr "React");
        ("scalability", VStr "horizontal");
        ("dependencies", VList [VStr "api-gateway"]);
        ("visualization_metadata", VDict [
          ("layer_assignments", VDict [
            ("system_overview", VStr "core_system");
            ("deployment", VStr "dmz")]);
          ("business_criticality", VStr "high");
          ("visual_importance", VInt 8);
          ("icon_category", VStr "frontend");
          ("technology_badges", VList [VStr "react"; VStr "javascript"]);
          ("health_indicators", VDict [
            ("monitoring_required", VBool true);
            ("performance_critical", VBool true);
            ("availability_target", VStr "99.9%")])])];
      VDict [
        ("id", VStr "api-gateway");
        ("name", VStr "API Gateway");
        ("type", VStr "gateway");
        ("description", VStr "Central entry point for all client requests");
        ("responsibilities", VList [
          VStr "Request routing";
          VStr "Authentication";
          VStr "Rate limiting"]);
        ("technology", VStr "Express.js");
        ("scalability", VStr "horizontal");
        ("dependencies", VList [VStr "backend-service"]);
        ("visualization_metadata", VDict [
          ("layer_assignments", VDict [
            ("system_overview", VStr "core_system");
            ("deployment", VStr "dmz")]);
          ("business_criticality", VStr "high");
          ("visual_importance", VInt 7);
          ("icon_category", VStr "backend");
          ("technology_badges", VList [VStr "express"; VStr "nodejs"]);
          ("health_indicators", VDict [
            ("monitoring_required", VBool true);
            ("performance_critical", VBool true);
            ("availability_target", VStr "99.9%")])])];
      VDict [
        ("id", VStr "backend-service");
        ("name", VStr "Backend Service");
        ("type", VStr "service");
        ("description", VStr "Core business logic and data processing");
        ("responsibilities", VList [
          VStr "Business logic";
          VStr "Data validation";
          VStr "External integrations"]);
        ("technology", VStr "Node.js");
        ("scalability", VStr "horizontal");
        ("dependencies", VList [VStr "database"]);
        ("visualization_metadata", VDict [
          ("layer_assignments", VDict [
            ("system_overview", VStr "core_system");
            ("deployment", VStr "application")]);
          ("business_criticality", VStr "high");
          ("visual_importance", VInt 9);
          ("icon_category", VStr "backend");
          ("technology_badges", VList [VStr "nodejs"; VStr "javascript"]);
          ("health_indicators", VDict [
            ("monitoring_required", VBool true);
            ("performance_critical", VBool true);
            ("availability_target", VStr "99.9%")])])];
      VDict [
        ("id", VStr "database");
        ("name", VStr "Primary Database");
        ("type", VStr "database");
        ("description", VStr "Main data storage for application data");
        ("responsibilities", VList [
          VStr "Data persistence";
          VStr "Data integrity";
          VStr "Query processing"]);
        ("technology", VStr "PostgreSQL");
        ("scalability", VStr "vertical");
        ("dependencies", VList []);
        ("visualization_metadata", VDict [
          ("layer_assignments", VDict [
            ("system_overview", VStr "data_component");
            ("deployment", VStr "data")]);
          ("business_criticality", VStr "high");
          ("visual_importance", VInt 8);
          ("icon_category", VStr "database");
          ("technology_badges", VList [VStr "postgresql"; VStr "sql"]);
          ("health_indicators", VDict [
            ("monitoring_required", VBool true);
            ("performance_critical", VBool true);
            ("availability_target", VStr "99.99%")])])]]);
    ("connections", VList [
      VDict [
        ("from_component", VStr "frontend");
        ("to_component", VStr "api-gateway");
        ("connection_type", VStr "http");
        ("description", VStr "User requests and responses");
        ("data_flow", VStr "request_response");
        ("visualization_metadata", VDict [
          ("protocol_display", VStr "HTTPS/REST");
          ("traffic_volume", VStr "high");
          ("latency_requirement", VStr "real_time");
          ("security_level", VStr "high");
          ("dependency_strength", VStr "critical");
          ("line_style", VStr "solid");
          ("animation_type", VStr "bidirectional")])];
      VDict [
        ("from_component", VStr "api-gateway");
        ("to_component", VStr "backend-service");
        ("connection_type", VStr "http");
        ("description", VStr "API calls to business logic");
        ("data_flow", VStr "request_response");
        ("visualization_metadata", VDict [
          ("protocol_display", VStr "HTTP/REST");
          ("traffic_volume", VStr "high");
          ("latency_requirement", VStr "near_real_time");
          ("security_level", VStr "medium");
          ("dependency_strength", VStr "critical");
          ("line_style", VStr "solid");
          ("animation_type", VStr "unidirectional")])];
      VDict [
        ("from_component", VStr "backend-service");
        ("to_component", VStr "database");
        ("connection_type", VStr "database");
        ("description", VStr "Data operations");
        ("data_flow", VStr "request_response");
        ("visualization_metadata", VDict [
          ("protocol_display", VStr "PostgreSQL");
          ("traffic_volume", VStr "medium");
          ("latency_requirement", VStr "near_real_time");
          ("security_level", VStr "high");
          ("dependency_strength", VStr "critical");
          ("line_style", VStr "solid");
          ("animation_type", VStr "unidirectional")])]]);
    ("system_overview", VDict [
      ("business_capabilities", VList [
        VDict [
          ("capability", VStr "User Interface Management");
          ("components", VList [VStr "frontend"]);
          ("business_value", VStr "User experience and engagement");
          ("complexity", VStr "medium");
          ("priority", VStr "high")];
        VDict [
          ("capability", VStr "API Management");
          ("components", VList [VStr "api-gateway"; VStr "backend-service"]);
          ("business_value", VStr "Secure and scalable API operations");
          ("complexity", VStr "high");
          ("priority", VStr "high")];
        VDict [
          ("capability", VStr "Data Management");
          ("components", VList [VStr "database"]);
          ("business_value", VStr "Reliable data storage and retrieval");
          ("complexity", VStr "medium");
          ("priority", VStr "high")]]);
      ("core_systems", VList [
        VDict [
          ("system", VStr "Web Application Platform");
          ("components", VList [VStr "frontend"; VStr "api-gateway"; VStr "backend-service"]);
          ("purpose", VStr "Primary user-facing application");
          ("criticality", VStr "high");
          ("user_facing", VBool true)]]);
      ("external_integrations", VList []);
      ("data_domains", VList [
        VDict [
          ("domain", VStr "Application Data");
          ("components", VList [VStr "backend-service"; VStr "database"]);
          ("sensitivity", VStr "high");
          ("data_types", VList [VStr "user_data"; VStr "business_data"])]])]);
    ("deployment_architecture", VDict [
      ("strategy", VStr "containers");
      ("orchestration", VStr "docker");
      ("environments", VList [VStr "development"; VStr "staging"; VStr "production"]);
      ("ci_cd", VStr "github_actions")]);
    ("data_architecture", VDict [
      ("storage_strategy", VStr "centralized");
      ("databases", VList [
        VDict [
          ("name", VStr "primary_db");
          ("type", VStr "relational");
          ("purpose", VStr "primary_data");
          ("technology", VStr "postgresql")]]);
      ("data_flow", VStr "Client requests flow through API gateway to backend service and database")]);
    ("security_architecture", VDict [
      ("authentication", VStr "jwt");
      ("authorization", VStr "rbac");
      ("data_protection", VList [VStr "encryption"; VStr "access_control"]);
      ("network_security", VList [VStr "firewall"; VStr "ssl_tls"])]);
    ("technology_stack", VDict [
      ("frontend", VStr "react");
      ("backend", VStr "node");
      ("database", VStr "postgresql");
      ("infrastructure", VStr "aws")]);
    ("visualization_data", VDict [
      ("d3_data", VDict [
        ("nodes", VList [
          VDict [
            ("id", VStr "frontend");
            ("name", VStr "Frontend");
            ("type", VStr "frontend");
            ("x", VInt 100);
            ("y", VInt 100);
            ("group", VInt 6)];
          VDict [
            ("id", VStr "api-gateway");
            ("name", VStr "API Gateway");
            ("type", VStr "gateway");
            ("x", VInt 300);
            ("y", VInt 100);
            ("group", VInt 3)];
          VDict [
            ("id", VStr "backend-service");
            ("name", VStr "Backend");
            ("type", VStr "service");
            ("x", VInt 500);
            ("y", VInt 100);
            ("group", VInt 1)];
          VDict [
            ("id", VStr "database");
            ("name", VStr "Database");
            ("type", VStr "database");
            ("x", VInt 700);
            ("y", VInt 100);
            ("group", VInt 2)]]);
        ("links", VList [
          VDict [
            ("source", VStr "frontend");
            ("target", VStr "api-gateway");
            ("type", VStr "http")];
          VDict [
            ("source", VStr "api-gateway");
            ("target", VStr "backend-service");
            ("type", VStr "http")];
          VDict [
            ("source", VStr "backend-service");
            ("target", VStr "database");
            ("type", VStr "database")]])]);
      ("mermaid_diagram", VStr ("graph TD" +++ PyStr.nl +++ "    frontend[Frontend]" +++ PyStr.nl +++ "    api-gateway{API Gateway}" +++ PyStr.nl +++ "    backend-service[Backend]" +++ PyStr.nl +++ "    database[(Database)]" +++ PyStr.nl +++ "    frontend --> api-gateway" +++ PyStr.nl +++ "    api-gateway --> backend-service" +++ PyStr.nl +++ "    backend-service --> database"))]);
    ("confidence_score", VFloat 0.8%float)].

(** The record [_analyze_system_complexity] falls back to. *)
Definition default_complexity_analysis : value :=
  VDict [
    ("complexity_level", VStr "moderate");
    ("criticality_level", VStr "important");
    ("performance_requirements", VStr "optimized");
    ("scale_requirements", VStr "medium");
    ("domain_type", VStr "web_app");
    ("architecture_patterns_suggested", VList [VStr "layered"]);
    ("required_components_count", VStr "6-10");
    ("infrastructure_needs", VList [VStr "load_balancing"; VStr "caching"]);
    ("reasoning", VStr "Default analysis due to parsing error")].

Definition default_component_visualization : value :=
  VDict [
    ("layer_assignments", VDict [
      ("system_overview", VStr "core_system");
      ("deployment", VStr "application")]);
    ("business_criticality", VStr "medium");
    ("visual_importance", VInt 5);
    ("icon_category", VStr "backend");
    ("technology_badges", VList []);
    ("health_indicators", VDict [
      ("monitoring_required", VBool true);
      ("performance_critical", VBool false);
      ("availability_target", VStr "99%")])].

Definition default_connection_visualization : value :=
  VDict [
    ("protocol_display", VStr "HTTP/REST");
    ("traffic_volume", VStr "medium");
    ("latency_requirement", VStr "near_real_time");
    ("security_level", VStr "medium");
    ("dependency_strength", VStr "important");
    ("line_style", VStr "solid");
    ("animation_type", VStr "unidirectional")].

(** The keys [_validate_architecture_design] fills, in its order. *)
Definition design_defaults : list (string * value) :=
  [ ("architecture_overview", VDict []);
    ("components", VList []);
    ("connections", VList []);
    ("system_overview", VDict []);
    ("data_architecture", VDict []);
    ("security_architecture", VDict []);
    ("deployment_architecture", VDict []);
    ("scalability_strategy", VDict []);
    ("monitoring_observability", VDict []);
    ("technology_stack", VDict []);
    ("implementation_phases", VList []);
    ("risks_mitigations", VList []);
    ("confidence_score", VFloat 0.85%float) ].

(** One turn of the loops that add [visualization_metadata]. *)
Definition ensure_visualization (dflt item : value) : result value :=
  present <- contains_str item "visualization_metadata" ;;
  if present then Ok item else setitem item "visualization_metadata" dflt.

(** [for item in design.get(key, []): ...]: the items of a list are
    updated in place; the keys of a dict or the characters of a string
    are visited and cannot be updated. *)
Definition ensure_all (design : value) (key : string) (dflt : value) : result value :=
  items <- get design key (VList []) ;;
  visited <- iterate items ;;
  updated <- mapM (ensure_visualization dflt) visited ;;
  match items with
  | VList _ =>
      match design with
      | VDict d =>
          match lookup d key with
          | Some _ => Ok (VDict (insert d key (VList updated)))
          | None => Ok design
          end
      | _ => Ok design
      end
  | _ => Ok design
  end.

(** [hasattr(self, '_current_existing_architecture') and
    self._current_existing_architecture] *)
Definition has_existing (current : option value) : option value :=
  match current with
  | Some existing => if truthy existing then Some existing else None
  | None => None
  end.

(** The body of [if not design.get("components"):] *)
Definition use_known_components
    (current : option value) (design : value) : result value :=
  match has_existing current with
  | Some existing =>
      comps <- get existing "components" (VList []) ;;
      design <- setitem design "components" comps ;;
      conns <- get existing "connections" (VList []) ;;
      setitem design "connections" conns
  | None =>
      let fallback := _get_fallback_architecture in
      comps <- get fallback "components" (VList []) ;;
      design <- setitem design "components" comps ;;
      conns <- get fallback "connections" (VList []) ;;
      setitem design "connections" conns
  end.

Definition _validate_architecture_design
    (current : option value) (design : value) : result value :=
  design <- setdefaults design design_defaults ;;
  components <- get design "components" VNone ;;
  design <-
    (if truthy components then Ok design
     else use_known_components current design) ;;
  design <- ensure_all design "components" default_component_visualization ;;
  ensure_all design "connections" default_connection_visualization.

Section WithEnv.
Context (E : Env).

(** The body of the [try] in [_parse_architecture_response]. *)
Definition parse_architecture_body
    (current : option value) (response : string) : result value :=
  json_str <- extract_json_span response ;;
  architecture_design <- json_loads E json_str ;;
  _validate_architecture_design current architecture_design.

Definition _parse_architecture_response
    (current : option value) (response : string) : value :=
  match parse_architecture_body current response with
  | Ok architecture_design => architecture_design
  | Raise _ =>
      match has_existing current with
      | Some existing => existing
      | None => _get_fallback_architecture
      end
  end.

(** The extraction inside [_analyze_system_complexity]: here a lone
    opening brace is enough for the second branch. *)
Definition extract_analysis_span (analysis_response : string) : result string :=
  if PyStr.contains analysis_response fence then
    let json_start := (PyStr.find analysis_response fence + 7)%Z in
    let json_end :=
      PyStr.find_from analysis_response "```" (Z.to_nat json_start) in
    Ok (PyStr.strip (PyStr.slice analysis_response json_start json_end))
  else if PyStr.contains analysis_response "{" then
    let json_start := PyStr.find analysis_response "{" in
    let json_end := (PyStr.rfind_char analysis_response "}" + 1)%Z in
    Ok (PyStr.slice analysis_response json_start json_end)
  else Raise ValueError.

(** [reply] is what the completion client answers to the analysis
    prompt, were it called. *)
Definition _analyze_system_complexity
    (user_query : string) (existing_architecture : value)
    (reply : result string) : result value :=
  enhancement <-
    (if truthy existing_architecture then
       components <- get existing_architecture "components" VNone ;;
       Ok (truthy components)
     else Ok false) ;;
  complexity_prompt E user_query existing_architecture enhancement ;;;
  catch
    (analysis_response <- reply ;;
     json_str <- extract_analysis_span analysis_response ;;
     json_loads E json_str)
    (fun _ => Ok default_complexity_analysis).

Definition failure (agent slot : string) (fallback : value) (e : exn) : dict :=
  [ ("success", VBool false);
    ("error", VStr (str_of_exn E e));
    (slot, fallback);
    ("agent", VStr agent) ].

(** The body of the [try] in [process]. *)
Definition process_body (state : WorkflowState)
    (analysis_reply design_reply : result string) : result dict :=
  let orchestrator_plan := orchestrator_plan state in
  let requirements := requirements_analysis state in
  let research_data := research_data state in
  existing_architecture <- _extract_existing_architecture state ;;
  complexity_analysis <-
    _analyze_system_complexity (user_query state) existing_architecture
      analysis_reply ;;
  get complexity_analysis "complexity_level" VNone ;;;
  get complexity_analysis "criticality_level" VNone ;;;
  let current := Some existing_architecture in
  architecture_prompt <-
    _build_architecture_prompt_with_analysis E state orchestrator_plan
      requirements research_data complexity_analysis existing_architecture ;;
  architecture_response <- design_reply ;;
  let architecture_design :=
    _parse_architecture_response current architecture_response in
  visualization <- _generate_visualization_data E architecture_design ;;
  architecture_design <-
    setitem architecture_design "visualization_data" visualization ;;
  shown <- get architecture_design "components" (VList []) ;;
  len shown ;;;
  confidence <- get architecture_design "confidence_score" (VFloat 0.85%float) ;;
  Ok [ ("success", VBool true);
       ("architecture_design", architecture_design);
       ("agent", VStr "architecture");
       ("confidence", confidence) ].

Definition process (state : WorkflowState)
    (analysis_reply design_reply : result string) : dict :=
  match process_body state analysis_reply design_reply with
  | Ok r => r
  | Raise e =>
      failure "architecture" "architecture_design" _get_fallback_architecture e
  end.

End WithEnv.

End ArchitectureAgent.

(** ** More of Python's strings and lists *)

Module PyLib.

(** [l[a:]] on a list *)
Definition list_from {A} (l : list A) (a : Z) : list A :=
  skipn (PyStr.clamp (List.length l) a) l.

(** [v[:n]] for a literal [n >= 0] *)
Definition slice_to (v : value) (n : nat) : result value :=
  match v with
  | VList l => Ok (VList (firstn n l))
  | VStr s => Ok (VStr (PyStr.take n s))
  | _ => Raise TypeError
  end.

(** [v.append(x)], returning the updated object *)
Definition append (v x : value) : result value :=
  match v with
  | VList l => Ok (VList (l ++ [x]))
  | _ => Raise AttributeError
  end.

(** [s.split('\n')] *)
Fixpoint split_lines_aux (s : string) (current : string) : list string :=
  match s with
  | EmptyString => [current]
  | String c rest =>
      if Ascii.eqb c (ascii_of_nat 10)
      then current :: split_lines_aux rest EmptyString
      else split_lines_aux rest (current +++ String c EmptyString)
  end.

Definition split_lines (s : string) : list string :=
  split_lines_aux s EmptyString.

Definition startswith (s p : string) : bool := String.prefix p s.

(** [re.search(r'\{.*\}', response, re.DOTALL)]: the greedy match runs
    from the first opening brace to the last closing brace after it. *)
Definition search_braces (response : string) : option string :=
  let i := PyStr.find response "{" in
  let j := PyStr.rfind_char response "}" in
  if (0 <=? i)%Z && (i <? j)%Z
  then Some (PyStr.slice response i (j + 1)%Z)
  else None.

End PyLib.

(** ** The base agent (src/agents/base_agent.py) *)

Module BaseAgent.

Section WithEnv.
Context (E : Env).

(** [content[:300] + "..."] *)
Definition truncate (content : value) : result value :=
  match content with
  | VStr s => Ok (VStr (PyStr.take 300 s +++ "..."))
  | _ => Raise TypeError
  end.

(** One turn of the loop over [recent_messages]: the line it appends. *)
Definition render_message (msg : dict) : result string :=
  let role := dget msg "role" (VStr "unknown") in
  let content := dget msg "content" (VStr EmptyString) in
  let message_type := dget msg "messageType" (VStr EmptyString) in
  n <- len content ;;
  content <- (if (300 <? n)%nat then truncate content else Ok content) ;;
  if eq_str message_type "ARCHITECTURE_UPDATE"
  then Ok ("- " +++ format E role +++ ": [ARCHITECTURE UPDATE] " +++ format E content)
  else Ok ("- " +++ format E role +++ ": " +++ format E content).

Fixpoint append_messages (context_parts : list string) (msgs : list dict)
  : result (list string) :=
  match msgs with
  | [] => Ok context_parts
  | msg :: rest =>
      line <- render_message msg ;;
      append_messages (context_parts ++ [line]) rest
  end.

(** The list [context_parts] when [_build_context_prompt] joins it. *)
Definition context_parts (state : WorkflowState) : result (list string) :=
  let context_parts :=
    [ "User Query: " +++ user_query state;
      "User Expertise: " +++ format_expertise E (expertise_level (user_profile state)) ] in
  let context_parts :=
    match business_role (user_profile state) with
    | Some role =>
        if truthy (VStr role)
        then context_parts ++ ["Business Role: " +++ role]
        else context_parts
    | None => context_parts
    end in
  let context_parts :=
    match business_context state with
    | Some bc => context_parts ++ ["Business Context: " +++ format_business_context E bc]
    | None => context_parts
    end in
  context_parts <-
    match conversation_history state with
    | [] => Ok context_parts
    | _ :: _ =>
        let history := conversation_history state in
        let context_parts :=
          context_parts ++ [PyStr.nl +++ "PREVIOUS CONVERSATION CONTEXT:"] in
        let recent_messages :=
          if (6 <? List.length history)%nat
          then PyLib.list_from history (-6)%Z
          else history in
        context_parts <- append_messages context_parts recent_messages ;;
        Ok (context_parts
              ++ ["NOTE: Build upon and enhance previous architectural decisions rather than replacing them completely."])
    end ;;
  let context_parts :=
    if truthy (requirements_analysis state)
    then context_parts ++ ["Requirements: " +++ format E (requirements_analysis state)]
    else context_parts in
  let context_parts :=
    if truthy (research_findings state)
    then context_parts ++ ["Research: " +++ format E (research_findings state)]
    else context_parts in
  let context_parts :=
    if truthy (architecture_design state)
    then context_parts
           ++ ["EXISTING ARCHITECTURE: " +++ format E (architecture_design state)]
           ++ ["IMPORTANT: Enhance and extend the existing architecture, don't create a completely new one."]
    else context_parts in
  Ok context_parts.

Definition _build_context_prompt (prompt : string) (state : WorkflowState)
  : result string :=
  context_parts <- context_parts state ;;
  let context := PyStr.join PyStr.nl context_parts in
  Ok (context +++ PyStr.nl +++ PyStr.nl +++ "Current Task: " +++ prompt).

(** [reply] is what the completion client answers, were it called; a
    failure is logged and raised again. *)
Definition query_groq_with_context (prompt : string) (state : WorkflowState)
    (reply : result string) : result string :=
  catch
    (context_prompt <- _build_context_prompt prompt state ;;
     response <- reply ;;
     Ok response)
    (fun e => Raise e).

End WithEnv.

End BaseAgent.

(** ** The orchestrator agent (src/agents/orchestrator.py) *)

Module OrchestratorAgent.

Definition _get_fallback_plan (state : WorkflowState) : value :=
  VDict [
    ("workflow_type", VStr "SEQUENTIAL");
    ("agents_required", VList [
      VStr "requirements";
      VStr "research";
      VStr "architecture";
      VStr "why_reasoning";
      VStr "business_impact";
      VStr "educational"]);
    ("estimated_duration_minutes", VInt 20);
    ("complexity_score", VInt 3);
    ("justification", VStr "Fallback plan due to orchestration error");
    ("integration_requirements", VDict [
      ("why_reasoning", VStr "mandatory");
      ("business_impact", VStr "mandatory");
      ("educational_adaptation", VBool true)])].

Definition _get_default_plan : value :=
  VDict [
    ("workflow_type", VStr "SEQUENTIAL");
    ("agents_required", VList [
      VStr "requirements";
      VStr "architecture";
      VStr "why_reasoning";
      VStr "business_impact"]);
    ("estimated_duration_minutes", VInt 15);
    ("complexity_score", VInt 2);
    ("justification", VStr "Default sequential plan")].

(** The first keyword found in the lowered response names the
    workflow type. *)
Definition workflow_type_of (E : Env) (response : string) : string :=
  if PyStr.contains (str_lower E response) "parallel" then "PARALLEL"
  else if PyStr.contains (str_lower E response) "conditional" then "CONDITIONAL"
  else if PyStr.contains (str_lower E response) "iterative" then "ITERATIVE"
  else "SEQUENTIAL".

Definition agent_keywords : list (string * list string) :=
  [ ("requirements", ["requirements"; "requirement"]);
    ("research", ["research"; "search"]);
    ("architecture", ["architecture"; "design"]);
    ("why_reasoning", ["why"; "reasoning"; "decision"]);
    ("business_impact", ["business"; "roi"; "impact"]);
    ("educational", ["educational"; "learning"; "teaching"]);
    ("documentation", ["documentation"; "document"]) ].

Definition mentioned_agents (response_lower : string) : list string :=
  map fst
    (filter (fun entry =>
               existsb (fun keyword => PyStr.contains response_lower keyword)
                       (snd entry))
            agent_keywords).

Definition _extract_plan_from_text (E : Env) (response : string) : value :=
  let workflow_type := workflow_type_of E response in
  let response_lower := str_lower E response in
  let agents_required := mentioned_agents response_lower in
  let agents_required :=
    match agents_required with
    | [] => ["requirements"; "architecture"; "why_reasoning"; "business_impact"]
    | _ :: _ => agents_required
    end in
  VDict [
    ("workflow_type", VStr workflow_type);
    ("agents_required", VList (map VStr agents_required));
    ("estimated_duration_minutes", VInt 15);
    ("complexity_score", VInt 3);
    ("justification", VStr "Extracted from text analysis")].

Definition plan_defaults : list (string * value) :=
  [ ("workflow_type", VStr "SEQUENTIAL");
    ("agents_required",
      VList [VStr "requirements"; VStr "research"; VStr "architecture";
             VStr "why_reasoning"; VStr "business_impact"; VStr "educational"]);
    ("estimated_duration_minutes", VInt 15);
    ("complexity_score", VInt 3) ].

(** [if name not in plan["agents_required"]:
       plan["agents_required"].append(name)] *)
Definition require_agent (plan : value) (name : string) : result value :=
  agents <- getitem plan "agents_required" ;;
  present <- contains_str agents name ;;
  if present then Ok plan
  else
    agents <- PyLib.append agents (VStr name) ;;
    setitem plan "agents_required" agents.

Definition valid_workflows : list string :=
  ["SEQUENTIAL"; "PARALLEL"; "CONDITIONAL"; "ITERATIVE"].

Definition _validate_orchestration_plan (plan : value) : result value :=
  plan <- setdefaults plan plan_defaults ;;
  plan <- require_agent plan "why_reasoning" ;;
  plan <- require_agent plan "business_impact" ;;
  workflow_type <- getitem plan "workflow_type" ;;
  if existsb (eq_str workflow_type) valid_workflows
  then Ok plan
  else setitem plan "workflow_type" (VStr "SEQUENTIAL").

Section WithEnv.
Context (E : Env).

Definition _parse_orchestration_response (response : string) : value :=
  let body :=
    match PyLib.search_braces response with
    | Some matched =>
        plan <- json_loads E matched ;;
        _validate_orchestration_plan plan
    | None => Ok (_extract_plan_from_text E response)
    end in
  match body with
  | Ok plan => plan
  | Raise _ => _get_default_plan
  end.

(** The body of the [try] in [process]. *)
Definition process_body (state : WorkflowState) (reply : result string)
  : result dict :=
  orchestration_prompt <- _build_orchestration_prompt E state ;;
  response <- BaseAgent.query_groq_with_context E orchestration_prompt state reply ;;
  let plan := _parse_orchestration_response response in
  get plan "workflow_type" VNone ;;;
  agents <- get plan "agents_required" (VList []) ;;
  len agents ;;;
  Ok [("orchestrator_plan", plan)].

Definition process (state : WorkflowState) (reply : result string) : dict :=
  match process_body state reply with
  | Ok r => r
  | Raise _ => [("orchestrator_plan", _get_fallback_plan state)]
  end.

End WithEnv.

End OrchestratorAgent.

(** ** The requirements agent (src/agents/requirements_agent.py) *)

Module RequirementsAgent.

Definition _get_fallback_analysis (state : WorkflowState) : value :=
  VDict [
    ("functional_requirements", VList [
      VStr "Core system functionality as described in user query";
      VStr "User interface for interaction";
      VStr "Data persistence capabilities"]);
    ("non_functional_requirements", VList [
      VStr "System performance and responsiveness";
      VStr "Security and data protection";
      VStr "Scalability for future growth"]);
    ("business_requirements", VList [
      VStr "Alignment with business objectives";
      VStr "Cost-effective implementation";
      VStr "Timely delivery"]);
    ("constraints", VList [
      VStr "Budget limitations";
      VStr "Timeline constraints";
      VStr "Technology stack preferences"]);
    ("risks", VList [
      VStr "Technical implementation complexity";
      VStr "Integration challenges";
      VStr "Performance bottlenecks"]);
    ("clarification_questions", VList [
      VStr "What is the expected user load?";
      VStr "What are the performance requirements?";
      VStr "What integrations are needed?"]);
    ("priority_matrix", VDict [
      ("high", VList [VStr "Core functionality"; VStr "Security"]);
      ("medium", VList [VStr "Performance optimization"; VStr "Integrations"]);
      ("low", VList [VStr "Advanced features"; VStr "UI enhancements"])])].

Definition _get_default_analysis : value :=
  VDict [
    ("functional_requirements", VList [VStr "Basic system functionality"]);
    ("non_functional_requirements", VList [VStr "Performance"; VStr "Security"]);
    ("business_requirements", VList [VStr "Business value delivery"]);
    ("constraints", VList [VStr "Resource limitations"]);
    ("risks", VList [VStr "Implementation complexity"]);
    ("clarification_questions", VList [VStr "Need more details"]);
    ("priority_matrix", VDict [])].

Inductive section : Type := functional | non_functional | business | questions.

(** What the scan of [_extract_requirements_from_text] carries from
    line to line. *)
Record scan : Type := {
  current_section : option section;
  functional_reqs : list string;
  non_functional_reqs : list string;
  business_reqs : list string;
  question_items : list string
}.

Definition file_under (s : scan) (requirement : string) : scan :=
  match current_section s with
  | Some functional =>
      {| current_section := current_section s;
         functional_reqs := functional_reqs s ++ [requirement];
         non_functional_reqs := non_functional_reqs s;
         business_reqs := business_reqs s;
         question_items := question_items s |}
  | Some non_functional =>
      {| current_section := current_section s;
         functional_reqs := functional_reqs s;
         non_functional_reqs := non_functional_reqs s ++ [requirement];
         business_reqs := business_reqs s;
         question_items := question_items s |}
  | Some business =>
      {| current_section := current_section s;
         functional_reqs := functional_reqs s;
         non_functional_reqs := non_functional_reqs s;
         business_reqs := business_reqs s ++ [requirement];
         question_items := question_items s |}
  | Some questions =>
      {| current_section := current_section s;
         functional_reqs := functional_reqs s;
         non_functional_reqs := non_functional_reqs s;
         business_reqs := business_reqs s;
         question_items := question_items s ++ [requirement] |}
  | None => s
  end.

Definition enter (s : scan) (sec : section) : scan :=
  {| current_section := Some sec;
     functional_reqs := functional_reqs s;
     non_functional_reqs := non_functional_reqs s;
     business_reqs := business_reqs s;
     question_items := question_items s |}.

Definition scan_line (E : Env) (s : scan) (raw : string) : scan :=
  let line := PyStr.strip raw in
  if String.eqb line EmptyString then s
  else
    let line_lower := str_lower E line in
    if PyStr.contains line_lower "functional" && PyStr.contains line_lower "requirement"
    then enter s functional
    else if PyStr.contains line_lower "non-functional" || PyStr.contains line_lower "performance"
    then enter s non_functional
    else if PyStr.contains line_lower "business" && PyStr.contains line_lower "requirement"
    then enter s business
    else if PyStr.contains line_lower "question" || PyStr.contains line_lower "clarification"
    then enter s questions
    else if PyLib.startswith line "- " || PyLib.startswith line "* "
    then file_under s (PyStr.strip (PyStr.drop 2 line))
    else s.

Definition _extract_requirements_from_text (E : Env) (response : string) : value :=
  let lines := PyLib.split_lines response in
  let start :=
    {| current_section := None; functional_reqs := [];
       non_functional_reqs := []; business_reqs := []; question_items := [] |} in
  let final := fold_left (scan_line E) lines start in
  VDict [
    ("functional_requirements", VList (map VStr (functional_reqs final)));
    ("non_functional_requirements", VList (map VStr (non_functional_reqs final)));
    ("business_requirements", VList (map VStr (business_reqs final)));
    ("constraints", VList []);
    ("risks", VList []);
    ("clarification_questions", VList (map VStr (question_items final)));
    ("priority_matrix", VDict [])].

Definition analysis_defaults : list (string * value) :=
  [ ("functional_requirements", VList []);
    ("non_functional_requirements", VList []);
    ("business_requirements", VList []);
    ("constraints", VList []);
    ("risks", VList []);
    ("clarification_questions", VList []);
    ("priority_matrix", VDict []) ].

(** [if not isinstance(analysis[key], list): analysis[key] = []] *)
Definition force_list (analysis : value) (key : string) : result value :=
  entry <- getitem analysis key ;;
  if is_list entry then Ok analysis else setitem analysis key (VList []).

Definition _validate_requirements_analysis (analysis : value) : result value :=
  analysis <- setdefaults analysis analysis_defaults ;;
  analysis <- force_list analysis "functional_requirements" ;;
  force_list analysis "non_functional_requirements".

Section WithEnv.
Context (E : Env).

Definition _parse_requirements_response (response : string) : value :=
  let body :=
    match PyLib.search_braces response with
    | Some matched =>
        analysis <- json_loads E matched ;;
        _validate_requirements_analysis analysis
    | None => Ok (_extract_requirements_from_text E response)
    end in
  match body with
  | Ok analysis => analysis
  | Raise _ => _get_default_analysis
  end.

(** The body of the [try] in [process]. *)
Definition process_body (state : WorkflowState) (reply : result string)
  : result dict :=
  requirements_prompt <- _build_requirements_prompt E state ;;
  response <- BaseAgent.query_groq_with_context E requirements_prompt state reply ;;
  let analysis := _parse_requirements_response response in
  functional <- get analysis "functional_requirements" (VList []) ;;
  len functional ;;;
  non_functional <- get analysis "non_functional_requirements" (VList []) ;;
  len non_functional ;;;
  Ok [("requirements_analysis", analysis)].

Definition process (state : WorkflowState) (reply : result string) : dict :=
  match process_body state reply with
  | Ok r => r
  | Raise _ => [("requirements_analysis", _get_fallback_analysis state)]
  end.

End WithEnv.

End RequirementsAgent.

(** ** The parse pattern of the five enriching agents

    [_parse_research_response], [_parse_reasoning_response],
    [_parse_impact_response], [_parse_educational_response] and
    [_parse_documentation_response] differ only in the keys they fill
    and in the fallback they return. *)

Module Parser.

Section WithEnv.
Context (E : Env).

(** The body of the [try]. *)
Definition parse_body (defaults : list (string * value)) (response : string)
  : result value :=
  json_str <- extract_json_span response ;;
  data <- json_loads E json_str ;;
  setdefaults data defaults.

(** [try: ... except Exception: return fallback] *)
Definition parse (defaults : list (string * value)) (fallback : value)
    (response : string) : result value :=
  catch (parse_body defaults response) (fun _ => Ok fallback).

Definition failure (agent slot : string) (fallback : value) (e : exn) : dict :=
  [ ("success", VBool false);
    ("error", VStr (str_of_exn E e));
    (slot, fallback);
    ("agent", VStr agent) ].

Definition success (agent slot : string) (data confidence : value) : dict :=
  [ ("success", VBool true);
    (slot, data);
    ("agent", VStr agent);
    ("confidence", confidence) ].

End WithEnv.

End Parser.

(** ** The research agent (src/agents/research_agent.py) *)

Module ResearchAgent.

Definition _get_fallback_research : value :=
  VDict [
    ("architecture_patterns", VList [
      VDict [
        ("name", VStr "Microservices Architecture");
        ("description", VStr "Distributed architecture pattern with loosely coupled services");
        ("use_cases", VList [
          VStr "Large scale applications";
          VStr "Team autonomy";
          VStr "Technology diversity"]);
        ("pros", VList [
          VStr "Scalability";
          VStr "Technology flexibility";
          VStr "Team independence"]);
        ("cons", VList [
          VStr "Complexity";
          VStr "Network overhead";
          VStr "Data consistency challenges"]);
        ("complexity", VStr "high")];
      VDict [
        ("name", VStr "Layered Architecture");
        ("description", VStr "Traditional n-tier architecture with clear separation of concerns");
        ("use_cases", VList [
          VStr "Enterprise applications";
          VStr "Well-defined domains";
          VStr "Team familiarity"]);
        ("pros", VList [
          VStr "Simplicity";
          VStr "Clear structure";
          VStr "Easy to understand"]);
        ("cons", VList [
          VStr "Tight coupling";
          VStr "Performance overhead";
          VStr "Limited scalability"]);
        ("complexity", VStr "low")]]);
    ("technology_recommendations", VList [
      VDict [
        ("category", VStr "backend");
        ("technology", VStr "Node.js with Express");
        ("rationale", VStr "Fast development, JavaScript ecosystem, good performance");
        ("alternatives", VList [VStr "Python Django"; VStr "Java Spring Boot"]);
        ("maturity", VStr "mature")];
      VDict [
        ("category", VStr "database");
        ("technology", VStr "PostgreSQL");
        ("rationale", VStr "ACID compliance, rich feature set, excellent performance");
        ("alternatives", VList [VStr "MySQL"; VStr "MongoDB"]);
        ("maturity", VStr "mature")]]);
    ("best_practices", VList [
      VDict [
        ("area", VStr "security");
        ("practice", VStr "Implement authentication and authorization at all layers");
        ("implementation", VStr "Use JWT tokens, role-based access control, input validation")];
      VDict [
        ("area", VStr "performance");
        ("practice", VStr "Implement caching strategies");
        ("implementation", VStr "Redis for session storage, CDN for static assets, database query optimization")]]);
    ("case_studies", VList [
      VDict [
        ("company", VStr "Netflix");
        ("scenario", VStr "Large-scale video streaming platform");
        ("solution", VStr "Microservices with event-driven architecture");
        ("outcomes", VStr "Massive scale, high availability, rapid feature development")]]);
    ("search_queries", VList [
      VStr "microservices architecture best practices";
      VStr "scalable web application design patterns"]);
    ("confidence_score", VFloat 0.7%float)].

Definition research_defaults : list (string * value) :=
  [ ("architecture_patterns", VList []);
    ("technology_recommendations", VList []);
    ("best_practices", VList []);
    ("case_studies", VList []);
    ("search_queries", VList []);
    ("confidence_score", VFloat 0.8%float) ].

Section WithEnv.
Context (E : Env).

Definition _parse_research_response (response : string) : result value :=
  Parser.parse E research_defaults _get_fallback_research response.

(** The loop over [search_queries[:3]]: each query adds the first two
    results of the search. *)
Fixpoint run_searches (queries search_results : list value) : result (list value) :=
  match queries with
  | [] => Ok search_results
  | query :: rest =>
      results <- tavily_search E query ;;
      top <- PyLib.slice_to results 2 ;;
      extra <- iterate top ;;
      run_searches rest (search_results ++ extra)
  end.

(** The body of the [try] in [process]. *)
Definition process_body (state : WorkflowState) (reply : result string)
  : result dict :=
  let orchestrator_plan := orchestrator_plan state in
  let requirements := requirements_analysis state in
  research_prompt <- _build_research_prompt E state orchestrator_plan requirements ;;
  research_response <- reply ;;
  research_data <- _parse_research_response research_response ;;
  search_queries <- get research_data "search_queries" (VList []) ;;
  research_data <-
    (if truthy search_queries then
       first <- PyLib.slice_to search_queries 3 ;;
       queries <- iterate first ;;
       search_results <- run_searches queries [] ;;
       setitem research_data "external_sources" (VList search_results)
     else Ok research_data) ;;
  patterns <- get research_data "architecture_patterns" (VList []) ;;
  len patterns ;;;
  confidence <- get research_data "confidence_score" (VFloat 0.8%float) ;;
  Ok (Parser.success "research" "research_data" research_data confidence).

Definition process (state : WorkflowState) (reply : result string) : dict :=
  match process_body state reply with
  | Ok r => r
  | Raise e => Parser.failure E "research" "research_data" _get_fallback_research e
  end.

End WithEnv.

End ResearchAgent.

(** ** The why-reasoning agent (src/agents/why_reasoning_agent.py) *)

Module WhyReasoningAgent.

Definition _get_fallback_reasoning : value :=
  VDict [
    ("architectural_decisions", VList [
      VDict [
        ("decision", VStr "Layered architecture pattern selection");
        ("rationale", VStr "Chosen for its simplicity and clear separation of concerns, making it easier to understand and maintain");
        ("requirements_addressed", VList [
          VStr "Maintainability";
          VStr "Team productivity";
          VStr "Clear structure"]);
        ("trade_offs", VDict [
          ("pros", VList [
            VStr "Simple to understand";
            VStr "Clear separation";
            VStr "Easy to test"]);
          ("cons", VList [
            VStr "Potential performance overhead";
            VStr "Tight coupling between layers"])]);
        ("alternatives_considered", VList [
          VDict [
            ("alternative", VStr "Microservices architecture");
            ("why_not_chosen", VStr "Too complex for current team size and requirements")]]);
        ("risk_factors", VList [VStr "Performance bottlenecks"; VStr "Monolithic deployment"]);
        ("implementation_complexity", VStr "low");
        ("business_impact", VStr "positive")];
      VDict [
        ("decision", VStr "React for frontend technology");
        ("rationale", VStr "Selected for its large ecosystem, component reusability, and team familiarity");
        ("requirements_addressed", VList [
          VStr "User experience";
          VStr "Development speed";
          VStr "Maintainability"]);
        ("trade_offs", VDict [
          ("pros", VList [
            VStr "Large ecosystem";
            VStr "Component reusability";
            VStr "Strong community"]);
          ("cons", VList [
            VStr "Learning curve";
            VStr "Frequent updates";
            VStr "Bundle size"])]);
        ("alternatives_considered", VList [
          VDict [
            ("alternative", VStr "Vue.js");
            ("why_not_chosen", VStr "Team has more experience with React")]]);
        ("risk_factors", VList [VStr "Technology churn"; VStr "Dependency management"]);
        ("implementation_complexity", VStr "medium");
        ("business_impact", VStr "positive")]]);
    ("pattern_explanations", VList [
      VDict [
        ("pattern", VStr "Layered Architecture");
        ("why_chosen", VStr "Provides clear separation of concerns and is well-understood by development teams");
        ("use_case_fit", VStr "Perfect for applications with well-defined business logic and data access patterns");
        ("learning_context", VStr "One of the most fundamental architectural patterns, forming the basis for many enterprise applications")]]);
    ("technology_justifications", VList [
      VDict [
        ("technology", VStr "PostgreSQL");
        ("category", VStr "database");
        ("selection_criteria", VList [
          VStr "ACID compliance";
          VStr "Performance";
          VStr "Feature richness"]);
        ("why_best_fit", VStr "Provides robust data consistency and advanced features needed for complex business logic");
        ("ecosystem_benefits", VList [
          VStr "Excellent tooling";
          VStr "Strong community";
          VStr "Enterprise support"]);
        ("potential_concerns", VList [
          VStr "Vertical scaling limits";
          VStr "Complexity for simple use cases"])];
      VDict [
        ("technology", VStr "Node.js");
        ("category", VStr "backend");
        ("selection_criteria", VList [
          VStr "JavaScript ecosystem";
          VStr "Performance";
          VStr "Development speed"]);
        ("why_best_fit", VStr "Enables full-stack JavaScript development and has excellent performance for I/O operations");
        ("ecosystem_benefits", VList [
          VStr "NPM ecosystem";
          VStr "Rapid development";
          VStr "JSON handling"]);
        ("potential_concerns", VList [VStr "Single-threaded limitations"; VStr "Callback complexity"])]]);
    ("design_principles", VList [
      VDict [
        ("principle", VStr "Separation of Concerns");
        ("application", VStr "Each layer has distinct responsibilities - presentation, business logic, and data access");
        ("importance", VStr "Reduces complexity and improves maintainability by isolating different aspects of the system");
        ("examples", VList [
          VStr "UI components only handle presentation";
          VStr "Business logic isolated in service layer"])];
      VDict [
        ("principle", VStr "Single Responsibility");
        ("application", VStr "Each component and service has a single, well-defined purpose");
        ("importance", VStr "Makes the system easier to understand, test, and modify");
        ("examples", VList [
          VStr "Authentication service only handles auth";
          VStr "Database layer only manages data access"])]]);
    ("scalability_reasoning", VDict [
      ("approach", VStr "Horizontal scaling with load balancing");
      ("justification", VStr "Allows the system to handle increased load by adding more instances rather than upgrading hardware");
      ("growth_scenarios", VList [VStr "Increased user base"; VStr "Higher transaction volume"]);
      ("bottleneck_analysis", VList [
        VStr "Database connections";
        VStr "Memory usage";
        VStr "Network I/O"])]);
    ("security_reasoning", VDict [
      ("security_model", VStr "JWT-based authentication with role-based authorization");
      ("threat_analysis", VList [
        VStr "Unauthorized access";
        VStr "Data breaches";
        VStr "Session hijacking"]);
      ("mitigation_strategies", VList [
        VStr "Token expiration";
        VStr "HTTPS encryption";
        VStr "Input validation"]);
      ("compliance_considerations", VList [VStr "Data privacy"; VStr "Access logging"; VStr "Audit trails"])]);
    ("educational_insights", VList [
      VDict [
        ("topic", VStr "Layered Architecture Benefits");
        ("explanation", VStr "Layered architecture provides clear separation between different concerns of the application");
        ("why_important", VStr "Understanding this pattern is fundamental to building maintainable enterprise applications");
        ("further_reading", VList [
          VStr "Clean Architecture by Robert Martin";
          VStr "Patterns of Enterprise Application Architecture"])];
      VDict [
        ("topic", VStr "Database Selection Criteria");
        ("explanation", VStr "Choosing the right database depends on data structure, consistency requirements, and scalability needs");
        ("why_important", VStr "Database choice significantly impacts application performance and scalability");
        ("further_reading", VList [
          VStr "Designing Data-Intensive Applications";
          VStr "Database design fundamentals"])]]);
    ("implementation_guidance", VDict [
      ("critical_path", VList [
        VStr "Set up development environment";
        VStr "Implement core data models";
        VStr "Build API layer";
        VStr "Create frontend components"]);
      ("success_factors", VList [
        VStr "Clear requirements";
        VStr "Good testing strategy";
        VStr "Regular code reviews"]);
      ("common_pitfalls", VList [
        VStr "Over-engineering";
        VStr "Insufficient testing";
        VStr "Poor error handling"]);
      ("validation_checkpoints", VList [
        VStr "Unit tests passing";
        VStr "Integration tests working";
        VStr "Performance benchmarks met"])]);
    ("decision_rationale", VDict [
      ("requirements_traceability", VList [
        VDict [
          ("requirement", VStr "User authentication and authorization");
          ("addressed_by", VList [VStr "Authentication Service"; VStr "API Gateway"]);
          ("how", VStr "JWT tokens provide secure authentication with role-based access control")]]);
      ("research_influence", VList [
        VDict [
          ("research_finding", VStr "Layered architecture pattern");
          ("influence", VStr "Pattern selection based on team expertise and project complexity");
          ("benefit", VStr "Reduced development time and improved maintainability")]]);
      ("design_coherence", VList [
        VStr "All components follow consistent design patterns";
        VStr "Technology choices complement each other";
        VStr "Architecture supports both current and future requirements"])]);
    ("confidence_score", VFloat 0.85%float)].

Definition reasoning_defaults : list (string * value) :=
  [ ("architectural_decisions", VList []);
    ("pattern_explanations", VList []);
    ("technology_justifications", VList []);
    ("design_principles", VList []);
    ("scalability_reasoning", VDict []);
    ("security_reasoning", VDict []);
    ("educational_insights", VList []);
    ("implementation_guidance", VDict []);
    ("confidence_score", VFloat 0.9%float) ].

Section WithEnv.
Context (E : Env).

Definition _parse_reasoning_response (response : string) : result value :=
  Parser.parse E reasoning_defaults _get_fallback_reasoning response.

(** The body of the [try] in [process]. *)
Definition process_body (state : WorkflowState) (reply : result string)
  : result dict :=
  let orchestrator_plan := orchestrator_plan state in
  let requirements := requirements_analysis state in
  let research_data := research_data state in
  let architecture_design := architecture_design state in
  reasoning_prompt <-
    _build_reasoning_prompt E state orchestrator_plan requirements
      research_data architecture_design ;;
  reasoning_response <- reply ;;
  why_reasoning <- _parse_reasoning_response reasoning_response ;;
  rationale <-
    _generate_decision_rationale E requirements research_data architecture_design ;;
  why_reasoning <- setitem why_reasoning "decision_rationale" rationale ;;
  decisions <- get why_reasoning "architectural_decisions" (VList []) ;;
  len decisions ;;;
  confidence <- get why_reasoning "confidence_score" (VFloat 0.9%float) ;;
  Ok (Parser.success "why_reasoning" "why_reasoning" why_reasoning confidence).

Definition process (state : WorkflowState) (reply : result string) : dict :=
  match process_body state reply with
  | Ok r => r
  | Raise e =>
      Parser.failure E "why_reasoning" "why_reasoning" _get_fallback_reasoning e
  end.

End WithEnv.

End WhyReasoningAgent.

(** ** The business-impact agent (src/agents/business_impact_agent.py) *)

Module BusinessImpactAgent.

Definition _get_fallback_impact : value :=
  VDict [
    ("executive_summary", VDict [
      ("overall_impact", VStr "positive");
      ("key_benefits", VList [
        VStr "Improved system scalability and performance";
        VStr "Reduced long-term maintenance costs";
        VStr "Enhanced development team productivity"]);
      ("main_risks", VList [
        VStr "Implementation complexity and timeline";
        VStr "Initial learning curve for team";
        VStr "Integration challenges with existing systems"]);
      ("recommendation", VStr "proceed")]);
    ("financial_impact", VDict [
      ("implementation_cost", VDict [
        ("development", VStr "$50,000 - $150,000");
        ("infrastructure", VStr "$10,000 - $30,000");
        ("training", VStr "$5,000 - $15,000");
        ("total_estimated", VStr "$65,000 - $195,000")]);
      ("operational_cost", VDict [
        ("annual_infrastructure", VStr "$12,000 - $36,000");
        ("maintenance", VStr "$20,000 - $40,000");
        ("support", VStr "$15,000 - $25,000")]);
      ("cost_savings", VList [
        VDict [
          ("area", VStr "Reduced system downtime");
          ("annual_savings", VStr "$25,000 - $50,000");
          ("description", VStr "Improved reliability reduces business disruption")];
        VDict [
          ("area", VStr "Development efficiency");
          ("annual_savings", VStr "$30,000 - $60,000");
          ("description", VStr "Faster development cycles and reduced debugging time")]]);
      ("revenue_impact", VList [
        VDict [
          ("opportunity", VStr "Faster time-to-market for new features");
          ("potential_value", VStr "$100,000 - $300,000");
          ("timeframe", VStr "12-18 months")]])]);
    ("operational_impact", VDict [
      ("efficiency_gains", VList [
        VDict [
          ("process", VStr "Software development lifecycle");
          ("improvement", VStr "25% faster development cycles");
          ("quantification", VStr "Reduced time from concept to deployment")];
        VDict [
          ("process", VStr "System maintenance and support");
          ("improvement", VStr "40% reduction in maintenance overhead");
          ("quantification", VStr "Fewer production issues and easier troubleshooting")]]);
      ("resource_requirements", VList [
        VDict [
          ("resource_type", VStr "human");
          ("requirement", VStr "2-3 developers for 3-6 months");
          ("timeline", VStr "Implementation phase")];
        VDict [
          ("resource_type", VStr "technical");
          ("requirement", VStr "Cloud infrastructure and development tools");
          ("timeline", VStr "Ongoing")]]);
      ("workflow_changes", VList [
        VDict [
          ("area", VStr "Development process");
          ("change", VStr "Adoption of new architecture patterns and tools");
          ("impact", VStr "Initial learning curve, then improved productivity")]])]);
    ("strategic_impact", VDict [
      ("competitive_advantages", VList [
        VDict [
          ("advantage", VStr "Faster feature delivery and innovation");
          ("significance", VStr "high");
          ("sustainability", VStr "Long-term with proper maintenance")];
        VDict [
          ("advantage", VStr "Better scalability for business growth");
          ("significance", VStr "medium");
          ("sustainability", VStr "Supports multi-year growth plans")]]);
      ("market_positioning", VDict [
        ("current_position", VStr "Competitive but constrained by technical limitations");
        ("target_position", VStr "Technology leader with superior product capabilities");
        ("architecture_contribution", VStr "Enables rapid innovation and superior user experience")]);
      ("innovation_enablement", VList [
        VDict [
          ("capability", VStr "Real-time data processing and analytics");
          ("business_value", VStr "Better customer insights and personalization");
          ("timeline", VStr "6-12 months post-implementation")]])]);
    ("risk_analysis", VDict [
      ("technical_risks", VList [
        VDict [
          ("risk", VStr "Implementation complexity leading to delays");
          ("probability", VStr "medium");
          ("business_impact", VStr "Delayed time-to-market and increased costs");
          ("mitigation", VStr "Phased implementation with regular checkpoints");
          ("cost_of_mitigation", VStr "$10,000 - $20,000")]]);
      ("business_risks", VList [
        VDict [
          ("risk", VStr "Team resistance to new technologies");
          ("probability", VStr "low");
          ("financial_impact", VStr "Reduced productivity during transition");
          ("mitigation", VStr "Comprehensive training and change management")]]);
      ("opportunity_costs", VList [
        VDict [
          ("alternative", VStr "Maintaining current architecture");
          ("foregone_benefit", VStr "Continued technical debt and scaling limitations");
          ("justification", VStr "New architecture provides better long-term value")]])]);
    ("timeline_impact", VDict [
      ("time_to_market", VStr "3-6 months for initial implementation");
      ("business_value_realization", VList [
        VDict [
          ("milestone", VStr "Core system deployment");
          ("value_delivered", VStr "Improved system reliability and performance");
          ("timeline", VStr "3-4 months")];
        VDict [
          ("milestone", VStr "Full feature implementation");
          ("value_delivered", VStr "Complete business value realization");
          ("timeline", VStr "6-8 months")]]);
      ("critical_path_items", VList [
        VStr "Team training and onboarding";
        VStr "Core architecture implementation";
        VStr "Data migration and integration testing"])]);
    ("scalability_business_impact", VDict [
      ("growth_enablement", VStr "Architecture supports 10x growth in users and data volume");
      ("scaling_costs", VStr "Linear cost scaling with usage, avoiding expensive rewrites");
      ("revenue_scalability", VStr "Enables new revenue streams through better performance");
      ("operational_scalability", VStr "Reduced operational overhead as system grows")]);
    ("stakeholder_impact", VList [
      VDict [
        ("stakeholder_group", VStr "Development team");
        ("impact_type", VStr "positive");
        ("specific_impacts", VList [
          VStr "Improved productivity";
          VStr "Better development experience"]);
        ("required_actions", VList [VStr "Training on new technologies"; VStr "Process adaptation"])];
      VDict [
        ("stakeholder_group", VStr "Business users");
        ("impact_type", VStr "positive");
        ("specific_impacts", VList [
          VStr "Better system performance";
          VStr "New feature capabilities"]);
        ("required_actions", VList [
          VStr "User training on new features";
          VStr "Feedback collection"])]]);
    ("success_metrics", VList [
      VDict [
        ("metric", VStr "System uptime");
        ("current_baseline", VStr "95%");
        ("target_value", VStr "99.5%");
        ("measurement_method", VStr "Automated monitoring and alerting")];
      VDict [
        ("metric", VStr "Feature delivery time");
        ("current_baseline", VStr "4-6 weeks");
        ("target_value", VStr "2-3 weeks");
        ("measurement_method", VStr "Development cycle tracking")];
      VDict [
        ("metric", VStr "Customer satisfaction");
        ("current_baseline", VStr "7.5/10");
        ("target_value", VStr "8.5/10");
        ("measurement_method", VStr "Regular customer surveys")]]);
    ("roi_analysis", VDict [
      ("investment_summary", VDict [
        ("total_investment", VStr "$65,000 - $195,000");
        ("payback_period", VStr "12-18 months");
        ("roi_percentage", VStr "20-30% annually")]);
      ("value_drivers", VList [
        VStr "Operational efficiency improvements";
        VStr "Reduced maintenance costs";
        VStr "Faster time-to-market for new features";
        VStr "Improved scalability reducing future costs"])]);
    ("confidence_score", VFloat 0.8%float)].

Definition impact_defaults : list (string * value) :=
  [ ("executive_summary", VDict []);
    ("financial_impact", VDict []);
    ("operational_impact", VDict []);
    ("strategic_impact", VDict []);
    ("risk_analysis", VDict []);
    ("timeline_impact", VDict []);
    ("scalability_business_impact", VDict []);
    ("stakeholder_impact", VList []);
    ("success_metrics", VList []);
    ("confidence_score", VFloat 0.85%float) ].

Section WithEnv.
Context (E : Env).

Definition _parse_impact_response (response : string) : result value :=
  Parser.parse E impact_defaults _get_fallback_impact response.

(** The body of the [try] in [process]. *)
Definition process_body (state : WorkflowState) (reply : result string)
  : result dict :=
  let orchestrator_plan := orchestrator_plan state in
  let requirements := requirements_analysis state in
  let research_data := research_data state in
  let architecture_design := architecture_design state in
  let why_reasoning := why_reasoning state in
  impact_prompt <-
    _build_impact_prompt E state orchestrator_plan requirements research_data
      architecture_design why_reasoning ;;
  impact_response <- reply ;;
  business_impact <- _parse_impact_response impact_response ;;
  roi <-
    _calculate_roi_estimates E business_impact (business_context state)
      architecture_design ;;
  business_impact <- setitem business_impact "roi_analysis" roi ;;
  areas <- get business_impact "impact_areas" (VList []) ;;
  len areas ;;;
  confidence <- get business_impact "confidence_score" (VFloat 0.85%float) ;;
  Ok (Parser.success "business_impact" "business_impact" business_impact confidence).

Definition process (state : WorkflowState) (reply : result string) : dict :=
  match process_body state reply with
  | Ok r => r
  | Raise e =>
      Parser.failure E "business_impact" "business_impact" _get_fallback_impact e
  end.

End WithEnv.

End BusinessImpactAgent.

(** ** The educational agent (src/agents/educational_agent.py) *)

Module EducationalAgent.

Definition _get_fallback_educational_content : value :=
  VDict [
    ("key_concepts", VList [
      VDict [
        ("concept", VStr "Layered Architecture");
        ("definition", VStr "An architectural pattern that organizes code into horizontal layers, each with specific responsibilities");
        ("importance", VStr "Provides clear separation of concerns and makes applications easier to understand and maintain");
        ("examples", VList [
          VStr "Three-tier web applications";
          VStr "MVC pattern";
          VStr "Clean Architecture"]);
        ("common_mistakes", VList [
          VStr "Tight coupling between layers";
          VStr "Business logic in presentation layer"]);
        ("best_practices", VList [
          VStr "Keep layers loosely coupled";
          VStr "Define clear interfaces";
          VStr "Avoid circular dependencies"])];
      VDict [
        ("concept", VStr "API Design");
        ("definition", VStr "The process of creating interfaces that allow different software components to communicate");
        ("importance", VStr "Good API design enables system integration and provides a stable contract for clients");
        ("examples", VList [VStr "REST APIs"; VStr "GraphQL"; VStr "gRPC services"]);
        ("common_mistakes", VList [
          VStr "Inconsistent naming";
          VStr "Poor error handling";
          VStr "Lack of versioning"]);
        ("best_practices", VList [
          VStr "Use consistent naming conventions";
          VStr "Provide clear documentation";
          VStr "Implement proper error responses"])]]);
    ("pattern_explanations", VList [
      VDict [
        ("pattern", VStr "Model-View-Controller (MVC)");
        ("explanation", VStr "Separates application logic into three interconnected components: Model (data), View (presentation), and Controller (business logic)");
        ("when_to_use", VStr "Web applications, desktop applications, any system with user interface");
        ("implementation_guide", VStr "1. Define models for data, 2. Create views for presentation, 3. Implement controllers for logic, 4. Connect components with clear interfaces");
        ("code_examples", VList [
          VStr "Express.js with MVC structure";
          VStr "Spring Boot MVC";
          VStr "Django MVT"]);
        ("variations", VList [
          VStr "MVP (Model-View-Presenter)";
          VStr "MVVM (Model-View-ViewModel)"])]]);
    ("technology_deep_dives", VList [
      VDict [
        ("technology", VStr "PostgreSQL");
        ("overview", VStr "Advanced open-source relational database with strong ACID compliance and rich feature set");
        ("strengths", VList [
          VStr "ACID compliance";
          VStr "Advanced data types";
          VStr "Excellent performance";
          VStr "Strong community"]);
        ("limitations", VList [
          VStr "Vertical scaling challenges";
          VStr "Complex configuration";
          VStr "Memory usage"]);
        ("learning_resources", VList [
          VStr "PostgreSQL official documentation";
          VStr "PostgreSQL Tutorial";
          VStr "Database design courses"]);
        ("hands_on_exercises", VList [
          VStr "Set up a PostgreSQL database";
          VStr "Design a normalized schema";
          VStr "Write complex queries"])];
      VDict [
        ("technology", VStr "React");
        ("overview", VStr "JavaScript library for building user interfaces with component-based architecture");
        ("strengths", VList [
          VStr "Component reusability";
          VStr "Virtual DOM";
          VStr "Large ecosystem";
          VStr "Strong community"]);
        ("limitations", VList [
          VStr "Learning curve";
          VStr "Rapid ecosystem changes";
          VStr "SEO challenges"]);
        ("learning_resources", VList [
          VStr "React official documentation";
          VStr "React tutorials";
          VStr "Modern React courses"]);
        ("hands_on_exercises", VList [
          VStr "Build a simple React app";
          VStr "Create reusable components";
          VStr "Implement state management"])]]);
    ("practical_exercises", VList [
      VDict [
        ("exercise", VStr "Design a Simple E-commerce Architecture");
        ("objective", VStr "Apply layered architecture principles to design a basic e-commerce system");
        ("difficulty", VStr "intermediate");
        ("instructions", VStr "1. Identify main components (user management, product catalog, orders), 2. Design database schema, 3. Define API endpoints, 4. Create component interaction diagram");
        ("expected_outcome", VStr "Complete architecture diagram with clear component responsibilities");
        ("validation_criteria", VList [
          VStr "All major functions covered";
          VStr "Clear separation of concerns";
          VStr "Scalable design"])]]);
    ("learning_progression", VDict [
      ("current_level_topics", VList [
        VStr "Basic architecture patterns";
        VStr "Database design";
        VStr "API development"]);
      ("next_level_prerequisites", VList [
        VStr "Understanding of design patterns";
        VStr "Experience with databases";
        VStr "API design knowledge"]);
      ("skill_development_path", VList [
        VStr "Master fundamentals";
        VStr "Practice with real projects";
        VStr "Learn advanced patterns";
        VStr "Gain experience with scale"]);
      ("estimated_learning_time", VStr "3-4 weeks")]);
    ("real_world_applications", VList [
      VDict [
        ("scenario", VStr "E-commerce Platform Scaling");
        ("architecture_application", VStr "Using microservices to handle different business domains (users, products, orders)");
        ("case_study", VStr "Amazon's evolution from monolith to microservices enabled massive scale and team autonomy");
        ("lessons_learned", VList [
          VStr "Start simple, evolve complexity";
          VStr "Domain boundaries are crucial";
          VStr "Operational complexity increases"])]]);
    ("troubleshooting_guide", VList [
      VDict [
        ("problem", VStr "Database Performance Issues");
        ("symptoms", VList [
          VStr "Slow query responses";
          VStr "High CPU usage";
          VStr "Connection timeouts"]);
        ("root_causes", VList [
          VStr "Missing indexes";
          VStr "Inefficient queries";
          VStr "Connection pool exhaustion"]);
        ("solutions", VList [
          VStr "Add appropriate indexes";
          VStr "Optimize query structure";
          VStr "Tune connection pool settings"]);
        ("prevention", VStr "Regular performance monitoring and query analysis")]]);
    ("further_learning", VDict [
      ("recommended_books", VList [
        VStr "Clean Architecture by Robert Martin";
        VStr "Designing Data-Intensive Applications by Martin Kleppmann";
        VStr "Building Microservices by Sam Newman"]);
      ("online_courses", VList [
        VStr "System Design Interview courses";
        VStr "Database design fundamentals";
        VStr "Cloud architecture patterns"]);
      ("documentation", VList [
        VStr "AWS Architecture Center";
        VStr "Google Cloud Architecture Framework";
        VStr "Microsoft Azure Architecture Center"]);
      ("communities", VList [
        VStr "Stack Overflow";
        VStr "Reddit r/softwarearchitecture";
        VStr "Architecture decision records community"])]);
    ("assessment_questions", VList [
      VDict [
        ("question", VStr "What are the main benefits of using a layered architecture pattern?");
        ("type", VStr "open_ended");
        ("difficulty", VStr "beginner");
        ("correct_answer", VStr "Separation of concerns, maintainability, testability, clear structure");
        ("explanation", VStr "Layered architecture provides clear separation between different aspects of the application, making it easier to understand, maintain, and test")];
      VDict [
        ("question", VStr "When would you choose PostgreSQL over MongoDB for a new project?");
        ("type", VStr "open_ended");
        ("difficulty", VStr "intermediate");
        ("correct_answer", VStr "When you need ACID compliance, complex relationships, or strong consistency");
        ("explanation", VStr "PostgreSQL is better for applications requiring strong consistency, complex queries, and relational data structures")]]);
    ("learning_path", VDict [
      ("current_session_focus", VList [
        VStr "Understanding basic architecture concepts";
        VStr "Learning about layered architecture";
        VStr "Introduction to databases and APIs"]);
      ("next_steps", VList [
        VStr "Practice with simple web application architecture";
        VStr "Learn about REST API design";
        VStr "Understand database relationships"]);
      ("long_term_goals", VList [
        VStr "Master fundamental design patterns";
        VStr "Build confidence with common technologies";
        VStr "Understand system integration basics"]);
      ("estimated_completion_time", VStr "3-4 weeks")]);
    ("confidence_score", VFloat 0.85%float)].

Definition educational_defaults : list (string * value) :=
  [ ("key_concepts", VList []);
    ("pattern_explanations", VList []);
    ("technology_deep_dives", VList []);
    ("practical_exercises", VList []);
    ("learning_progression", VDict []);
    ("real_world_applications", VList []);
    ("troubleshooting_guide", VList []);
    ("further_learning", VDict []);
    ("assessment_questions", VList []);
    ("confidence_score", VFloat 0.9%float) ].

Section WithEnv.
Context (E : Env).

Definition _parse_educational_response (response : string) : result value :=
  Parser.parse E educational_defaults _get_fallback_educational_content response.

(** The body of the [try] in [process]. *)
Definition process_body (state : WorkflowState) (reply : result string)
  : result dict :=
  let orchestrator_plan := orchestrator_plan state in
  let requirements := requirements_analysis state in
  let research_data := research_data state in
  let architecture_design := architecture_design state in
  let why_reasoning := why_reasoning state in
  let business_impact := business_impact state in
  educational_prompt <-
    _build_educational_prompt E state orchestrator_plan requirements
      research_data architecture_design why_reasoning business_impact ;;
  educational_response <- reply ;;
  educational_content <- _parse_educational_response educational_response ;;
  learning_path <-
    _generate_learning_path E (expertise_level (user_profile state))
      architecture_design why_reasoning ;;
  educational_content <- setitem educational_content "learning_path" learning_path ;;
  concepts <- get educational_content "key_concepts" (VList []) ;;
  len concepts ;;;
  confidence <- get educational_content "confidence_score" (VFloat 0.9%float) ;;
  Ok (Parser.success "educational" "educational_content" educational_content
        confidence).

Definition process (state : WorkflowState) (reply : result string) : dict :=
  match process_body state reply with
  | Ok r => r
  | Raise e =>
      Parser.failure E "educational" "educational_content"
        _get_fallback_educational_content e
  end.

End WithEnv.

End EducationalAgent.

(** ** The documentation agent (src/agents/documentation_agent.py) *)

Module DocumentationAgent.

Definition _get_fallback_documentation : value :=
  VDict [
    ("document_metadata", VDict [
      ("title", VStr "Architecture Design Document");
      ("version", VStr "1.0");
      ("created_date", VStr "2024-01-01");
      ("authors", VList [VStr "Agentic Architect Platform"]);
      ("document_type", VStr "Architecture Design Document");
      ("classification", VStr "Internal")]);
    ("executive_summary", VDict [
      ("overview", VStr "This document outlines the proposed architecture for a scalable, maintainable system that addresses current business requirements while providing a foundation for future growth.");
      ("key_benefits", VList [
        VStr "Improved system scalability and performance";
        VStr "Enhanced maintainability and development productivity";
        VStr "Reduced operational costs and complexity";
        VStr "Better security and compliance posture"]);
      ("investment_required", VStr "Initial investment of $65,000 - $195,000 with ongoing operational costs");
      ("timeline", VStr "3-6 months for initial implementation, with full benefits realized within 12 months");
      ("success_metrics", VList [
        VStr "99.5% system uptime";
        VStr "25% faster feature delivery";
        VStr "40% reduction in maintenance overhead"]);
      ("recommendation", VStr "Proceed with implementation as outlined in this document")]);
    ("sections", VList [
      VDict [
        ("section_id", VStr "introduction");
        ("title", VStr "Introduction");
        ("content", VStr "This architecture design document provides a comprehensive overview of the proposed system architecture, including technical specifications, implementation guidance, and operational procedures.");
        ("subsections", VList [
          VDict [
            ("title", VStr "Purpose");
            ("content", VStr "Define the architecture for a scalable, maintainable system that meets current and future business needs.")];
          VDict [
            ("title", VStr "Scope");
            ("content", VStr "This document covers the complete system architecture including frontend, backend, database, and infrastructure components.")]]);
        ("diagrams", VList [VStr "system_overview_diagram"]);
        ("code_examples", VList [])];
      VDict [
        ("section_id", VStr "architecture_overview");
        ("title", VStr "Architecture Overview");
        ("content", VStr "The proposed architecture follows a layered pattern with clear separation of concerns, providing a solid foundation for scalable application development.");
        ("subsections", VList [
          VDict [
            ("title", VStr "Architecture Pattern");
            ("content", VStr "Layered architecture with presentation, business logic, and data access layers.")];
          VDict [
            ("title", VStr "Key Components");
            ("content", VStr "Frontend application, API gateway, backend services, and database layer.")]]);
        ("diagrams", VList [VStr "architecture_diagram"; VStr "component_diagram"]);
        ("code_examples", VList [VStr "api_example"; VStr "database_schema"])]]);
    ("technical_specifications", VDict [
      ("architecture_overview", VStr "Layered architecture with React frontend, Node.js backend, and PostgreSQL database");
      ("component_specifications", VList [
        VDict [
          ("component", VStr "Frontend Application");
          ("description", VStr "React-based user interface with responsive design");
          ("interfaces", VList [VStr "REST API"; VStr "WebSocket"]);
          ("dependencies", VList [VStr "API Gateway"; VStr "Authentication Service"]);
          ("configuration", VStr "Environment-specific configuration files")];
        VDict [
          ("component", VStr "Backend Service");
          ("description", VStr "Node.js application with Express framework");
          ("interfaces", VList [VStr "REST API"; VStr "Database Connection"]);
          ("dependencies", VList [VStr "Database"; VStr "External APIs"]);
          ("configuration", VStr "Environment variables and configuration files")]]);
      ("data_models", VList [
        VDict [
          ("model", VStr "User");
          ("description", VStr "User account and profile information");
          ("fields", VList [VStr "id"; VStr "email"; VStr "name"; VStr "created_at"]);
          ("relationships", VList [VStr "has_many conversations"])]]);
      ("api_specifications", VList [
        VDict [
          ("endpoint", VStr "/api/users");
          ("method", VStr "GET");
          ("description", VStr "Retrieve user information");
          ("parameters", VList [VStr "user_id"]);
          ("responses", VList [VStr "200 OK"; VStr "404 Not Found"])]])]);
    ("implementation_guide", VDict [
      ("prerequisites", VList [
        VStr "Node.js 18+ installed";
        VStr "PostgreSQL 13+ database";
        VStr "Git version control";
        VStr "Development environment setup"]);
      ("setup_instructions", VList [
        VStr "Clone the repository";
        VStr "Install dependencies with npm install";
        VStr "Configure environment variables";
        VStr "Run database migrations";
        VStr "Start the development server"]);
      ("configuration_guide", VStr "Configure environment variables for database connection, API keys, and application settings");
      ("deployment_steps", VList [
        VStr "Build production assets";
        VStr "Deploy to staging environment";
        VStr "Run integration tests";
        VStr "Deploy to production";
        VStr "Monitor deployment"]);
      ("testing_strategy", VStr "Unit tests, integration tests, and end-to-end testing with automated CI/CD pipeline");
      ("rollback_procedures", VStr "Automated rollback using deployment scripts and database migration rollbacks")]);
    ("operational_guide", VDict [
      ("monitoring_setup", VStr "Application performance monitoring with logging and alerting");
      ("logging_strategy", VStr "Centralized logging with structured log format and log aggregation");
      ("backup_procedures", VStr "Automated daily database backups with point-in-time recovery");
      ("security_considerations", VList [
        VStr "HTTPS encryption for all communications";
        VStr "JWT token-based authentication";
        VStr "Input validation and sanitization";
        VStr "Regular security updates"]);
      ("performance_tuning", VStr "Database query optimization, caching strategies, and load balancing");
      ("troubleshooting", VList [
        VDict [
          ("issue", VStr "Application slow response times");
          ("symptoms", VList [VStr "High response times"; VStr "User complaints"]);
          ("resolution", VStr "Check database performance, review slow queries, optimize caching")]])]);
    ("decision_log", VList [
      VDict [
        ("decision", VStr "Use React for frontend framework");
        ("date", VStr "2024-01-01");
        ("rationale", VStr "Team expertise, large ecosystem, component reusability");
        ("alternatives", VList [VStr "Vue.js"; VStr "Angular"]);
        ("impact", VStr "Faster development, better maintainability");
        ("status", VStr "approved")];
      VDict [
        ("decision", VStr "Use PostgreSQL for primary database");
        ("date", VStr "2024-01-01");
        ("rationale", VStr "ACID compliance, advanced features, performance");
        ("alternatives", VList [VStr "MySQL"; VStr "MongoDB"]);
        ("impact", VStr "Better data consistency, advanced query capabilities");
        ("status", VStr "approved")]]);
    ("appendices", VDict [
      ("glossary", VList [
        VDict [
          ("term", VStr "API");
          ("definition", VStr "Application Programming Interface - a set of protocols and tools for building software applications")];
        VDict [
          ("term", VStr "REST");
          ("definition", VStr "Representational State Transfer - an architectural style for designing networked applications")]]);
      ("references", VList [
        VStr "Clean Architecture by Robert Martin";
        VStr "Designing Data-Intensive Applications by Martin Kleppmann";
        VStr "React Documentation - https://reactjs.org/docs/";
        VStr "PostgreSQL Documentation - https://www.postgresql.org/docs/"]);
      ("change_log", VList [
        VDict [
          ("version", VStr "1.0");
          ("date", VStr "2024-01-01");
          ("changes", VList [
            VStr "Initial document creation";
            VStr "Architecture design completed"])]])]);
    ("export_formats", VDict [
      ("markdown", VStr ("# Architecture Design Document" +++ PyStr.nl +++ PyStr.nl +++ "## Executive Summary" +++ PyStr.nl +++ PyStr.nl +++ "This document outlines the proposed architecture..."));
      ("pdf_ready", VDict [
        ("title_page", VDict [
          ("title", VStr "Architecture Design Document");
          ("subtitle", VStr "Comprehensive Architecture Documentation");
          ("version", VStr "1.0");
          ("date", VStr "2024-01-01")])])]);
    ("confidence_score", VFloat 0.9%float)].

Definition documentation_defaults : list (string * value) :=
  [ ("document_metadata", VDict []);
    ("executive_summary", VDict []);
    ("sections", VList []);
    ("technical_specifications", VDict []);
    ("implementation_guide", VDict []);
    ("operational_guide", VDict []);
    ("decision_log", VList []);
    ("appendices", VDict []);
    ("confidence_score", VFloat 0.9%float) ].

Section WithEnv.
Context (E : Env).

Definition _parse_documentation_response (response : string) : result value :=
  Parser.parse E documentation_defaults _get_fallback_documentation response.

(** The body of the [try] in [process]. *)
Definition process_body (state : WorkflowState) (reply : result string)
  : result dict :=
  let orchestrator_plan := orchestrator_plan state in
  let requirements := requirements_analysis state in
  let research_data := research_data state in
  let architecture_design := architecture_design state in
  let why_reasoning := why_reasoning state in
  let business_impact := business_impact state in
  let educational_content := educational_content state in
  documentation_prompt <-
    _build_documentation_prompt E state orchestrator_plan requirements
      research_data architecture_design why_reasoning business_impact
      educational_content ;;
  documentation_response <- reply ;;
  documentation <- _parse_documentation_response documentation_response ;;
  export_formats <-
    _generate_export_formats E documentation architecture_design why_reasoning
      business_impact ;;
  documentation <- setitem documentation "export_formats" export_formats ;;
  sections <- get documentation "sections" (VList []) ;;
  len sections ;;;
  confidence <- get documentation "confidence_score" (VFloat 0.9%float) ;;
  Ok (Parser.success "documentation" "documentation" documentation confidence).

Definition process (state : WorkflowState) (reply : result string) : dict :=
  match process_body state reply with
  | Ok r => r
  | Raise e =>
      Parser.failure E "documentation" "documentation"
        _get_fallback_documentation e
  end.

End WithEnv.

End DocumentationAgent.

(** ** The sequential workflow (src/workflows/sequential_workflow.py) *)

Module SequentialWorkflow.

(** Assignments to a field of the state. *)
Definition set_orchestrator_plan (state : WorkflowState) (x : value) : WorkflowState :=
  {| conversation_id := conversation_id state;
     user_query := user_query state; user_profile := user_profile state;
     business_context := business_context state; orchestrator_plan := x;
     requirements_analysis := requirements_analysis state;
     research_findings := research_findings state;
     research_data := research_data state;
     architecture_design := architecture_design state;
     why_reasoning := why_reasoning state;
     business_impact := business_impact state;
     educational_content := educational_content state;
     documentation := documentation state;
     current_step := current_step state;
     completed_steps := completed_steps state;
     conversation_history := conversation_history state;
     metadata := metadata state |}.

Definition set_requirements_analysis (state : WorkflowState) (x : value) : WorkflowState :=
  {| conversation_id := conversation_id state;
     user_query := user_query state; user_profile := user_profile state;
     business_context := business_context state;
     orchestrator_plan := orchestrator_plan state;
     requirements_analysis := x;
     research_findings := research_findings state;
     research_data := research_data state;
     architecture_design := architecture_design state;
     why_reasoning := why_reasoning state;
     business_impact := business_impact state;
     educational_content := educational_content state;
     documentation := documentation state;
     current_step := current_step state;
     completed_steps := completed_steps state;
     conversation_history := conversation_history state;
     metadata := metadata state |}.

Definition set_research_data (state : WorkflowState) (x : value) : WorkflowState :=
  {| conversation_id := conversation_id state;
     user_query := user_query state; user_profile := user_profile state;
     business_context := business_context state;
     orchestrator_plan := orchestrator_plan state;
     requirements_analysis := requirements_analysis state;
     research_findings := research_findings state; research_data := x;
     architecture_design := architecture_design state;
     why_reasoning := why_reasoning state;
     business_impact := business_impact state;
     educational_content := educational_content state;
     documentation := documentation state;
     current_step := current_step state;
     completed_steps := completed_steps state;
     conversation_history := conversation_history state;
     metadata := metadata state |}.

Definition set_architecture_design (state : WorkflowState) (x : value) : WorkflowState :=
  {| conversation_id := conversation_id state;
     user_query := user_query state; user_profile := user_profile state;
     business_context := business_context state;
     orchestrator_plan := orchestrator_plan state;
     requirements_analysis := requirements_analysis state;
     research_findings := research_findings state;
     research_data := research_data state; architecture_design := x;
     why_reasoning := why_reasoning state;
     business_impact := business_impact state;
     educational_content := educational_content state;
     documentation := documentation state;
     current_step := current_step state;
     completed_steps := completed_steps state;
     conversation_history := conversation_history state;
     metadata := metadata state |}.

Definition set_why_reasoning (state : WorkflowState) (x : value) : WorkflowState :=
  {| conversation_id := conversation_id state;
     user_query := user_query state; user_profile := user_profile state;
     business_context := business_context state;
     orchestrator_plan := orchestrator_plan state;
     requirements_analysis := requirements_analysis state;
     research_findings := research_findings state;
     research_data := research_data state;
     architecture_design := architecture_design state; why_reasoning := x;
     business_impact := business_impact state;
     educational_content := educational_content state;
     documentation := documentation state;
     current_step := current_step state;
     completed_steps := completed_steps state;
     conversation_history := conversation_history state;
     metadata := metadata state |}.

Definition set_business_impact (state : WorkflowState) (x : value) : WorkflowState :=
  {| conversation_id := conversation_id state;
     user_query := user_query state; user_profile := user_profile state;
     business_context := business_context state;
     orchestrator_plan := orchestrator_plan state;
     requirements_analysis := requirements_analysis state;
     research_findings := research_findings state;
     research_data := research_data state;
     architecture_design := architecture_design state;
     why_reasoning := why_reasoning state; business_impact := x;
     educational_content := educational_content state;
     documentation := documentation state;
     current_step := current_step state;
     completed_steps := completed_steps state;
     conversation_history := conversation_history state;
     metadata := metadata state |}.

Definition set_educational_content (state : WorkflowState) (x : value) : WorkflowState :=
  {| conversation_id := conversation_id state;
     user_query := user_query state; user_profile := user_profile state;
     business_context := business_context state;
     orchestrator_plan := orchestrator_plan state;
     requirements_analysis := requirements_analysis state;
     research_findings := research_findings state;
     research_data := research_data state;
     architecture_design := architecture_design state;
     why_reasoning := why_reasoning state;
     business_impact := business_impact state; educational_content := x;
     documentation := documentation state;
     current_step := current_step state;
     completed_steps := completed_steps state;
     conversation_history := conversation_history state;
     metadata := metadata state |}.

Definition set_documentation (state : WorkflowState) (x : value) : WorkflowState :=
  {| conversation_id := conversation_id state;
     user_query := user_query state; user_profile := user_profile state;
     business_context := business_context state;
     orchestrator_plan := orchestrator_plan state;
     requirements_analysis := requirements_analysis state;
     research_findings := research_findings state;
     research_data := research_data state;
     architecture_design := architecture_design state;
     why_reasoning := why_reasoning state;
     business_impact := business_impact state;
     educational_content := educational_content state; documentation := x;
     current_step := current_step state;
     completed_steps := completed_steps state;
     conversation_history := conversation_history state;
     metadata := metadata state |}.

Definition set_current_step (state : WorkflowState) (x : string) : WorkflowState :=
  {| conversation_id := conversation_id state;
     user_query := user_query state; user_profile := user_profile state;
     business_context := business_context state;
     orchestrator_plan := orchestrator_plan state;
     requirements_analysis := requirements_analysis state;
     research_findings := research_findings state;
     research_data := research_data state;
     architecture_design := architecture_design state;
     why_reasoning := why_reasoning state;
     business_impact := business_impact state;
     educational_content := educational_content state;
     documentation := documentation state; current_step := x;
     completed_steps := completed_steps state;
     conversation_history := conversation_history state;
     metadata := metadata state |}.

Definition set_completed_steps (state : WorkflowState) (x : list string) : WorkflowState :=
  {| conversation_id := conversation_id state;
     user_query := user_query state; user_profile := user_profile state;
     business_context := business_context state;
     orchestrator_plan := orchestrator_plan state;
     requirements_analysis := requirements_analysis state;
     research_findings := research_findings state;
     research_data := research_data state;
     architecture_design := architecture_design state;
     why_reasoning := why_reasoning state;
     business_impact := business_impact state;
     educational_content := educational_content state;
     documentation := documentation state;
     current_step := current_step state; completed_steps := x;
     conversation_history := conversation_history state;
     metadata := metadata state |}.

(** What the completion client answers to the one call a step makes
    (the architecture step makes two), were the call reached. *)
Record Replies : Type := {
  orchestrator_reply : result string;
  requirements_reply : result string;
  research_reply : result string;
  analysis_reply : result string;
  architecture_reply : result string;
  why_reasoning_reply : result string;
  business_impact_reply : result string;
  educational_reply : result string;
  documentation_reply : result string
}.

(** The aggregate [_compile_comprehensive_response] returns. *)
Record Response : Type := {
  success : bool;
  workflow_type : string;
  response_conversation_id : string;
  final_content : string;
  next_questions : list value;
  suggested_actions : list string;
  response_completed_steps : list string;
  confidence_score : value;
  agent_outputs : dict;
  response_metadata : value
}.

Definition validate_state (state : WorkflowState) : bool :=
  truthy (VStr (conversation_id state)) && truthy (VStr (user_query state)).

Section WithEnv.
Context (E : Env).

(** *** The content of the final answer *)

(** The bullet of the summary lines, U+2022 in UTF-8, and a space. *)
Definition bullet : string :=
  String (ascii_of_nat 226) (String (ascii_of_nat 128)
    (String (ascii_of_nat 162) " ")).

(** [v.get(k, dflt).title()]: a method of strings only *)
Definition titled (v : value) (k dflt : string) : result string :=
  x <- get v k (VStr dflt) ;;
  match x with
  | VStr s => Ok (str_title E s)
  | _ => Raise AttributeError
  end.

(** [f"{v.get(k, dflt)}"] *)
Definition shown (v : value) (k : string) (dflt : string) : result string :=
  x <- get v k (VStr dflt) ;;
  Ok (format E x).

(** [for x in v[:n]: lines.extend(line(x))] *)
Definition for_first (n : nat) (v : value) (line : value -> result (list string))
  : result (list string) :=
  first <- PyLib.slice_to v n ;;
  items <- iterate first ;;
  lines <- mapM line items ;;
  Ok (concat lines).

Definition impact_lines (business_impact : value) : result (list string) :=
  if truthy business_impact then
    exec_summary <- get business_impact "executive_summary" (VDict []) ;;
    if truthy exec_summary then
      overall <- titled exec_summary "overall_impact" "Positive" ;;
      recommendation <- titled exec_summary "recommendation" "Proceed" ;;
      let head :=
        [ "**Overall Impact**: " +++ overall;
          "**Recommendation**: " +++ recommendation;
          EmptyString ] in
      benefits <- get exec_summary "key_benefits" (VList []) ;;
      if truthy benefits then
        items <- for_first 3 benefits (fun benefit => Ok [bullet +++ format E benefit]) ;;
        Ok (head ++ ["**Key Benefits:**"] ++ items ++ [EmptyString])
      else Ok head
    else Ok []
  else Ok [].

Definition architecture_lines (architecture_design : value) : result (list string) :=
  if truthy architecture_design then
    overview <- get architecture_design "architecture_overview" (VDict []) ;;
    head <-
      (if truthy overview then
         pattern <- titled overview "pattern" "Not specified" ;;
         description <- shown overview "description" "Architecture design completed" ;;
         Ok [ "## Architecture Overview";
              "**Pattern**: " +++ pattern;
              "**Description**: " +++ description;
              EmptyString ]
       else Ok []) ;;
    components <- get architecture_design "components" (VList []) ;;
    if truthy components then
      items <-
        for_first 4 components (fun comp =>
          name <- shown comp "name" EmptyString ;;
          description <- shown comp "description" EmptyString ;;
          Ok [bullet +++ "**" +++ name +++ "**: " +++ description]) ;;
      Ok (head ++ ["**Key Components:**"] ++ items ++ [EmptyString])
    else Ok head
  else Ok [].

Definition reasoning_lines (why_reasoning : value) : result (list string) :=
  if truthy why_reasoning then
    decisions <- get why_reasoning "architectural_decisions" (VList []) ;;
    if truthy decisions then
      items <-
        for_first 2 decisions (fun decision =>
          name <- shown decision "decision" EmptyString ;;
          rationale <- shown decision "rationale" EmptyString ;;
          Ok [ "**" +++ name +++ "**";
               "*Rationale*: " +++ rationale;
               EmptyString ]) ;;
      Ok (["## Key Architectural Decisions"; EmptyString] ++ items)
    else Ok []
  else Ok [].

Definition learning_lines (educational_content : value) : result (list string) :=
  if truthy educational_content then
    concepts <- get educational_content "key_concepts" (VList []) ;;
    if truthy concepts then
      items <-
        for_first 2 concepts (fun concept =>
          name <- shown concept "concept" EmptyString ;;
          definition <- shown concept "definition" EmptyString ;;
          Ok [ "**" +++ name +++ "**: " +++ definition; EmptyString ]) ;;
      Ok ([ "## Learning Opportunities";
            "Based on your expertise level, here are key concepts to explore:";
            EmptyString ] ++ items)
    else Ok []
  else Ok [].

Definition next_steps_lines : list string :=
  [ "## Next Steps";
    "I've prepared a complete architecture design with detailed documentation, business impact analysis, and educational resources.";
    EmptyString;
    "**Immediate Actions:**";
    "1. Review the detailed architecture design and documentation";
    "2. Examine the business impact analysis and ROI projections";
    "3. Explore the educational content to deepen your understanding";
    "4. Consider the implementation roadmap and timeline";
    EmptyString;
    "Would you like me to elaborate on any specific aspect of the analysis?" ].

Definition _generate_comprehensive_content (state : WorkflowState) : result string :=
  let content_parts :=
    [ "I've completed a comprehensive analysis of your request: " +++ user_query state;
      EmptyString;
      "## Executive Summary" ] in
  impact <- impact_lines (business_impact state) ;;
  architecture <- architecture_lines (architecture_design state) ;;
  reasoning <- reasoning_lines (why_reasoning state) ;;
  learning <- learning_lines (educational_content state) ;;
  Ok (PyStr.join PyStr.nl
        (content_parts ++ impact ++ architecture ++ reasoning ++ learning
           ++ next_steps_lines)).

(** *** Questions, actions and confidence *)

Definition default_questions : list value :=
  [ VStr "Would you like me to explain any specific architectural decisions in more detail?";
    VStr "Are there particular aspects of the implementation you'd like to focus on?";
    VStr "Do you have questions about the business impact or ROI analysis?";
    VStr "Would you like to explore the educational content for any specific technologies?" ].

Definition default_actions : list string :=
  [ "Review and approve the architecture design document";
    "Begin implementation planning and team preparation";
    "Set up development environment and initial infrastructure";
    "Start with the first implementation phase" ].

(** The list [questions] before the default is considered. *)
Definition collected_questions (state : WorkflowState) : result (list value) :=
  questions <-
    (if truthy (requirements_analysis state) then
       clarification <-
         get (requirements_analysis state) "clarification_questions" (VList []) ;;
       iterate clarification
     else Ok []) ;;
  if truthy (educational_content state) then
    assessment <- get (educational_content state) "assessment_questions" (VList []) ;;
    if truthy assessment then
      first <- PyLib.slice_to assessment 2 ;;
      items <- iterate first ;;
      asked <- mapM (fun q => get q "question" (VStr EmptyString)) items ;;
      Ok (questions ++ asked)
    else Ok questions
  else Ok questions.

Definition _extract_comprehensive_questions (state : WorkflowState)
  : result (list value) :=
  questions <- collected_questions state ;;
  let questions :=
    match questions with
    | [] => default_questions
    | _ :: _ => questions
    end in
  Ok (firstn 4 questions).

Definition milestone_action (milestone : value) : result string :=
  name <- shown milestone "milestone" EmptyString ;;
  timeline <- shown milestone "timeline" EmptyString ;;
  Ok ("Achieve " +++ name +++ " within " +++ timeline).

Definition phase_action (phase : value) : result string :=
  number <- shown phase "phase" EmptyString ;;
  name <- shown phase "name" EmptyString ;;
  duration <- shown phase "duration" EmptyString ;;
  Ok ("Phase " +++ number +++ ": " +++ name +++ " (" +++ duration +++ ")").

(** The list [actions] before the default is considered. *)
Definition collected_actions (state : WorkflowState) : result (list string) :=
  actions <-
    (if truthy (business_impact state) then
       timeline <- get (business_impact state) "timeline_impact" (VDict []) ;;
       if truthy timeline then
         milestones <- get timeline "business_value_realization" (VList []) ;;
         if truthy milestones then
           first <- PyLib.slice_to milestones 2 ;;
           items <- iterate first ;;
           mapM milestone_action items
         else Ok []
       else Ok []
     else Ok []) ;;
  if truthy (architecture_design state) then
    phases <- get (architecture_design state) "implementation_phases" (VList []) ;;
    if truthy phases then
      first <- PyLib.slice_to phases 2 ;;
      items <- iterate first ;;
      more <- mapM phase_action items ;;
      Ok (actions ++ more)
    else Ok actions
  else Ok actions.

Definition _extract_comprehensive_actions (state : WorkflowState)
  : result (list string) :=
  actions <- collected_actions state ;;
  let actions :=
    match actions with
    | [] => default_actions
    | _ :: _ => actions
    end in
  Ok (firstn 4 actions).

(** The loop that collects [confidence_scores]. *)
Fixpoint collect_scores (agent_outputs : dict) : list value :=
  match agent_outputs with
  | [] => []
  | (agent_name, output) :: rest =>
      match output with
      | VDict d =>
          match lookup d "confidence_score" with
          | Some score => score :: collect_scores rest
          | None => collect_scores rest
          end
      | _ => collect_scores rest
      end
  end.

(** [sum(confidence_scores) / len(confidence_scores)], or the default
    confidence *)
Definition _calculate_overall_confidence (agent_outputs : dict) : result value :=
  let confidence_scores := collect_scores agent_outputs in
  match confidence_scores with
  | [] => Ok (VFloat 0.85%float)
  | _ :: _ =>
      total <- py_sum E confidence_scores ;;
      py_truediv E total (VInt (Z.of_nat (List.length confidence_scores)))
  end.

Definition _generate_processing_summary (state : WorkflowState) : value :=
  VDict [
    ("agents_completed", VList (map VStr (completed_steps state)));
    ("total_agents", VInt 8);
    ("workflow_status", VStr "completed");
    ("has_architecture_design", VBool true);
    ("has_business_impact", VBool true);
    ("has_educational_content", VBool true);
    ("has_documentation", VBool true);
    ("comprehensive_analysis", VBool true)].

Definition _compile_comprehensive_response (state : WorkflowState)
  : result Response :=
  content <- _generate_comprehensive_content state ;;
  next_questions <- _extract_comprehensive_questions state ;;
  suggested_actions <- _extract_comprehensive_actions state ;;
  let agent_outputs :=
    [ ("orchestrator_plan", orchestrator_plan state);
      ("requirements_analysis", requirements_analysis state);
      ("research_data", research_data state);
      ("architecture_design", architecture_design state);
      ("why_reasoning", why_reasoning state);
      ("business_impact", business_impact state);
      ("educational_content", educational_content state);
      ("documentation", documentation state) ] in
  confidence <- _calculate_overall_confidence agent_outputs ;;
  Ok {| success := true;
        workflow_type := "SEQUENTIAL";
        response_conversation_id := conversation_id state;
        final_content := content;
        next_questions := next_questions;
        suggested_actions := suggested_actions;
        response_completed_steps := completed_steps state;
        confidence_score := confidence;
        agent_outputs := agent_outputs;
        response_metadata :=
          VDict [
            ("workflow_completed", VBool true);
            ("total_steps", VInt (Z.of_nat (List.length (completed_steps state))));
            ("final_step", VStr (current_step state));
            ("agents_executed", VInt 8);
            ("processing_summary", _generate_processing_summary state)] |}.

(** *** The driver

    Each step stores the agent's output in its slot, appends the step
    name to [completed_steps], moves [current_step] on and then fills
    its entry of [step_results]; the three states it passes through
    are recorded, the latest last. *)

Definition Step : Type := WorkflowState -> list WorkflowState * result unit.

Definition advance (stored : WorkflowState) (name next : string)
  : list WorkflowState :=
  let appended := set_completed_steps stored (completed_steps stored ++ [name]) in
  let moved := set_current_step appended next in
  [stored; appended; moved].

Definition measured (v : value) (k : string) : result nat :=
  x <- get v k (VList []) ;;
  len x.

Context (replies : Replies).

Definition step_orchestrator : Step := fun initial_state =>
  let orchestrator_result :=
    OrchestratorAgent.process E initial_state (orchestrator_reply replies) in
  let stored :=
    set_orchestrator_plan initial_state
      (dget orchestrator_result "orchestrator_plan" (VDict [])) in
  let plan := orchestrator_plan stored in
  (advance stored "orchestrator" "requirements",
   get plan "workflow_type" VNone ;;;
   get plan "agents_required" (VList []) ;;;
   get plan "complexity_score" VNone ;;;
   Ok tt).

Definition step_requirements : Step := fun initial_state =>
  let requirements_result :=
    RequirementsAgent.process E initial_state (requirements_reply replies) in
  let stored :=
    set_requirements_analysis initial_state
      (dget requirements_result "requirements_analysis" (VDict [])) in
  let analysis := requirements_analysis stored in
  (advance stored "requirements" "research",
   measured analysis "functional_requirements" ;;;
   measured analysis "non_functional_requirements" ;;;
   measured analysis "clarification_questions" ;;;
   Ok tt).

Definition step_research : Step := fun initial_state =>
  let research_result :=
    ResearchAgent.process E initial_state (research_reply replies) in
  let stored :=
    set_research_data initial_state
      (dget research_result "research_data" (VDict [])) in
  let data := research_data stored in
  (advance stored "research" "architecture",
   measured data "architectural_patterns" ;;;
   measured data "technology_recommendations" ;;;
   measured data "market_analysis" ;;;
   Ok tt).

Definition step_architecture : Step := fun initial_state =>
  let architecture_result :=
    ArchitectureAgent.process E initial_state (analysis_reply replies)
      (architecture_reply replies) in
  let stored :=
    set_architecture_design initial_state
      (dget architecture_result "architecture_design" (VDict [])) in
  let design := architecture_design stored in
  (advance stored "architecture" "why_reasoning",
   measured design "components" ;;;
   measured design "connections" ;;;
   overview <- get design "architecture_overview" (VDict []) ;;
   get overview "pattern" VNone ;;;
   get design "visualization_data" VNone ;;;
   Ok tt).

Definition step_why_reasoning : Step := fun initial_state =>
  let why_reasoning_result :=
    WhyReasoningAgent.process E initial_state (why_reasoning_reply replies) in
  let stored :=
    set_why_reasoning initial_state
      (dget why_reasoning_result "why_reasoning" (VDict [])) in
  let reasoning := why_reasoning stored in
  (advance stored "why_reasoning" "business_impact",
   measured reasoning "architectural_decisions" ;;;
   measured reasoning "trade_offs" ;;;
   measured reasoning "alternatives" ;;;
   Ok tt).

Definition step_business_impact : Step := fun initial_state =>
  let business_impact_result :=
    BusinessImpactAgent.process E initial_state (business_impact_reply replies) in
  let stored :=
    set_business_impact initial_state
      (dget business_impact_result "business_impact" (VDict [])) in
  let impact := business_impact stored in
  (advance stored "business_impact" "educational",
   get impact "financial_analysis" VNone ;;;
   get impact "risk_analysis" VNone ;;;
   get impact "timeline_impact" VNone ;;;
   summary <- get impact "executive_summary" (VDict []) ;;
   get summary "recommendation" VNone ;;;
   Ok tt).

Definition step_educational : Step := fun initial_state =>
  let educational_result :=
    EducationalAgent.process E initial_state (educational_reply replies) in
  let stored :=
    set_educational_content initial_state
      (dget educational_result "educational_content" (VDict [])) in
  let content := educational_content stored in
  (advance stored "educational" "documentation",
   measured content "key_concepts" ;;;
   measured content "learning_path" ;;;
   measured content "assessment_questions" ;;;
   Ok tt).

Definition step_documentation : Step := fun initial_state =>
  let documentation_result :=
    DocumentationAgent.process E initial_state (documentation_reply replies) in
  let stored :=
    set_documentation initial_state
      (dget documentation_result "documentation" (VDict [])) in
  let doc := documentation stored in
  (advance stored "documentation" "completed",
   measured doc "sections" ;;;
   get doc "technical_specifications" VNone ;;;
   get doc "implementation_guide" VNone ;;;
   get doc "format" (VStr "markdown") ;;;
   Ok tt).

Definition steps : list Step :=
  [ step_orchestrator; step_requirements; step_research; step_architecture;
    step_why_reasoning; step_business_impact; step_educational;
    step_documentation ].

(** The steps in order, until one raises; the states visited come
    back with the outcome. *)
Fixpoint run_steps (todo : list Step) (state : WorkflowState)
  : list WorkflowState * result WorkflowState :=
  match todo with
  | [] => ([], Ok state)
  | step :: rest =>
      let (visited, outcome) := step state in
      let state' := last visited state in
      match outcome with
      | Ok _ =>
          let (later, final) := run_steps rest state' in
          (visited ++ later, final)
      | Raise e => (visited, Raise e)
      end
  end.

(** A run: the states [initial_state] went through, the given one
    first, and what [execute] returned or raised. *)
Record Run : Type := {
  trace : list WorkflowState;
  outcome : result Response
}.

Definition execute (initial_state : WorkflowState) : Run :=
  if negb (validate_state initial_state) then
    {| trace := [initial_state]; outcome := Raise ValueError |}
  else
    let (visited, final) := run_steps steps initial_state in
    {| trace := initial_state :: visited;
       outcome :=
         catch
           (state <- final ;; _compile_comprehensive_response state)
           (fun e => Raise e) |}.

(** The state the caller is left with. *)
Definition final_state (initial_state : WorkflowState) : WorkflowState :=
  last (trace (execute initial_state)) initial_state.

End WithEnv.

(** The output slot a step name stands for. *)
Definition slot_of (name : string) : option (WorkflowState -> value) :=
  if String.eqb name "orchestrator" then Some orchestrator_plan
  else if String.eqb name "requirements" then Some requirements_analysis
  else if String.eqb name "research" then Some research_data
  else if String.eqb name "architecture" then Some architecture_design
  else if String.eqb name "why_reasoning" then Some why_reasoning
  else if String.eqb name "business_impact" then Some business_impact
  else if String.eqb name "educational" then Some educational_content
  else if String.eqb name "documentation" then Some documentation
  else None.

Definition step_names : list string :=
  [ "orchestrator"; "requirements"; "research"; "architecture";
    "why_reasoning"; "business_impact"; "educational"; "documentation" ].

End SequentialWorkflow.

(** * Vocabulary of the properties *)

(** ** The wire format of an architecture update *)

Module Continuity.

Definition is_architecture_update (msg : dict) : bool :=
  eq_str (dget msg "messageType" VNone) "ARCHITECTURE_UPDATE".

(** The object at [metadata.agentResponse.architectureUpdate], when the
    path leads to one. *)
Definition update_payload (msg : dict) : option value :=
  match lookup msg "metadata" with
  | Some (VDict metadata) =>
      match lookup metadata "agentResponse" with
      | Some (VDict agent_response) => lookup agent_response "architectureUpdate"
      | _ => None
      end
  | _ => None
  end.

(** The payload has a non-empty component list. *)
Definition has_components (payload : value) : bool :=
  match payload with
  | VDict d => nonempty_list (dget d "components" VNone)
  | _ => false
  end.

(** The payload a message contributes, if it is an architecture update
    with a non-empty component list. *)
Definition qualifying (msg : dict) : option value :=
  if is_architecture_update msg then
    match update_payload msg with
    | Some payload => if has_components payload then Some payload else None
    | None => None
    end
  else None.

(** The payload of the most recent qualifying message of a history
    given oldest first. *)
Fixpoint most_recent_architecture (history : list dict) : option value :=
  match history with
  | [] => None
  | msg :: later =>
      match most_recent_architecture later with
      | Some payload => Some payload
      | None => qualifying msg
      end
  end.

Definition existing_or_new (found : option value) : value :=
  match found with
  | Some payload => payload
  | None => VDict []
  end.

(** An architecture update follows the wire format when [metadata] and
    [agentResponse], where present, are objects, [architectureUpdate]
    is an object or null and [components] a list or null. *)
Definition well_formed (msg : dict) : bool :=
  if is_architecture_update msg then
    match lookup msg "metadata" with
    | None => true
    | Some (VDict metadata) =>
        match lookup metadata "agentResponse" with
        | None => true
        | Some (VDict agent_response) =>
            match lookup agent_response "architectureUpdate" with
            | None | Some VNone => true
            | Some (VDict update) =>
                match lookup update "components" with
                | None | Some VNone | Some (VList _) => true
                | Some _ => false
                end
            | Some _ => false
            end
        | Some _ => false
        end
    | Some _ => false
    end
  else true.

(** The first qualifying message of a list given most recent first. *)
Fixpoint first_qualifying (msgs : list dict) : option value :=
  match msgs with
  | [] => None
  | msg :: rest =>
      match qualifying msg with
      | Some payload => Some payload
      | None => first_qualifying rest
      end
  end.

(** The [components] entry of a design the model produced is a list,
    if it is there and not empty. *)
Definition components_listed (design : dict) : bool :=
  match lookup design "components" with
  | None => true
  | Some (VList _) => true
  | Some v => negb (truthy v)
  end.

End Continuity.

(** ** Failure of structured extraction *)

Module Decoding.

(** The completion has neither a fenced block nor a brace span. *)
Definition no_json_span (response : string) : bool :=
  negb (PyStr.contains response fence)
  && negb (PyStr.contains response "{" && PyStr.contains response "}").

(** The object the extracted span deserializes to, if there is one. *)
Definition decoded_object (E : Env) (response : string) : option dict :=
  match extract_json_span response with
  | Ok json_str =>
      match json_loads E json_str with
      | Ok (VDict d) => Some d
      | _ => None
      end
  | Raise _ => None
  end.


(** Structured extraction fails: no span, or a span that does not
    deserialize to a JSON object. *)
Definition extraction_fails (E : Env) (response : string) : bool :=
  match decoded_object E response with
  | Some _ => false
  | None => true
  end.

(** The keys of [defaults] missing from [d], added in order. *)
Fixpoint fill_defaults (d : dict) (defaults : list (string * value)) : dict :=
  match defaults with
  | [] => d
  | (k, dflt) :: rest => fill_defaults (dsetdefault d k dflt) rest
  end.

End Decoding.

(** ** The sections of the context prompt *)

Module ContextPrompt.

(** The last six entries of a history, all of them when it has six or
    fewer. *)
Definition last_six {A} (history : list A) : list A :=
  skipn (List.length history - 6) history.

(** A text of more than 300 characters is replaced by its first 300
    characters and an ellipsis. *)
Definition shortened (content : string) : string :=
  if (300 <? List.length (Utf8.chars content))%nat
  then Utf8.text (firstn 300 (Utf8.chars content)) +++ "..."
  else content.

(** The text of an entry; an entry without [content] has the empty
    text. *)
Definition text_of (msg : dict) : option string :=
  match lookup msg "content" with
  | None => Some EmptyString
  | Some (VStr s) => Some s
  | Some _ => None
  end.

Definition has_text (msg : dict) : bool :=
  match text_of msg with Some _ => true | None => false end.

Definition text_or_empty (msg : dict) : string :=
  match text_of msg with Some s => s | None => EmptyString end.

Definition line_break : string := String (ascii_of_nat 10) EmptyString.

(** The line that opens the history block. *)
Definition history_title : string :=
  line_break +++ "PREVIOUS CONVERSATION CONTEXT:".

(** The fixed instruction line that closes it. *)
Definition build_upon_instruction : string :=
  "NOTE: Build upon and enhance previous architectural decisions rather than replacing them completely.".

Section WithEnv.
Context (E : Env).

(** ["- {role}: {content}"], tagged for an architecture update *)
Definition entry_line (msg : dict) : string :=
  "- " +++ format E (dget msg "role" (VStr "unknown"))
  +++ (if Continuity.is_architecture_update msg
       then ": [ARCHITECTURE UPDATE] "
       else ": ")
  +++ shortened (text_or_empty msg).

(** The history block: nothing for an empty history. *)
Definition history_block (history : list dict) : list string :=
  match history with
  | [] => []
  | _ :: _ =>
      [history_title]
        ++ map entry_line (last_six history)
        ++ [build_upon_instruction]
  end.

(** The lines before it: query, expertise, and role and business
    context if any. *)
Definition opening (state : WorkflowState) : list string :=
  [ "User Query: " +++ user_query state;
    "User Expertise: " +++ format_expertise E (expertise_level (user_profile state)) ]
  ++ match business_role (user_profile state) with
     | Some role =>
         if String.eqb role EmptyString then [] else ["Business Role: " +++ role]
     | None => []
     end
  ++ match business_context state with
     | Some bc => ["Business Context: " +++ format_business_context E bc]
     | None => []
     end.

(** A labeled section carrying an output verbatim, if the output is
    not empty. *)
Definition labeled (label : string) (output : value) : list string :=
  if truthy output then [label +++ format E output] else [].

Definition architecture_reminder : string :=
  "IMPORTANT: Enhance and extend the existing architecture, don't create a completely new one.".

(** The sections after it, as the code has them: the research section
    is read from [research_findings]. *)
Definition prior_outputs (state : WorkflowState) : list string :=
  labeled "Requirements: " (requirements_analysis state)
  ++ labeled "Research: " (research_findings state)
  ++ labeled "EXISTING ARCHITECTURE: " (architecture_design state)
  ++ (if truthy (architecture_design state) then [architecture_reminder] else []).

(** The prompt made of the given lines and the task. *)
Definition assembled (lines : list string) (prompt : string) : string :=
  String.concat line_break lines
  +++ line_break +++ line_break +++ "Current Task: " +++ prompt.

End WithEnv.

End ContextPrompt.

(** ** The aggregate *)

Module Aggregate.

(** The eight per-agent output slots, as the aggregate lists them. *)
Definition slots (state : WorkflowState) : dict :=
  [ ("orchestrator_plan", orchestrator_plan state);
    ("requirements_analysis", requirements_analysis state);
    ("research_data", research_data state);
    ("architecture_design", architecture_design state);
    ("why_reasoning", why_reasoning state);
    ("business_impact", business_impact state);
    ("educational_content", educational_content state);
    ("documentation", documentation state) ].











Section WithEnv.
Context (E : Env).




End WithEnv.




End Aggregate.

(** ** The invariant of the completed steps *)

Module Invariant.

(** The slot a step name stands for holds a non-empty mapping; a name
    that is not a step name stands for no slot. *)
Definition slot_filled (state : WorkflowState) (name : string) : bool :=
  match SequentialWorkflow.slot_of name with
  | Some slot => nonempty_dict (slot state)
  | None => true
  end.

(** Every completed step has its slot filled. *)
Definition completed_filled (state : WorkflowState) : bool :=
  forallb (slot_filled state) (completed_steps state).

(** A step keeps the invariant in every state it passes through. *)
Definition kept_by (step : SequentialWorkflow.Step) : Prop :=
  forall state,
    completed_filled state = true ->
    Forall (fun visited => completed_filled visited = true) (fst (step state)).


End Invariant.

(** ** A step by its name *)

Module Steps.

Import SequentialWorkflow.

Section WithReplies.
Context (E : Env) (replies : Replies).

Definition step_named (name : string) : option Step :=
  if String.eqb name "orchestrator" then Some (step_orchestrator E replies)
  else if String.eqb name "requirements" then Some (step_requirements E replies)
  else if String.eqb name "research" then Some (step_research E replies)
  else if String.eqb name "architecture" then Some (step_architecture E replies)
  else if String.eqb name "why_reasoning" then Some (step_why_reasoning E replies)
  else if String.eqb name "business_impact" then Some (step_business_impact E replies)
  else if String.eqb name "educational" then Some (step_educational E replies)
  else if String.eqb name "documentation" then Some (step_documentation E replies)
  else None.

(** What the client answers to the completion the step asks for; in
    the architecture step this is the design. *)
Definition reply_of (name : string) : option (result string) :=
  if String.eqb name "orchestrator" then Some (orchestrator_reply replies)
  else if String.eqb name "requirements" then Some (requirements_reply replies)
  else if String.eqb name "research" then Some (research_reply replies)
  else if String.eqb name "architecture" then Some (architecture_reply replies)
  else if String.eqb name "why_reasoning" then Some (why_reasoning_reply replies)
  else if String.eqb name "business_impact" then Some (business_impact_reply replies)
  else if String.eqb name "educational" then Some (educational_reply replies)
  else if String.eqb name "documentation" then Some (documentation_reply replies)
  else None.

End WithReplies.

(** The static fallback of the agent of a step. *)
Definition fallback_of (state : WorkflowState) (name : string) : option value :=
  if String.eqb name "orchestrator"
  then Some (OrchestratorAgent._get_fallback_plan state)
  else if String.eqb name "requirements"
  then Some (RequirementsAgent._get_fallback_analysis state)
  else if String.eqb name "research"
  then Some ResearchAgent._get_fallback_research
  else if String.eqb name "architecture"
  then Some ArchitectureAgent._get_fallback_architecture
  else if String.eqb name "why_reasoning"
  then Some WhyReasoningAgent._get_fallback_reasoning
  else if String.eqb name "business_impact"
  then Some BusinessImpactAgent._get_fallback_impact
  else if String.eqb name "educational"
  then Some EducationalAgent._get_fallback_educational_content
  else if String.eqb name "documentation"
  then Some DocumentationAgent._get_fallback_documentation
  else None.

(** The client raises on each of its calls. *)
Definition all_raise (replies : Replies) : bool :=
  negb (is_ok (orchestrator_reply replies))
  && negb (is_ok (requirements_reply replies))
  && negb (is_ok (research_reply replies))
  && negb (is_ok (architecture_reply replies))
  && negb (is_ok (why_reasoning_reply replies))
  && negb (is_ok (business_impact_reply replies))
  && negb (is_ok (educational_reply replies))
  && negb (is_ok (documentation_reply replies)).

End Steps.

(** ** Concrete inputs *)

Module Examples.

Definition profile : UserProfile :=
  {| id := "test-user";
     email := "test@example.com";
     expertise_level := INTERMEDIATE;
     business_role := None;
     profile_business_context := None;
     preferences := [] |}.

(** The state the route builds for a request: every slot empty. *)
Definition request (conversation_id user_query : string) (history : list dict)
  : WorkflowState :=
  {| conversation_id := conversation_id;
     user_query := user_query;
     user_profile := profile;
     business_context := None;
     orchestrator_plan := VDict [];
     requirements_analysis := VDict [];
     research_findings := VDict [];
     research_data := VDict [];
     architecture_design := VDict [];
     why_reasoning := VDict [];
     business_impact := VDict [];
     educational_content := VDict [];
     documentation := VDict [];
     current_step := "orchestrator";
     completed_steps := [];
     conversation_history := history;
     metadata := [] |}.

Definition text_message (role content : string) : dict :=
  [ ("role", VStr role); ("content", VStr content); ("messageType", VStr "TEXT") ].

Definition update_message (content : string) (payload : value) : dict :=
  [ ("role", VStr "ASSISTANT");
    ("content", VStr content);
    ("messageType", VStr "ARCHITECTURE_UPDATE");
    ("metadata", VDict [("agentResponse", VDict [("architectureUpdate", payload)])]) ].

Definition component (id name type : string) : value :=
  VDict [("id", VStr id); ("name", VStr name); ("type", VStr type)].

Definition blog_payload : value :=
  VDict [("components", VList [component "blog" "Blog Frontend" "frontend"])].

Definition shop_payload : value :=
  VDict [
    ("components", VList [
      component "frontend" "E-commerce Frontend" "frontend";
      component "api-gateway" "API Gateway" "gateway"]);
    ("connections", VList [
      VDict [("from_component", VStr "frontend");
             ("to_component", VStr "api-gateway")]])].

Definition empty_payload : value := VDict [("components", VList [])].

(** Three architecture updates: the most recent one lists no
    component, the one before it is the shop, the oldest the blog. *)
Definition shop_history : list dict :=
  [ text_message "USER" "I need a blog platform";
    update_message "I'll design a blog architecture..." blog_payload;
    text_message "USER" "I need an e-commerce platform";
    update_message "I'll design an e-commerce architecture..." shop_payload;
    update_message "Nothing to show yet" empty_payload;
    text_message "USER" "Add analytics" ].

Definition shop_request : WorkflowState :=
  request "test-123" "Add analytics to my e-commerce platform" shop_history.

(** A character [n] times. *)
Fixpoint repeated (n : nat) (c : string) : string :=
  match n with
  | O => EmptyString
  | S m => c +++ repeated m c
  end.

(** The letter e with an acute accent, U+00E9: two bytes in UTF-8. *)
Definition e_acute : string :=
  String (ascii_of_nat 195) (String (ascii_of_nat 169) EmptyString).

(** ["Message A"], ["Message B"], ... *)
Definition lettered (n : nat) : dict :=
  text_message "USER" ("Message " +++ String (ascii_of_nat (65 + n)) EmptyString).

(** Twenty entries.  Among the last six are a text of 400 characters,
    a text of 300 characters that take 600 bytes, and an architecture
    update. *)
Definition long_history : list dict :=
  map lettered (seq 0 14)
  ++ [ text_message "USER" (repeated 400 "x");
       text_message "USER" (repeated 300 e_acute);
       update_message "I'll design an e-commerce architecture..." shop_payload;
       lettered 17; lettered 18; lettered 19 ].

Definition long_request : WorkflowState :=
  request "test-456" "Add analytics" long_history.



(** A finished run whose requirements analysis asks the same
    question twice. *)
Definition repeated_question : value := VStr "What is the expected user load?".

Definition asking_twice : WorkflowState :=
  {| conversation_id := "test-321";
     user_query := "I need a blog platform";
     user_profile := profile;
     business_context := None;
     orchestrator_plan := VDict [];
     requirements_analysis :=
       VDict [("clarification_questions",
               VList [repeated_question; repeated_question])];
     research_findings := VDict [];
     research_data := VDict [];
     architecture_design :=
       VDict [("implementation_phases",
               VList [VDict [("phase", VStr "1"); ("name", VStr "Foundation");
                             ("duration", VStr "2 weeks")]])];
     why_reasoning := VDict [];
     business_impact := VDict [];
     educational_content :=
       VDict [("assessment_questions",
               VList [VDict [("question", VStr "What is a gateway?")]])];
     documentation := VDict [];
     current_step := "completed";
     completed_steps := SequentialWorkflow.step_names;
     conversation_history := [];
     metadata := [] |}.

(** A request whose architecture slot is already filled, with an
    overview and no component. *)
Definition overview_only : value :=
  VDict [("architecture_overview", VDict [("pattern", VStr "layered")])].

Definition prefilled_request : WorkflowState :=
  {| conversation_id := "test-654";
     user_query := "Add analytics";
     user_profile := profile;
     business_context := None;
     orchestrator_plan := VDict [];
     requirements_analysis := VDict [];
     research_findings := VDict [];
     research_data := VDict [];
     architecture_design := overview_only;
     why_reasoning := VDict [];
     business_impact := VDict [];
     educational_content := VDict [];
     documentation := VDict [];
     current_step := "architecture";
     completed_steps := ["orchestrator"; "requirements"; "research"];
     conversation_history := [];
     metadata := [] |}.

(** A deserializer that knows two documents and rejects the rest. *)
Definition loads (s : string) : result value :=
  if String.eqb s "{}" then Ok (VDict [])
  else if String.eqb s "[]" then Ok (VList [])
  else Raise JSONDecodeError.

Definition expertise_name (level : ExpertiseLevel) : string :=
  match level with
  | BEGINNER => "BEGINNER"
  | INTERMEDIATE => "INTERMEDIATE"
  | ADVANCED => "ADVANCED"
  | EXPERT => "EXPERT"
  end.

(** [str.lower] and [str.title] on ASCII text. *)
Definition lower_char (c : ascii) : ascii :=
  let n := nat_of_ascii c in
  if (65 <=? n)%nat && (n <=? 90)%nat then ascii_of_nat (n + 32) else c.

Definition upper_char (c : ascii) : ascii :=
  let n := nat_of_ascii c in
  if (97 <=? n)%nat && (n <=? 122)%nat then ascii_of_nat (n - 32) else c.

Definition is_alpha (c : ascii) : bool :=
  let n := nat_of_ascii c in
  ((65 <=? n)%nat && (n <=? 90)%nat) || ((97 <=? n)%nat && (n <=? 122)%nat).

Fixpoint lower (s : string) : string :=
  match s with
  | EmptyString => EmptyString
  | String c rest => String (lower_char c) (lower rest)
  end.

(** A letter after a letter is lowered, a letter after anything else
    is raised. *)
Fixpoint title_aux (s : string) (after_letter : bool) : string :=
  match s with
  | EmptyString => EmptyString
  | String c rest =>
      String (if after_letter then lower_char c else upper_char c)
             (title_aux rest (is_alpha c))
  end.

Definition title (s : string) : string := title_aux s false.

(** A small integer as a binary64 number. *)
Fixpoint float_of_nat (n : nat) : float :=
  match n with
  | O => 0%float
  | S m => (float_of_nat m + 1)%float
  end.

Definition float_of_Z (z : Z) : float :=
  if (z <? 0)%Z then (- float_of_nat (Z.to_nat (- z)))%float
  else float_of_nat (Z.to_nat z).

(** [acc + x] on integers and binary64 numbers *)
Definition plus (acc x : value) : result value :=
  match acc, x with
  | VInt a, VInt b => Ok (VInt (a + b))
  | VInt a, VFloat y => Ok (VFloat (float_of_Z a + y))
  | VFloat x, VInt b => Ok (VFloat (x + float_of_Z b))
  | VFloat x, VFloat y => Ok (VFloat (x + y))
  | _, _ => Raise TypeError
  end.

(** [sum] adding from left to right, starting from the integer 0 *)
Fixpoint sum_from (acc : value) (scores : list value) : result value :=
  match scores with
  | [] => Ok acc
  | x :: rest => acc <- plus acc x ;; sum_from acc rest
  end.

(** [x / n] on small integers and binary64 numbers, [n] not zero *)
Definition divided (x n : value) : result value :=
  match x, n with
  | VFloat x, VInt n => Ok (VFloat (x / float_of_Z n))
  | VInt a, VInt n => Ok (VFloat (float_of_Z a / float_of_Z n))
  | _, _ => Raise TypeError
  end.

(** Stand-ins for the library code and the helpers: prompts are built,
    searches find nothing, enrichments are empty; texts are ASCII and
    numbers small where [lower], [title], [sum_from] and [divided]
    meet them. *)
Definition env : Env :=
  {| json_loads := loads;
     str_of := fun _ => "<object>";
     str_of_exn := fun _ => "error";
     str_lower := lower;
     str_title := title;
     py_sum := sum_from (VInt 0);
     py_truediv := divided;
     format_expertise := expertise_name;
     format_business_context := fun _ => "<business context>";
     tavily_search := fun _ => Ok (VList []);
     _build_orchestration_prompt := fun _ => Ok "orchestrate";
     _build_requirements_prompt := fun _ => Ok "requirements";
     _build_research_prompt := fun _ _ _ => Ok "research";
     complexity_prompt := fun _ _ _ => Ok "complexity";
     _build_architecture_prompt_with_analysis := fun _ _ _ _ _ _ => Ok "architecture";
     _generate_visualization_data := fun _ => Ok (VDict []);
     _build_reasoning_prompt := fun _ _ _ _ _ => Ok "reasoning";
     _generate_decision_rationale := fun _ _ _ => Ok (VDict []);
     _build_impact_prompt := fun _ _ _ _ _ _ => Ok "impact";
     _calculate_roi_estimates := fun _ _ _ => Ok (VDict []);
     _build_educational_prompt := fun _ _ _ _ _ _ _ => Ok "educational";
     _generate_learning_path := fun _ _ _ => Ok (VDict []);
     _build_documentation_prompt := fun _ _ _ _ _ _ _ _ => Ok "documentation";
     _generate_export_formats := fun _ _ _ _ => Ok (VDict []) |}.

(** The completion client is down: every call raises. *)
Definition outage : exn := ServiceError "Groq API error".

Definition all_failing : SequentialWorkflow.Replies :=
  {| SequentialWorkflow.orchestrator_reply := Raise outage;
     SequentialWorkflow.requirements_reply := Raise outage;
     SequentialWorkflow.research_reply := Raise outage;
     SequentialWorkflow.analysis_reply := Raise outage;
     SequentialWorkflow.architecture_reply := Raise outage;
     SequentialWorkflow.why_reasoning_reply := Raise outage;
     SequentialWorkflow.business_impact_reply := Raise outage;
     SequentialWorkflow.educational_reply := Raise outage;
     SequentialWorkflow.documentation_reply := Raise outage |}.

(** The client answers in prose except in the architecture step, where
    both of its calls raise. *)
Definition failing_at_architecture : SequentialWorkflow.Replies :=
  {| SequentialWorkflow.orchestrator_reply := Ok "A sequential plan will do.";
     SequentialWorkflow.requirements_reply := Ok "The requirements are clear.";
     SequentialWorkflow.research_reply := Ok "Nothing new was found.";
     SequentialWorkflow.analysis_reply := Raise outage;
     SequentialWorkflow.architecture_reply := Raise outage;
     SequentialWorkflow.why_reasoning_reply := Ok "Because it is simple.";
     SequentialWorkflow.business_impact_reply := Ok "The impact is positive.";
     SequentialWorkflow.educational_reply := Ok "Read about layers.";
     SequentialWorkflow.documentation_reply := Ok "See the design document." |}.

Definition blog_request : WorkflowState :=
  request "test-001" "I need a blog platform" [].


(** The state after the first three steps of a run in which the client
    answers in prose. *)
Definition after_research : WorkflowState :=
  match
    SequentialWorkflow.run_steps
      [ SequentialWorkflow.step_orchestrator env failing_at_architecture;
        SequentialWorkflow.step_requirements env failing_at_architecture;
        SequentialWorkflow.step_research env failing_at_architecture ]
      blog_request
  with
  | (visited, _) => last visited blog_request
  end.

End Examples.

(** * Vocabulary of the further properties *)

Module Plans.




(** [len(v)] is defined. *)
Definition sized (v : value) : bool := is_ok (len v).

End Plans.

Module Designs.


End Designs.

Module Runs.

Import SequentialWorkflow.

(** A step leaves a state whose completed steps are those it found,
    then its own name. *)
Definition appends (step : Step) (name : string) : Prop :=
  forall state,
    completed_steps (last (fst (step state)) state) =
    completed_steps state ++ [name].

End Runs.

Module Text.




End Text.

Module MoreExamples.




End MoreExamples.


(** * Properties *)

(** ** The continuity resolver *)

Section ContinuityResolver.
Import Continuity ArchitectureAgent.

Lemma first_qualifying_app (a b : list dict) :
  first_qualifying (a ++ b) =
  match first_qualifying a with
  | Some payload => Some payload
  | None => first_qualifying b
  end.
Proof.
  induction a as [|m a IH]; simpl; [reflexivity|].
  destruct (qualifying m); [reflexivity | exact IH].
Qed.

Lemma most_recent_is_first_of_reversed (history : list dict) :
  most_recent_architecture history = first_qualifying (rev history).
Proof.
  induction history as [|m later IH]; simpl; [reflexivity|].
  rewrite first_qualifying_app, <- IH. simpl.
  destruct (most_recent_architecture later); [reflexivity|].
  destruct (qualifying m); reflexivity.
Qed.

Lemma scan_one (msg : dict) (rest : list dict) :
  well_formed msg = true ->
  scan_history (msg :: rest) =
  match qualifying msg with
  | Some payload => Ok payload
  | None => scan_history rest
  end.
Proof.
  unfold well_formed, qualifying, update_payload, has_components.
  cbn [scan_history]. fold (is_architecture_update msg).
  destruct (is_architecture_update msg); [|reflexivity].
  unfold dget.
  destruct (lookup msg "metadata") as [[| | | | | |metadata]|];
    try discriminate; [|reflexivity].
  cbn [get bind]. unfold dget.
  destruct (lookup metadata "agentResponse") as [[| | | | | |agent_response]|];
    try discriminate; [|reflexivity].
  cbn [get bind]. unfold dget.
  destruct (lookup agent_response "architectureUpdate") as [[| | | | | |update]|];
    try discriminate; try reflexivity.
  cbn [get bind]. unfold dget.
  destruct (lookup update "components") as [[| | | | |l|]|] eqn:Hcomponents;
    try discriminate; intros _.
  - destruct update; reflexivity.
  - destruct update; [discriminate Hcomponents|]. destruct l; reflexivity.
  - destruct update; reflexivity.
Qed.

Lemma scan_history_first_qualifying (msgs : list dict) :
  Forall (fun msg => well_formed msg = true) msgs ->
  scan_history msgs = Ok (existing_or_new (first_qualifying msgs)).
Proof.
  induction 1 as [|msg rest Hmsg _ IH]; [reflexivity|].
  rewrite (scan_one _ _ Hmsg). cbn [first_qualifying].
  destruct (qualifying msg); [reflexivity | exact IH].
Qed.

(** X1. The scan of the history stops at the first qualifying message
    it meets, going from the most recent: what is older is not looked
    at, whatever it holds, well formed or not. *)
Lemma scan_stops_at_first_match (recent older : list dict) (msg : dict)
    (payload : value) :
  Forall (fun m => well_formed m = true) recent ->
  first_qualifying recent = None ->
  well_formed msg = true ->
  qualifying msg = Some payload ->
  scan_history (recent ++ msg :: older) = Ok payload.
Proof.
  intros Hrecent. induction Hrecent as [|m rest Hm _ IH]; intros Hnone Hmsg Hpayload.
  - cbn [app]. rewrite (scan_one _ _ Hmsg), Hpayload. reflexivity.
  - cbn [first_qualifying] in Hnone.
    destruct (qualifying m) eqn:Hq; [discriminate|].
    cbn [app]. rewrite (scan_one _ _ Hm), Hq. exact (IH Hnone Hmsg Hpayload).
Qed.

(** C1. For a state whose architecture slot is empty and whose
    architecture updates follow the wire format, the resolver returns
    the payload at [metadata.agentResponse.architectureUpdate] of the
    most recent architecture update whose payload has a non-empty
    component list, whatever older updates hold, and the empty
    architecture when no message qualifies. *)
Theorem extract_most_recent_update (state : WorkflowState) :
  truthy (architecture_design state) = false ->
  Forall (fun msg => well_formed msg = true) (conversation_history state) ->
  _extract_existing_architecture state =
  Ok (existing_or_new (most_recent_architecture (conversation_history state))).
Proof.
  intros Hslot Hwire. unfold _extract_existing_architecture. rewrite Hslot.
  rewrite most_recent_is_first_of_reversed.
  destruct (conversation_history state) as [|m h] eqn:Hh; [reflexivity|].
  rewrite <- Hh in *.
  apply scan_history_first_qualifying.
  apply Forall_rev. exact Hwire.
Qed.

(** C1, at the shop history: the update without components is passed
    over, the shop is found, the blog is never reached. *)
Lemma extract_most_recent_update_witness :
  _extract_existing_architecture Examples.shop_request = Ok Examples.shop_payload.
Proof.
  apply (extract_most_recent_update Examples.shop_request).
  - reflexivity.
  - repeat constructor.
Defined.

End ContinuityResolver.

Lemma scan_stops_at_first_match_witness :
  ArchitectureAgent.scan_history
    ([ Examples.text_message "USER" "Add analytics";
       Examples.update_message "Nothing to show yet" Examples.empty_payload ]
     ++ Examples.update_message "I'll design an e-commerce architecture..."
          Examples.shop_payload
     :: [ [("messageType", VStr "ARCHITECTURE_UPDATE"); ("metadata", VInt 7)] ]) =
  Ok Examples.shop_payload.
Proof.
  apply (scan_stops_at_first_match
           [ Examples.text_message "USER" "Add analytics";
             Examples.update_message "Nothing to show yet" Examples.empty_payload ]).
  - repeat constructor.
  - reflexivity.
  - reflexivity.
  - reflexivity.
Defined.

(** ** Parsing the design response *)

Section ArchitectureParsing.
Import Decoding ArchitectureAgent.
Context (E : Env).



End ArchitectureParsing.


(** ** The parsers with a static fallback *)

Section FallbackParsers.
Import Decoding.
Context (E : Env).

Lemma setdefaults_dict (d : dict) (defaults : list (string * value)) :
  setdefaults (VDict d) defaults = Ok (VDict (fill_defaults d defaults)).
Proof.
  revert d. induction defaults as [|[k dflt] rest IH]; intros d; [reflexivity|].
  cbn [setdefaults setdefault bind fill_defaults]. apply IH.
Qed.

Lemma setdefaults_not_dict (v : value) (k : string) (dflt : value)
    (rest : list (string * value)) :
  is_dict v = false -> setdefaults v ((k, dflt) :: rest) = Raise AttributeError.
Proof. destruct v; try reflexivity; discriminate. Qed.

(** What the shared parse pattern returns, for every completion. *)
Lemma parse_characterised (k : string) (dflt : value)
    (rest : list (string * value)) (fallback : value) (response : string) :
  Parser.parse E ((k, dflt) :: rest) fallback response =
  Ok (match decoded_object E response with
      | Some d => VDict (fill_defaults d ((k, dflt) :: rest))
      | None => fallback
      end).
Proof.
  unfold Parser.parse, Parser.parse_body, decoded_object.
  destruct (extract_json_span response) as [json_str|e]; [|reflexivity].
  cbn [bind]. destruct (json_loads E json_str) as [v|e]; [|reflexivity].
  cbn [bind]. destruct v; try reflexivity.
  rewrite setdefaults_dict. reflexivity.
Qed.

(** C3. [_parse_research_response] returns for every completion text,
    and what it returns on a text whose structured extraction fails (no
    fenced block and no brace span, or a span that does not deserialize
    to a JSON object) is the static [_get_fallback_research]. *)
Theorem research_parse_total :
  (forall response,
     exists data, ResearchAgent._parse_research_response E response = Ok data) /\
  (forall response,
     extraction_fails E response = true ->
     ResearchAgent._parse_research_response E response =
     Ok ResearchAgent._get_fallback_research).
Proof.
  unfold ResearchAgent._parse_research_response, ResearchAgent.research_defaults.
  split; intros response.
  - rewrite parse_characterised. eexists. reflexivity.
  - intros Hfail. rewrite parse_characterised.
    unfold extraction_fails in Hfail.
    destruct (decoded_object E response); [discriminate | reflexivity].
Qed.

(** X2. The parsers of the why-reasoning, business-impact, educational
    and documentation agents return the fixed fallback of their agent
    when structured extraction fails: no span, a span that does not
    deserialize, or one that is not a JSON object. *)
Lemma enriching_parsers_fall_back (response : string) :
  extraction_fails E response = true ->
  WhyReasoningAgent._parse_reasoning_response E response =
    Ok WhyReasoningAgent._get_fallback_reasoning
  /\ BusinessImpactAgent._parse_impact_response E response =
       Ok BusinessImpactAgent._get_fallback_impact
  /\ EducationalAgent._parse_educational_response E response =
       Ok EducationalAgent._get_fallback_educational_content
  /\ DocumentationAgent._parse_documentation_response E response =
       Ok DocumentationAgent._get_fallback_documentation.
Proof.
  intros Hfail. unfold extraction_fails in Hfail.
  unfold WhyReasoningAgent._parse_reasoning_response,
    WhyReasoningAgent.reasoning_defaults,
    BusinessImpactAgent._parse_impact_response,
    BusinessImpactAgent.impact_defaults,
    EducationalAgent._parse_educational_response,
    EducationalAgent.educational_defaults,
    DocumentationAgent._parse_documentation_response,
    DocumentationAgent.documentation_defaults.
  rewrite !parse_characterised.
  destruct (decoded_object E response); [discriminate|].
  repeat split.
Qed.

Lemma no_span_fails (response : string) :
  no_json_span response = true -> extraction_fails E response = true.
Proof.
  unfold no_json_span, extraction_fails, decoded_object, extract_json_span.
  destruct (PyStr.contains response fence); [discriminate|].
  destruct (PyStr.contains response "{" && PyStr.contains response "}");
    [discriminate | reflexivity].
Qed.

End FallbackParsers.

Lemma enriching_parsers_fall_back_witness :
  WhyReasoningAgent._parse_reasoning_response Examples.env "[]" =
    Ok WhyReasoningAgent._get_fallback_reasoning
  /\ BusinessImpactAgent._parse_impact_response Examples.env "[]" =
       Ok BusinessImpactAgent._get_fallback_impact
  /\ EducationalAgent._parse_educational_response Examples.env "[]" =
       Ok EducationalAgent._get_fallback_educational_content
  /\ DocumentationAgent._parse_documentation_response Examples.env "[]" =
       Ok DocumentationAgent._get_fallback_documentation.
Proof.
  apply (enriching_parsers_fall_back Examples.env "[]"). reflexivity.
Defined.

Lemma research_parse_total_witness :
  ResearchAgent._parse_research_response Examples.env "Sorry, no research today." =
  Ok ResearchAgent._get_fallback_research.
Proof.
  apply (proj2 (research_parse_total Examples.env)). reflexivity.
Defined.

(** ** The context prompt *)

Section ContextPromptProperties.
Import ContextPrompt BaseAgent.
Context (E : Env).

Lemma render_text_message (msg : dict) :
  has_text msg = true ->
  render_message E msg = Ok (entry_line E msg).
Proof.
  unfold render_message, entry_line, shortened, has_text, text_or_empty, text_of,
    Continuity.is_architecture_update, dget.
  destruct (lookup msg "content") as [[| | | | s | |]|]; try discriminate; intros _.
  - cbn [len bind]. unfold Utf8.length.
    destruct (300 <? List.length (Utf8.chars s))%nat;
      cbn [truncate bind format]; unfold PyStr.take;
      destruct (lookup msg "messageType") as [[| | | | t | |]|]; cbn [eq_str];
      try reflexivity; destruct (String.eqb t "ARCHITECTURE_UPDATE"); reflexivity.
  - cbn [len bind format]. unfold Utf8.length.
    cbn [Utf8.chars List.length Nat.ltb Nat.leb].
    destruct (lookup msg "messageType") as [[| | | | t | |]|]; cbn [eq_str];
      try reflexivity; destruct (String.eqb t "ARCHITECTURE_UPDATE"); reflexivity.
Qed.

Lemma append_text_messages (msgs : list dict) (context_parts : list string) :
  Forall (fun msg => has_text msg = true) msgs ->
  append_messages E context_parts msgs = Ok (context_parts ++ map (entry_line E) msgs).
Proof.
  intros Htext. revert context_parts.
  induction Htext as [|msg rest Hmsg _ IH]; intros context_parts.
  - cbn. rewrite app_nil_r. reflexivity.
  - cbn [append_messages map]. rewrite (render_text_message msg Hmsg).
    cbn [bind]. rewrite IH, <- app_assoc. reflexivity.
Qed.

(** [history[-6:] if len(history) > 6 else history] is the last six. *)
Lemma recent_messages_last_six {A} (history : list A) :
  (if (6 <? List.length history)%nat
   then PyLib.list_from history (-6)%Z
   else history) = last_six history.
Proof.
  unfold last_six, PyLib.list_from, PyStr.clamp.
  destruct (6 <? List.length history)%nat eqn:Hlong.
  - apply Nat.ltb_lt in Hlong. cbn [Z.ltb Z.compare].
    f_equal. lia.
  - apply Nat.ltb_ge in Hlong.
    replace (List.length history - 6) with 0 by lia. reflexivity.
Qed.

Lemma context_parts_sections (state : WorkflowState) :
  Forall (fun msg => has_text msg = true) (last_six (conversation_history state)) ->
  context_parts E state =
  Ok (opening E state
        ++ history_block E (conversation_history state)
        ++ prior_outputs E state).
Proof.
  intros Htext. unfold context_parts, opening, history_block, prior_outputs, labeled,
    history_title, build_upon_instruction, architecture_reminder, line_break.
  change PyStr.nl with (String (ascii_of_nat 10) EmptyString).
  set (first_two :=
         [ "User Query: " +++ user_query state;
           "User Expertise: "
             +++ format_expertise E (expertise_level (user_profile state)) ]).
  assert (Hrole :
    match business_role (user_profile state) with
    | Some role =>
        if truthy (VStr role) then first_two ++ ["Business Role: " +++ role]
        else first_two
    | None => first_two
    end =
    first_two ++
    match business_role (user_profile state) with
    | Some role =>
        if String.eqb role EmptyString then [] else ["Business Role: " +++ role]
    | None => []
    end).
  { destruct (business_role (user_profile state)) as [role|];
      [|now rewrite app_nil_r].
    cbn [truthy]. destruct (String.eqb role EmptyString);
      cbn [negb]; [now rewrite app_nil_r | reflexivity]. }
  rewrite Hrole. clear Hrole.
  set (role_part := match business_role (user_profile state) with
                    | Some role => _ | None => _ end).
  set (context_part := match business_context state with
                       | Some bc => [_] | None => [] end).
  assert (Hcontext :
    match business_context state with
    | Some bc =>
        (first_two ++ role_part)
          ++ ["Business Context: " +++ format_business_context E bc]
    | None => first_two ++ role_part
    end = first_two ++ role_part ++ context_part).
  { subst context_part. destruct (business_context state);
      [now rewrite app_assoc | now rewrite app_nil_r]. }
  rewrite Hcontext. clear Hcontext.
  set (head := first_two ++ role_part ++ context_part).
  destruct (conversation_history state) as [|m h] eqn:Hhistory.
  - cbn [bind app].
    destruct (truthy (requirements_analysis state)),
             (truthy (research_findings state)),
             (truthy (architecture_design state));
      cbn [app]; rewrite ?app_nil_r, <- ?app_assoc; reflexivity.
  - rewrite <- Hhistory in *.
    rewrite recent_messages_last_six.
    rewrite (append_text_messages _ _ Htext). cbn [bind].
    destruct (truthy (requirements_analysis state)),
             (truthy (research_findings state)),
             (truthy (architecture_design state));
      cbn [app]; rewrite ?app_nil_r, <- ?app_assoc; cbn [app]; reflexivity.
Qed.

(** C4. When the contents of the last six history entries are texts,
    the context prompt has, between its opening lines and the prior
    outputs, nothing for an empty history and otherwise the title
    line, the last six entries in their order (all of them when there
    are six or fewer), each as ["- {role}: {content}"] with a content
    of more than 300 characters replaced by its first 300 characters
    and ["..."] and an architecture update tagged
    ["[ARCHITECTURE UPDATE]"], and then the fixed line that tells the
    model to build upon the previous decisions. *)
Theorem context_prompt_history_block (prompt : string) (state : WorkflowState) :
  Forall (fun msg => has_text msg = true) (last_six (conversation_history state)) ->
  _build_context_prompt E prompt state =
  Ok (assembled
        (opening E state
           ++ match conversation_history state with
              | [] => []
              | _ :: _ =>
                  [line_break +++ "PREVIOUS CONVERSATION CONTEXT:"]
                    ++ map (entry_line E) (last_six (conversation_history state))
                    ++ ["NOTE: Build upon and enhance previous architectural decisions rather than replacing them completely."]
              end
           ++ prior_outputs E state)
        prompt).
Proof.
  intros Htext.
  unfold _build_context_prompt. rewrite (context_parts_sections state Htext).
  reflexivity.
Qed.

End ContextPromptProperties.

Lemma context_prompt_history_block_witness :
  List.length Examples.long_history = 20
  /\ BaseAgent._build_context_prompt Examples.env "Plan the work"
       Examples.long_request =
     Ok (String.concat ContextPrompt.line_break
           [ "User Query: Add analytics";
             "User Expertise: INTERMEDIATE";
             ContextPrompt.line_break +++ "PREVIOUS CONVERSATION CONTEXT:";
             "- USER: " +++ Examples.repeated 300 "x" +++ "...";
             "- USER: " +++ Examples.repeated 300 Examples.e_acute;
             "- ASSISTANT: [ARCHITECTURE UPDATE] I'll design an e-commerce architecture...";
             "- USER: Message R";
             "- USER: Message S";
             "- USER: Message T";
             "NOTE: Build upon and enhance previous architectural decisions rather than replacing them completely." ]
         +++ ContextPrompt.line_break +++ ContextPrompt.line_break
         +++ "Current Task: Plan the work").
Proof.
  split; [reflexivity|].
  refine (eq_trans
            (context_prompt_history_block Examples.env "Plan the work"
               Examples.long_request _) _).
  - repeat constructor.
  - vm_compute. reflexivity.
Defined.

(** ** The overall confidence *)

Section OverallConfidence.
Import Aggregate SequentialWorkflow.
Context (E : Env).



(** What [_compile_comprehensive_response] returns, when it returns:
    the three texts and the confidence were computed, and the
    response is made of them. *)
Lemma compiled_response (state : WorkflowState) (response : Response) :
  _compile_comprehensive_response E state = Ok response ->
  _extract_comprehensive_questions state = Ok (next_questions response)
  /\ _extract_comprehensive_actions E state = Ok (suggested_actions response)
  /\ _calculate_overall_confidence E (slots state) = Ok (confidence_score response)
  /\ agent_outputs response = slots state
  /\ response_completed_steps response = completed_steps state.
Proof.
  unfold _compile_comprehensive_response.
  destruct (_generate_comprehensive_content E state); [|discriminate].
  destruct (_extract_comprehensive_questions state); [|discriminate].
  destruct (_extract_comprehensive_actions E state); [|discriminate].
  cbv zeta. fold (slots state).
  destruct (_calculate_overall_confidence E (slots state)); [|discriminate].
  cbn [bind]. intros Hcompile. injection Hcompile as <-. repeat split.
Qed.


End OverallConfidence.


(** ** Suggested questions and actions *)

Section Suggestions.
Import Aggregate SequentialWorkflow.
Context (E : Env).









End Suggestions.



(** ** Prior outputs in the context prompt *)

Section PriorOutputs.
Import ContextPrompt BaseAgent SequentialWorkflow Invariant.
Context (E : Env).





End PriorOutputs.



(** ** What an agent leaves in its slot *)

(** A step of [H : (x <- m ;; k) = Ok r]: [m] returned. *)
Ltac bind_inv H :=
  repeat
    (cbv zeta in H;
     match type of H with
     | bind ?m _ = Ok _ =>
         let x := fresh "x" in
         let Hx := fresh "Hx" in
         destruct m as [x|] eqn:Hx; cbn [bind] in H; [|discriminate H]
     end).

Section SlotsAreFilled.
Import Decoding.
Context (E : Env).

Lemma insert_nonempty (d : dict) (k : string) (x : value) :
  nonempty_dict (VDict (insert d k x)) = true.
Proof.
  destruct d as [|[k' x'] d']; [reflexivity|].
  cbn [insert]. destruct (String.eqb k' k); reflexivity.
Qed.

Lemma setitem_nonempty (v : value) (k : string) (x v' : value) :
  setitem v k x = Ok v' -> nonempty_dict v' = true.
Proof.
  destruct v; try discriminate. cbn [setitem]. intros Hset.
  injection Hset as <-. apply insert_nonempty.
Qed.

Lemma dsetdefault_nonempty (d : dict) (k : string) (dflt : value) :
  nonempty_dict (VDict (dsetdefault d k dflt)) = true.
Proof.
  unfold dsetdefault. destruct (lookup d k) eqn:Hk; [|apply insert_nonempty].
  destruct d; [discriminate Hk | reflexivity].
Qed.

Lemma fill_defaults_keeps (defaults : list (string * value)) (d : dict) :
  nonempty_dict (VDict d) = true ->
  nonempty_dict (VDict (fill_defaults d defaults)) = true.
Proof.
  revert d. induction defaults as [|[k dflt] rest IH]; intros d Hd; [exact Hd|].
  cbn [fill_defaults]. apply IH, dsetdefault_nonempty.
Qed.

Lemma setdefaults_nonempty (v : value) (k : string) (dflt : value)
    (rest : list (string * value)) (v' : value) :
  setdefaults v ((k, dflt) :: rest) = Ok v' -> nonempty_dict v' = true.
Proof.
  destruct v; try discriminate. rewrite setdefaults_dict. intros Hset.
  injection Hset as <-. cbn [fill_defaults].
  apply fill_defaults_keeps, dsetdefault_nonempty.
Qed.

Lemma parse_nonempty (k : string) (dflt : value) (rest : list (string * value))
    (fallback : value) (response : string) (data : value) :
  nonempty_dict fallback = true ->
  Parser.parse E ((k, dflt) :: rest) fallback response = Ok data ->
  nonempty_dict data = true.
Proof.
  intros Hfallback. rewrite parse_characterised. intros Hparse.
  injection Hparse as <-. destruct (decoded_object E response); [|exact Hfallback].
  cbn [fill_defaults]. apply fill_defaults_keeps, dsetdefault_nonempty.
Qed.

(** *** The orchestrator *)

Lemma require_agent_keeps (plan : value) (name : string) (plan' : value) :
  nonempty_dict plan = true ->
  OrchestratorAgent.require_agent plan name = Ok plan' ->
  nonempty_dict plan' = true.
Proof.
  intros Hplan Hrequire. unfold OrchestratorAgent.require_agent in Hrequire.
  bind_inv Hrequire. destruct x0.
  - injection Hrequire as <-. exact Hplan.
  - bind_inv Hrequire. exact (setitem_nonempty _ _ _ _ Hrequire).
Qed.

Lemma validated_plan_nonempty (plan plan' : value) :
  OrchestratorAgent._validate_orchestration_plan plan = Ok plan' ->
  nonempty_dict plan' = true.
Proof.
  unfold OrchestratorAgent._validate_orchestration_plan,
    OrchestratorAgent.plan_defaults.
  intros Hvalid. bind_inv Hvalid.
  pose proof (setdefaults_nonempty _ _ _ _ _ Hx) as H0.
  pose proof (require_agent_keeps _ _ _ H0 Hx0) as H1.
  pose proof (require_agent_keeps _ _ _ H1 Hx1) as H2.
  destruct (existsb _ _).
  - injection Hvalid as <-. exact H2.
  - exact (setitem_nonempty _ _ _ _ Hvalid).
Qed.

Lemma parsed_plan_nonempty (response : string) :
  nonempty_dict (OrchestratorAgent._parse_orchestration_response E response) = true.
Proof.
  unfold OrchestratorAgent._parse_orchestration_response.
  destruct (PyLib.search_braces response) as [matched|]; [|reflexivity].
  destruct (json_loads E matched) as [plan|e]; [|reflexivity].
  cbn [bind].
  destruct (OrchestratorAgent._validate_orchestration_plan plan) as [plan'|e]
    eqn:Hvalid; [|reflexivity].
  exact (validated_plan_nonempty plan plan' Hvalid).
Qed.

Lemma orchestrator_fills (state : WorkflowState) (reply : result string) :
  nonempty_dict
    (dget (OrchestratorAgent.process E state reply) "orchestrator_plan" (VDict []))
  = true.
Proof.
  unfold OrchestratorAgent.process.
  destruct (OrchestratorAgent.process_body E state reply) as [r|e] eqn:Hbody;
    [|reflexivity].
  unfold OrchestratorAgent.process_body in Hbody. bind_inv Hbody.
  injection Hbody as <-. apply parsed_plan_nonempty.
Qed.

(** *** The requirements agent *)

Lemma force_list_keeps (analysis : value) (key : string) (analysis' : value) :
  nonempty_dict analysis = true ->
  RequirementsAgent.force_list analysis key = Ok analysis' ->
  nonempty_dict analysis' = true.
Proof.
  intros Hanalysis Hforce. unfold RequirementsAgent.force_list in Hforce.
  bind_inv Hforce. destruct (is_list x).
  - injection Hforce as <-. exact Hanalysis.
  - exact (setitem_nonempty _ _ _ _ Hforce).
Qed.

Lemma parsed_analysis_nonempty (response : string) :
  nonempty_dict (RequirementsAgent._parse_requirements_response E response) = true.
Proof.
  unfold RequirementsAgent._parse_requirements_response.
  destruct (PyLib.search_braces response) as [matched|]; [|reflexivity].
  destruct (json_loads E matched) as [analysis|e]; [|reflexivity].
  cbn [bind].
  destruct (RequirementsAgent._validate_requirements_analysis analysis)
    as [analysis'|e] eqn:Hvalid; [|reflexivity].
  unfold RequirementsAgent._validate_requirements_analysis,
    RequirementsAgent.analysis_defaults in Hvalid.
  bind_inv Hvalid.
  pose proof (setdefaults_nonempty _ _ _ _ _ Hx) as H0.
  pose proof (force_list_keeps _ _ _ H0 Hx0) as H1.
  exact (force_list_keeps _ _ _ H1 Hvalid).
Qed.

Lemma requirements_fills (state : WorkflowState) (reply : result string) :
  nonempty_dict
    (dget (RequirementsAgent.process E state reply) "requirements_analysis"
       (VDict []))
  = true.
Proof.
  unfold RequirementsAgent.process.
  destruct (RequirementsAgent.process_body E state reply) as [r|e] eqn:Hbody;
    [|reflexivity].
  unfold RequirementsAgent.process_body in Hbody. bind_inv Hbody.
  injection Hbody as <-. apply parsed_analysis_nonempty.
Qed.

(** *** The research agent *)

Lemma research_fills (state : WorkflowState) (reply : result string) :
  nonempty_dict
    (dget (ResearchAgent.process E state reply) "research_data" (VDict []))
  = true.
Proof.
  unfold ResearchAgent.process.
  destruct (ResearchAgent.process_body E state reply) as [r|e] eqn:Hbody;
    [|reflexivity].
  unfold ResearchAgent.process_body in Hbody. bind_inv Hbody.
  injection Hbody as <-.
  change (nonempty_dict x3 = true).
  unfold ResearchAgent._parse_research_response, ResearchAgent.research_defaults
    in Hx1.
  pose proof (parse_nonempty _ _ _ ResearchAgent._get_fallback_research _ _
                eq_refl Hx1) as Hparsed.
  destruct (truthy x2).
  - bind_inv Hx3. exact (setitem_nonempty _ _ _ _ Hx3).
  - injection Hx3 as <-. exact Hparsed.
Qed.

(** *** The architecture agent *)

Lemma architecture_fills (state : WorkflowState)
    (analysis_reply design_reply : result string) :
  nonempty_dict
    (dget (ArchitectureAgent.process E state analysis_reply design_reply)
       "architecture_design" (VDict []))
  = true.
Proof.
  unfold ArchitectureAgent.process.
  destruct (ArchitectureAgent.process_body E state analysis_reply design_reply)
    as [r|e] eqn:Hbody; [|reflexivity].
  unfold ArchitectureAgent.process_body in Hbody. bind_inv Hbody.
  injection Hbody as <-.
  change (nonempty_dict x6 = true).
  exact (setitem_nonempty _ _ _ _ Hx6).
Qed.

(** *** The four agents that enrich their parsed output *)

Lemma why_reasoning_fills (state : WorkflowState) (reply : result string) :
  nonempty_dict
    (dget (WhyReasoningAgent.process E state reply) "why_reasoning" (VDict []))
  = true.
Proof.
  unfold WhyReasoningAgent.process.
  destruct (WhyReasoningAgent.process_body E state reply) as [r|e] eqn:Hbody;
    [|reflexivity].
  unfold WhyReasoningAgent.process_body in Hbody. bind_inv Hbody.
  injection Hbody as <-.
  change (nonempty_dict x3 = true).
  exact (setitem_nonempty _ _ _ _ Hx3).
Qed.

Lemma business_impact_fills (state : WorkflowState) (reply : result string) :
  nonempty_dict
    (dget (BusinessImpactAgent.process E state reply) "business_impact" (VDict []))
  = true.
Proof.
  unfold BusinessImpactAgent.process.
  destruct (BusinessImpactAgent.process_body E state reply) as [r|e] eqn:Hbody;
    [|reflexivity].
  unfold BusinessImpactAgent.process_body in Hbody. bind_inv Hbody.
  injection Hbody as <-.
  change (nonempty_dict x3 = true).
  exact (setitem_nonempty _ _ _ _ Hx3).
Qed.

Lemma educational_fills (state : WorkflowState) (reply : result string) :
  nonempty_dict
    (dget (EducationalAgent.process E state reply) "educational_content" (VDict []))
  = true.
Proof.
  unfold EducationalAgent.process.
  destruct (EducationalAgent.process_body E state reply) as [r|e] eqn:Hbody;
    [|reflexivity].
  unfold EducationalAgent.process_body in Hbody. bind_inv Hbody.
  injection Hbody as <-.
  change (nonempty_dict x3 = true).
  exact (setitem_nonempty _ _ _ _ Hx3).
Qed.

Lemma documentation_fills (state : WorkflowState) (reply : result string) :
  nonempty_dict
    (dget (DocumentationAgent.process E state reply) "documentation" (VDict []))
  = true.
Proof.
  unfold DocumentationAgent.process.
  destruct (DocumentationAgent.process_body E state reply) as [r|e] eqn:Hbody;
    [|reflexivity].
  unfold DocumentationAgent.process_body in Hbody. bind_inv Hbody.
  injection Hbody as <-.
  change (nonempty_dict x3 = true).
  exact (setitem_nonempty _ _ _ _ Hx3).
Qed.

End SlotsAreFilled.

(** ** Components of the returned design *)

Section ReturnedComponents.
Import Continuity Decoding ArchitectureAgent.
Context (E : Env).

Lemma lookup_insert (d : dict) (k : string) (v : value) :
  lookup (insert d k v) k = Some v.
Proof.
  induction d as [|[k' v'] rest IH]; cbn [insert lookup].
  - rewrite String.eqb_refl. reflexivity.
  - destruct (String.eqb k' k) eqn:Hk; cbn [lookup].
    + rewrite String.eqb_refl. reflexivity.
    + rewrite Hk. exact IH.
Qed.

Lemma lookup_insert_other (d : dict) (k k' : string) (v : value) :
  String.eqb k k' = false -> lookup (insert d k v) k' = lookup d k'.
Proof.
  intros Hne. induction d as [|[k0 v0] rest IH]; cbn [insert lookup].
  - rewrite Hne. reflexivity.
  - destruct (String.eqb k0 k) eqn:Hk; cbn [lookup].
    + apply String.eqb_eq in Hk. subst k0. rewrite Hne. reflexivity.
    + destruct (String.eqb k0 k'); [reflexivity | exact IH].
Qed.

Lemma lookup_dsetdefault (d : dict) (k : string) (dflt : value) :
  lookup (dsetdefault d k dflt) k =
  match lookup d k with Some v => Some v | None => Some dflt end.
Proof.
  unfold dsetdefault. destruct (lookup d k) eqn:Hk; [exact Hk | apply lookup_insert].
Qed.

Lemma lookup_dsetdefault_other (d : dict) (k k' : string) (dflt : value) :
  String.eqb k k' = false -> lookup (dsetdefault d k dflt) k' = lookup d k'.
Proof.
  intros Hne. unfold dsetdefault.
  destruct (lookup d k); [reflexivity | apply lookup_insert_other, Hne].
Qed.

(** An entry after a run of [setdefault] calls: the one that was
    there, or the first default for its key. *)
Lemma lookup_fill_defaults (defaults : list (string * value)) (d : dict)
    (k : string) :
  lookup (fill_defaults d defaults) k =
  match lookup d k with Some v => Some v | None => lookup defaults k end.
Proof.
  revert d. induction defaults as [|[k0 dflt] rest IH]; intros d.
  - cbn [fill_defaults lookup]. destruct (lookup d k); reflexivity.
  - cbn [fill_defaults lookup]. rewrite IH.
    destruct (String.eqb k0 k) eqn:Hk.
    + apply String.eqb_eq in Hk. subst k0. rewrite lookup_dsetdefault.
      destruct (lookup d k); reflexivity.
    + rewrite (lookup_dsetdefault_other _ _ _ _ Hk). reflexivity.
Qed.

Lemma mapM_length {A B} (f : A -> result B) (l : list A) (l' : list B) :
  mapM f l = Ok l' -> List.length l' = List.length l.
Proof.
  revert l'. induction l as [|x rest IH]; intros l' Hl; cbn [mapM] in Hl.
  - injection Hl as <-. reflexivity.
  - bind_inv Hl. injection Hl as <-. cbn [List.length]. f_equal. exact (IH _ eq_refl).
Qed.

(** The loop over the components keeps as many of them. *)
Lemma ensure_all_components (d : dict) (c : value) (items : list value)
    (dflt design' : value) :
  lookup d "components" = Some (VList (c :: items)) ->
  ensure_all (VDict d) "components" dflt = Ok design' ->
  has_components design' = true.
Proof.
  intros Hc. unfold ensure_all. cbn [get bind]. unfold dget. rewrite Hc.
  cbn [iterate bind].
  destruct (mapM (ensure_visualization dflt) (c :: items)) as [updated|e] eqn:Hm;
    [|discriminate].
  cbn [bind]. intros Hdesign. injection Hdesign as <-.
  unfold has_components, dget. rewrite lookup_insert.
  apply mapM_length in Hm. destruct updated; [discriminate Hm | reflexivity].
Qed.

(** The loop over the connections leaves the components alone. *)
Lemma ensure_all_connections (design : value) (dflt design' : value) :
  ensure_all design "connections" dflt = Ok design' ->
  has_components design = true -> has_components design' = true.
Proof.
  unfold ensure_all. intros Hloop Hhas. bind_inv Hloop.
  destruct x as [ |b|z|q|s|found|d0]; try (injection Hloop as <-; exact Hhas).
  destruct design as [ |b|z|q|s|items|d]; try (injection Hloop as <-; exact Hhas).
  destruct (lookup d "connections"); injection Hloop as <-; [|exact Hhas].
  unfold has_components, dget in *.
  rewrite lookup_insert_other by reflexivity. exact Hhas.
Qed.

Lemma fallback_has_components :
  has_components _get_fallback_architecture = true.
Proof. vm_compute. reflexivity. Qed.

(** Taking the components and connections over from an architecture
    that has components. *)
Lemma substituted_components (source : value) (filled : dict) (design : value) :
  has_components source = true ->
  (comps <- get source "components" (VList []) ;;
   design <- setitem (VDict filled) "components" comps ;;
   conns <- get source "connections" (VList []) ;;
   setitem design "connections" conns) = Ok design ->
  exists d1 c items,
    design = VDict d1 /\ lookup d1 "components" = Some (VList (c :: items)).
Proof.
  intros Hsource Hdesign.
  destruct source as [ |b|z|q|s|l|ds]; try discriminate Hsource.
  unfold has_components, dget in Hsource.
  destruct (lookup ds "components") as [comps|] eqn:Hcomps; [|discriminate Hsource].
  destruct comps as [ |b|z|q|s|[|c items]|d0]; try discriminate Hsource.
  cbn [get setitem bind] in Hdesign. unfold dget at 1 in Hdesign.
  rewrite Hcomps in Hdesign. injection Hdesign as <-.
  eexists _, c, items. split; [reflexivity|].
  rewrite lookup_insert_other by reflexivity. apply lookup_insert.
Qed.

Lemma bind_returned {A B} (m : result A) (k : A -> result B) (b : B) :
  bind m k = Ok b -> exists a, m = Ok a /\ k a = Ok b.
Proof.
  destruct m as [a|e]; [|discriminate].
  intros Hk. exists a. split; [reflexivity | exact Hk].
Qed.

Lemma validate_steps (current : option value) (design : value) :
  _validate_architecture_design current design =
  (design <- setdefaults design design_defaults ;;
   components <- get design "components" VNone ;;
   design <-
     (if truthy components then Ok design
      else use_known_components current design) ;;
   design <- ensure_all design "components" default_component_visualization ;;
   ensure_all design "connections" default_connection_visualization).
Proof. reflexivity. Qed.

Lemma known_components (current : option value) (filled : dict) (design : value) :
  match has_existing current with
  | Some existing => has_components existing = true
  | None => True
  end ->
  use_known_components current (VDict filled) = Ok design ->
  exists d1 c items,
    design = VDict d1 /\ lookup d1 "components" = Some (VList (c :: items)).
Proof.
  unfold use_known_components. intros Hexisting Hdesign.
  destruct (has_existing current) as [existing|].
  - exact (substituted_components existing filled design Hexisting Hdesign).
  - cbv zeta in Hdesign.
    exact (substituted_components _ filled design fallback_has_components Hdesign).
Qed.

(** Where the existing architecture, if one was identified, has
    components, and the components of the decoded design are a list
    when it has any, the validated design has components. *)
Lemma validated_design_has_components (current : option value) (d : dict)
    (design' : value) :
  match has_existing current with
  | Some existing => has_components existing = true
  | None => True
  end ->
  components_listed d = true ->
  _validate_architecture_design current (VDict d) = Ok design' ->
  has_components design' = true.
Proof.
  intros Hexisting Hlisted Hvalid.
  rewrite validate_steps, setdefaults_dict in Hvalid.
  assert (Hfilled :
    lookup (fill_defaults d design_defaults) "components" =
    match lookup d "components" with
    | Some v => Some v
    | None => Some (VList [])
    end).
  { rewrite lookup_fill_defaults. destruct (lookup d "components"); reflexivity. }
  revert Hvalid Hfilled. generalize (fill_defaults d design_defaults) as filled.
  intros filled Hvalid Hfilled.
  apply bind_returned in Hvalid. destruct Hvalid as (design0 & Hdesign0 & Hvalid).
  injection Hdesign0 as <-. cbv beta in Hvalid.
  apply bind_returned in Hvalid. destruct Hvalid as (components & Hcomponents & Hvalid).
  cbn [get] in Hcomponents. injection Hcomponents as <-. cbv beta in Hvalid.
  apply bind_returned in Hvalid. destruct Hvalid as (design1 & Hdesign1 & Hvalid).
  cbv beta in Hvalid.
  apply bind_returned in Hvalid. destruct Hvalid as (design2 & Hdesign2 & Hvalid).
  cbv beta in Hvalid.
  apply (ensure_all_connections _ _ _ Hvalid).
  assert (Hsubstituted :
    exists d1 c items,
      design1 = VDict d1 /\ lookup d1 "components" = Some (VList (c :: items))).
  { unfold dget in Hdesign1. rewrite Hfilled in Hdesign1.
    unfold components_listed in Hlisted.
    destruct (lookup d "components") as [v|] eqn:Hv.
    - destruct (truthy v) eqn:Htruthy;
        [|exact (known_components current filled design1 Hexisting Hdesign1)].
      injection Hdesign1 as <-.
      destruct v as [ |b|z|q|s|[|c items]|d0]; try discriminate Hlisted.
      + discriminate Htruthy.
      + exists filled, c, items. split; [reflexivity | exact Hfilled].
    - exact (known_components current filled design1 Hexisting Hdesign1). }
  destruct Hsubstituted as (d1 & c & items & -> & Hc).
  exact (ensure_all_components _ _ _ _ _ Hc Hdesign2).
Qed.

(** X3. The design [_parse_architecture_response] returns has a
    non-empty component list, whatever the completion, when the
    existing architecture, if one was identified, has a non-empty
    component list and the components of the parsed design, if it has
    any, are a list. *)
Lemma returned_design_has_components (current : option value)
    (response : string) :
  match has_existing current with
  | Some existing => has_components existing = true
  | None => True
  end ->
  (forall d, decoded_object E response = Some d -> components_listed d = true) ->
  has_components (_parse_architecture_response E current response) = true.
Proof.
  intros Hexisting Hlisted. unfold _parse_architecture_response.
  destruct (parse_architecture_body E current response) as [design|e] eqn:Hbody.
  - unfold parse_architecture_body in Hbody. bind_inv Hbody.
    assert (Hdecoded : forall d, x0 = VDict d -> decoded_object E response = Some d).
    { intros d ->. unfold decoded_object. rewrite Hx, Hx0. reflexivity. }
    destruct x0 as [ |b|z|q|s|l|d];
      try (rewrite validate_steps in Hbody; unfold design_defaults in Hbody;
           rewrite setdefaults_not_dict in Hbody by reflexivity;
           discriminate Hbody).
    exact (validated_design_has_components current d design Hexisting
             (Hlisted d (Hdecoded d eq_refl)) Hbody).
  - destruct (has_existing current); [exact Hexisting | exact fallback_has_components].
Qed.

End ReturnedComponents.

Lemma returned_design_has_components_witness :
  Continuity.has_components
    (ArchitectureAgent._parse_architecture_response Examples.env
       (Some Examples.shop_payload) "{}") = true.
Proof.
  apply (returned_design_has_components Examples.env (Some Examples.shop_payload) "{}").
  - reflexivity.
  - intros d Hdecoded. vm_compute in Hdecoded. injection Hdecoded as <-.
    reflexivity.
Defined.

(** C10 fails on the code: with an existing architecture that has an
    overview and no component, which the resolver returns as it finds
    it in the state, a design without components is returned with an
    empty component list. *)
Theorem empty_components_returned :
  ArchitectureAgent._extract_existing_architecture Examples.prefilled_request =
  Ok Examples.overview_only
  /\ get (ArchitectureAgent._parse_architecture_response Examples.env
            (Some Examples.overview_only) "{}") "components" VNone =
     Ok (VList []).
Proof. split; vm_compute; reflexivity. Qed.


(** ** The invariant along a run *)

Section CompletedSteps.
Import Invariant SequentialWorkflow.
Context (E : Env) (replies : Replies).

Ltac by_slot name :=
  unfold slot_filled, slot_of;
  repeat (destruct (String.eqb name _); [assumption || reflexivity|]);
  reflexivity.

Lemma filled_after_append (state : WorkflowState) (steps : list string)
    (name : string) :
  slot_filled (set_completed_steps state steps) name = slot_filled state name.
Proof. by_slot name. Qed.

Lemma filled_after_move (state : WorkflowState) (next name : string) :
  slot_filled (set_current_step state next) name = slot_filled state name.
Proof. by_slot name. Qed.

Lemma advance_keeps (stored : WorkflowState) (name next : string) :
  completed_filled stored = true ->
  slot_filled stored name = true ->
  Forall (fun visited => completed_filled visited = true) (advance stored name next).
Proof.
  intros Hstored Hname.
  assert (Happended :
    completed_filled
      (set_completed_steps stored (completed_steps stored ++ [name])) = true).
  { unfold completed_filled. cbn [completed_steps set_completed_steps].
    rewrite forallb_app. apply andb_true_intro. split.
    - unfold completed_filled in Hstored.
      rewrite forallb_forall in Hstored |- *. intros n Hn.
      rewrite filled_after_append. exact (Hstored n Hn).
    - cbn [forallb]. rewrite filled_after_append, Hname. reflexivity. }
  unfold advance. repeat constructor; [exact Hstored | exact Happended |].
  unfold completed_filled in Happended |- *.
  cbn [completed_steps set_current_step].
  rewrite forallb_forall in Happended |- *. intros n Hn.
  rewrite filled_after_move. exact (Happended n Hn).
Qed.

(** Storing a non-empty mapping in a slot keeps the steps completed so
    far filled. *)
Ltac store_keeps :=
  let Hstate := fresh "Hstate" in
  let Hfilled := fresh "Hfilled" in
  intros Hstate Hfilled; unfold completed_filled in Hstate |- *;
  rewrite forallb_forall in Hstate |- *;
  let n := fresh "n" in
  let Hn := fresh "Hn" in
  intros n Hn; specialize (Hstate n Hn);
  unfold slot_filled, slot_of in Hstate |- *;
  repeat (destruct (String.eqb n _); [assumption|]);
  reflexivity.

Lemma store_plan_keeps (state : WorkflowState) (v : value) :
  completed_filled state = true -> nonempty_dict v = true ->
  completed_filled (set_orchestrator_plan state v) = true.
Proof. store_keeps. Qed.

Lemma store_analysis_keeps (state : WorkflowState) (v : value) :
  completed_filled state = true -> nonempty_dict v = true ->
  completed_filled (set_requirements_analysis state v) = true.
Proof. store_keeps. Qed.

Lemma store_research_keeps (state : WorkflowState) (v : value) :
  completed_filled state = true -> nonempty_dict v = true ->
  completed_filled (set_research_data state v) = true.
Proof. store_keeps. Qed.

Lemma store_design_keeps (state : WorkflowState) (v : value) :
  completed_filled state = true -> nonempty_dict v = true ->
  completed_filled (set_architecture_design state v) = true.
Proof. store_keeps. Qed.

Lemma store_reasoning_keeps (state : WorkflowState) (v : value) :
  completed_filled state = true -> nonempty_dict v = true ->
  completed_filled (set_why_reasoning state v) = true.
Proof. store_keeps. Qed.

Lemma store_impact_keeps (state : WorkflowState) (v : value) :
  completed_filled state = true -> nonempty_dict v = true ->
  completed_filled (set_business_impact state v) = true.
Proof. store_keeps. Qed.

Lemma store_content_keeps (state : WorkflowState) (v : value) :
  completed_filled state = true -> nonempty_dict v = true ->
  completed_filled (set_educational_content state v) = true.
Proof. store_keeps. Qed.

Lemma store_documentation_keeps (state : WorkflowState) (v : value) :
  completed_filled state = true -> nonempty_dict v = true ->
  completed_filled (set_documentation state v) = true.
Proof. store_keeps. Qed.

Lemma steps_keep : Forall kept_by (steps E replies).
Proof.
  unfold steps.
  apply Forall_cons.
  { intros state Hstate. apply advance_keeps;
      [apply store_plan_keeps; [exact Hstate|] |]; apply orchestrator_fills. }
  apply Forall_cons.
  { intros state Hstate. apply advance_keeps;
      [apply store_analysis_keeps; [exact Hstate|] |]; apply requirements_fills. }
  apply Forall_cons.
  { intros state Hstate. apply advance_keeps;
      [apply store_research_keeps; [exact Hstate|] |]; apply research_fills. }
  apply Forall_cons.
  { intros state Hstate. apply advance_keeps;
      [apply store_design_keeps; [exact Hstate|] |]; apply architecture_fills. }
  apply Forall_cons.
  { intros state Hstate. apply advance_keeps;
      [apply store_reasoning_keeps; [exact Hstate|] |]; apply why_reasoning_fills. }
  apply Forall_cons.
  { intros state Hstate. apply advance_keeps;
      [apply store_impact_keeps; [exact Hstate|] |]; apply business_impact_fills. }
  apply Forall_cons.
  { intros state Hstate. apply advance_keeps;
      [apply store_content_keeps; [exact Hstate|] |]; apply educational_fills. }
  apply Forall_cons.
  { intros state Hstate. apply advance_keeps;
      [apply store_documentation_keeps; [exact Hstate|] |];
      apply documentation_fills. }
  apply Forall_nil.
Qed.

Lemma last_of_all {A} (P : A -> Prop) (l : list A) (d : A) :
  Forall P l -> P d -> P (last l d).
Proof.
  intros Hall Hd. induction Hall as [|x rest Hx _ IH]; [exact Hd|].
  destruct rest; [exact Hx | exact IH].
Qed.

Lemma run_steps_keeps (todo : list Step) (state : WorkflowState) :
  Forall kept_by todo ->
  completed_filled state = true ->
  Forall (fun visited => completed_filled visited = true)
    (fst (run_steps todo state)).
Proof.
  intros Htodo. revert state.
  induction Htodo as [|step rest Hstep _ IH]; intros state Hstate;
    [constructor|].
  cbn [run_steps]. specialize (Hstep state Hstate).
  destruct (step state) as [visited outcome]. cbn [fst] in Hstep.
  destruct outcome as [done|e]; [|exact Hstep].
  pose proof (IH (last visited state)
                (last_of_all _ visited state Hstep Hstate)) as Hlater.
  destruct (run_steps rest (last visited state)) as [later final].
  cbn [fst] in *. apply Forall_app. split; assumption.
Qed.

(** C6. At every point of a run that starts in a state whose
    completed steps have their slots filled (a fresh request has
    none), every step name in [completed_steps] has a non-empty
    mapping in its slot, whatever the completion client answers or
    raises. *)
Theorem completed_steps_have_outputs (initial_state : WorkflowState) :
  completed_filled initial_state = true ->
  Forall (fun visited => completed_filled visited = true)
    (trace (execute E replies initial_state)).
Proof.
  intros Hinitial. unfold execute.
  destruct (negb (validate_state initial_state)); cbn [trace];
    [repeat constructor; exact Hinitial|].
  pose proof (run_steps_keeps (steps E replies) initial_state steps_keep Hinitial)
    as Hrun.
  destruct (run_steps (steps E replies) initial_state) as [visited final].
  cbn [trace fst] in *. constructor; assumption.
Qed.

End CompletedSteps.

Lemma completed_steps_have_outputs_witness :
  Forall (fun visited => Invariant.completed_filled visited = true)
    (SequentialWorkflow.trace
       (SequentialWorkflow.execute Examples.env Examples.failing_at_architecture
          Examples.blog_request)).
Proof.
  apply (completed_steps_have_outputs Examples.env Examples.failing_at_architecture
           Examples.blog_request).
  reflexivity.
Defined.

(** ** A failure of the completion client *)

Section ClientFailure.
Import SequentialWorkflow Steps.
Context (E : Env).

Lemma bind_fails_first {A B} (m : result A) (k : A -> result B) :
  is_ok m = false -> is_ok (bind m k) = false.
Proof. destruct m; [discriminate | reflexivity]. Qed.

Lemma bind_fails_later {A B} (m : result A) (k : A -> result B) :
  (forall a, is_ok (k a) = false) -> is_ok (bind m k) = false.
Proof. intros Hk. destruct m; [apply Hk | reflexivity]. Qed.

Lemma query_fails (prompt : string) (state : WorkflowState) (e : exn) :
  is_ok (BaseAgent.query_groq_with_context E prompt state (Raise e)) = false.
Proof.
  unfold BaseAgent.query_groq_with_context.
  destruct (BaseAgent._build_context_prompt E prompt state); reflexivity.
Qed.

Lemma orchestrator_falls_back (state : WorkflowState) (e : exn) :
  OrchestratorAgent.process E state (Raise e) =
  [("orchestrator_plan", OrchestratorAgent._get_fallback_plan state)].
Proof.
  unfold OrchestratorAgent.process.
  assert (Hbody :
    is_ok (OrchestratorAgent.process_body E state (Raise e)) = false).
  { unfold OrchestratorAgent.process_body.
    apply bind_fails_later. intro. apply bind_fails_first, query_fails. }
  destruct (OrchestratorAgent.process_body E state (Raise e));
    [discriminate | reflexivity].
Qed.

Lemma requirements_falls_back (state : WorkflowState) (e : exn) :
  RequirementsAgent.process E state (Raise e) =
  [("requirements_analysis", RequirementsAgent._get_fallback_analysis state)].
Proof.
  unfold RequirementsAgent.process.
  assert (Hbody :
    is_ok (RequirementsAgent.process_body E state (Raise e)) = false).
  { unfold RequirementsAgent.process_body.
    apply bind_fails_later. intro. apply bind_fails_first, query_fails. }
  destruct (RequirementsAgent.process_body E state (Raise e));
    [discriminate | reflexivity].
Qed.

Lemma research_falls_back (state : WorkflowState) (e : exn) :
  dget (ResearchAgent.process E state (Raise e)) "research_data" (VDict []) =
  ResearchAgent._get_fallback_research.
Proof.
  unfold ResearchAgent.process.
  assert (Hbody : is_ok (ResearchAgent.process_body E state (Raise e)) = false).
  { unfold ResearchAgent.process_body. cbv zeta.
    apply bind_fails_later. intro. reflexivity. }
  destruct (ResearchAgent.process_body E state (Raise e));
    [discriminate | reflexivity].
Qed.

Lemma architecture_falls_back (state : WorkflowState)
    (analysis_reply : result string) (e : exn) :
  dget (ArchitectureAgent.process E state analysis_reply (Raise e))
    "architecture_design" (VDict []) =
  ArchitectureAgent._get_fallback_architecture.
Proof.
  unfold ArchitectureAgent.process.
  assert (Hbody :
    is_ok (ArchitectureAgent.process_body E state analysis_reply (Raise e)) = false).
  { unfold ArchitectureAgent.process_body. cbv zeta.
    repeat first [reflexivity | apply bind_fails_later; intro]. }
  destruct (ArchitectureAgent.process_body E state analysis_reply (Raise e));
    [discriminate | reflexivity].
Qed.

Lemma why_reasoning_falls_back (state : WorkflowState) (e : exn) :
  dget (WhyReasoningAgent.process E state (Raise e)) "why_reasoning" (VDict []) =
  WhyReasoningAgent._get_fallback_reasoning.
Proof.
  unfold WhyReasoningAgent.process.
  assert (Hbody : is_ok (WhyReasoningAgent.process_body E state (Raise e)) = false).
  { unfold WhyReasoningAgent.process_body. cbv zeta.
    apply bind_fails_later. intro. reflexivity. }
  destruct (WhyReasoningAgent.process_body E state (Raise e));
    [discriminate | reflexivity].
Qed.

Lemma business_impact_falls_back (state : WorkflowState) (e : exn) :
  dget (BusinessImpactAgent.process E state (Raise e)) "business_impact" (VDict []) =
  BusinessImpactAgent._get_fallback_impact.
Proof.
  unfold BusinessImpactAgent.process.
  assert (Hbody : is_ok (BusinessImpactAgent.process_body E state (Raise e)) = false).
  { unfold BusinessImpactAgent.process_body. cbv zeta.
    apply bind_fails_later. intro. reflexivity. }
  destruct (BusinessImpactAgent.process_body E state (Raise e));
    [discriminate | reflexivity].
Qed.

Lemma educational_falls_back (state : WorkflowState) (e : exn) :
  dget (EducationalAgent.process E state (Raise e)) "educational_content"
    (VDict []) =
  EducationalAgent._get_fallback_educational_content.
Proof.
  unfold EducationalAgent.process.
  assert (Hbody : is_ok (EducationalAgent.process_body E state (Raise e)) = false).
  { unfold EducationalAgent.process_body. cbv zeta.
    apply bind_fails_later. intro. reflexivity. }
  destruct (EducationalAgent.process_body E state (Raise e));
    [discriminate | reflexivity].
Qed.

Lemma documentation_falls_back (state : WorkflowState) (e : exn) :
  dget (DocumentationAgent.process E state (Raise e)) "documentation" (VDict []) =
  DocumentationAgent._get_fallback_documentation.
Proof.
  unfold DocumentationAgent.process.
  assert (Hbody : is_ok (DocumentationAgent.process_body E state (Raise e)) = false).
  { unfold DocumentationAgent.process_body. cbv zeta.
    apply bind_fails_later. intro. reflexivity. }
  destruct (DocumentationAgent.process_body E state (Raise e));
    [discriminate | reflexivity].
Qed.

Context (replies : Replies).

(** The step whose completion fails: the fallback is stored, the name
    appended, the bookkeeping goes through. *)
Lemma orchestrator_step_absorbs (state : WorkflowState) (e : exn) :
  orchestrator_reply replies = Raise e ->
  step_orchestrator E replies state =
  (advance (set_orchestrator_plan state (OrchestratorAgent._get_fallback_plan state))
     "orchestrator" "requirements", Ok tt).
Proof.
  intros Hreply. unfold step_orchestrator.
  rewrite Hreply, orchestrator_falls_back. reflexivity.
Qed.

Lemma requirements_step_absorbs (state : WorkflowState) (e : exn) :
  requirements_reply replies = Raise e ->
  step_requirements E replies state =
  (advance
     (set_requirements_analysis state (RequirementsAgent._get_fallback_analysis state))
     "requirements" "research", Ok tt).
Proof.
  intros Hreply. unfold step_requirements.
  rewrite Hreply, requirements_falls_back. reflexivity.
Qed.

Lemma research_step_absorbs (state : WorkflowState) (e : exn) :
  research_reply replies = Raise e ->
  step_research E replies state =
  (advance (set_research_data state ResearchAgent._get_fallback_research)
     "research" "architecture", Ok tt).
Proof.
  intros Hreply. unfold step_research.
  rewrite Hreply, research_falls_back. reflexivity.
Qed.

Lemma architecture_step_absorbs (state : WorkflowState) (e : exn) :
  architecture_reply replies = Raise e ->
  step_architecture E replies state =
  (advance (set_architecture_design state ArchitectureAgent._get_fallback_architecture)
     "architecture" "why_reasoning", Ok tt).
Proof.
  intros Hreply. unfold step_architecture.
  rewrite Hreply, architecture_falls_back. reflexivity.
Qed.

Lemma why_reasoning_step_absorbs (state : WorkflowState) (e : exn) :
  why_reasoning_reply replies = Raise e ->
  step_why_reasoning E replies state =
  (advance (set_why_reasoning state WhyReasoningAgent._get_fallback_reasoning)
     "why_reasoning" "business_impact", Ok tt).
Proof.
  intros Hreply. unfold step_why_reasoning.
  rewrite Hreply, why_reasoning_falls_back. reflexivity.
Qed.

Lemma business_impact_step_absorbs (state : WorkflowState) (e : exn) :
  business_impact_reply replies = Raise e ->
  step_business_impact E replies state =
  (advance (set_business_impact state BusinessImpactAgent._get_fallback_impact)
     "business_impact" "educational", Ok tt).
Proof.
  intros Hreply. unfold step_business_impact.
  rewrite Hreply, business_impact_falls_back. reflexivity.
Qed.

Lemma educational_step_absorbs (state : WorkflowState) (e : exn) :
  educational_reply replies = Raise e ->
  step_educational E replies state =
  (advance
     (set_educational_content state
        EducationalAgent._get_fallback_educational_content)
     "educational" "documentation", Ok tt).
Proof.
  intros Hreply. unfold step_educational.
  rewrite Hreply, educational_falls_back. reflexivity.
Qed.

Lemma documentation_step_absorbs (state : WorkflowState) (e : exn) :
  documentation_reply replies = Raise e ->
  step_documentation E replies state =
  (advance (set_documentation state DocumentationAgent._get_fallback_documentation)
     "documentation" "completed", Ok tt).
Proof.
  intros Hreply. unfold step_documentation.
  rewrite Hreply, documentation_falls_back. reflexivity.
Qed.

Lemma analysis_falls_back (user_query : string) (existing : dict) (e : exn) :
  is_ok (complexity_prompt E user_query (VDict existing)
           (truthy (dget existing "components" VNone))) = true ->
  ArchitectureAgent._analyze_system_complexity E user_query (VDict existing)
    (Raise e) =
  Ok ArchitectureAgent.default_complexity_analysis.
Proof.
  intros Hprompt. unfold ArchitectureAgent._analyze_system_complexity.
  assert (Henhancement :
    (if truthy (VDict existing) then
       components <- get (VDict existing) "components" VNone ;;
       Ok (truthy components)
     else Ok false) = Ok (truthy (dget existing "components" VNone))).
  { destruct existing; reflexivity. }
  rewrite Henhancement. cbn [bind].
  destruct (complexity_prompt E user_query (VDict existing) _);
    [reflexivity | discriminate Hprompt].
Qed.

(** C5, as amended.  If the completion client raises on the
    completion a step asks for (in the architecture step, the design),
    the step does not fail: the agent's [process] catches the
    exception and returns its static fallback, the driver stores the
    fallback in the slot of the step, appends the name of the step to
    [completed_steps] and the step raises nothing.  If the client
    raises on the complexity analysis that the architecture step asks
    for first, [_analyze_system_complexity] catches the exception
    itself and returns its default analysis, provided its prompt was
    built. *)
Theorem client_failure_is_absorbed (state : WorkflowState) (e : exn) :
  (forall (name : string) (step : Step) (slot : WorkflowState -> value)
          (fallback : value),
     step_named E replies name = Some step ->
     slot_of name = Some slot ->
     fallback_of state name = Some fallback ->
     reply_of replies name = Some (Raise e) ->
     snd (step state) = Ok tt
     /\ slot (last (fst (step state)) state) = fallback
     /\ completed_steps (last (fst (step state)) state) =
        completed_steps state ++ [name])
  /\ (forall existing : dict,
        is_ok (complexity_prompt E (user_query state) (VDict existing)
                 (truthy (dget existing "components" VNone))) = true ->
        ArchitectureAgent._analyze_system_complexity E (user_query state)
          (VDict existing) (Raise e) =
        Ok ArchitectureAgent.default_complexity_analysis).
Proof.
  split; [|intros existing; apply analysis_falls_back].
  intros name step slot fallback.
  unfold step_named, slot_of, fallback_of, reply_of.
  intros Hstep Hslot Hfallback Hreply.
  repeat
    match type of Hstep with
    | (if String.eqb name ?s then _ else _) = _ =>
        let Hname := fresh "Hname" in
        destruct (String.eqb name s) eqn:Hname;
        [apply String.eqb_eq in Hname; subst name|]
    end; try discriminate;
    cbn [String.eqb Ascii.eqb Bool.eqb andb] in Hslot, Hfallback, Hreply;
    injection Hstep as <-; injection Hslot as <-; injection Hfallback as <-;
    injection Hreply as Hreply.
  - rewrite (orchestrator_step_absorbs state e Hreply). repeat split.
  - rewrite (requirements_step_absorbs state e Hreply). repeat split.
  - rewrite (research_step_absorbs state e Hreply). repeat split.
  - rewrite (architecture_step_absorbs state e Hreply). repeat split.
  - rewrite (why_reasoning_step_absorbs state e Hreply). repeat split.
  - rewrite (business_impact_step_absorbs state e Hreply). repeat split.
  - rewrite (educational_step_absorbs state e Hreply). repeat split.
  - rewrite (documentation_step_absorbs state e Hreply). repeat split.
Qed.

Lemma raised {A} (m : result A) : negb (is_ok m) = true -> exists e, m = Raise e.
Proof. destruct m as [a|e]; [discriminate|]. intros _. exists e. reflexivity. Qed.

(** X4. When every call of the client raises, the eight steps still
    complete, one after the other: the names of all of them are
    appended to [completed_steps], and the architecture slot holds the
    fallback architecture. *)
Lemma outage_run_completes (state : WorkflowState) :
  all_raise replies = true ->
  exists final,
    snd (run_steps (steps E replies) state) = Ok final
    /\ completed_steps final = completed_steps state ++ step_names
    /\ architecture_design final = ArchitectureAgent._get_fallback_architecture.
Proof.
  intros Hall. unfold all_raise in Hall.
  repeat (apply andb_prop in Hall; destruct Hall as [Hall ?]).
  repeat
    match goal with
    | H : negb (is_ok _) = true |- _ => apply raised in H; destruct H as [? H]
    end.
  unfold steps. cbn [run_steps].
  erewrite orchestrator_step_absorbs by eassumption. cbn [advance last].
  erewrite requirements_step_absorbs by eassumption. cbn [advance last].
  erewrite research_step_absorbs by eassumption. cbn [advance last].
  erewrite architecture_step_absorbs by eassumption. cbn [advance last].
  erewrite why_reasoning_step_absorbs by eassumption. cbn [advance last].
  erewrite business_impact_step_absorbs by eassumption. cbn [advance last].
  erewrite educational_step_absorbs by eassumption. cbn [advance last].
  erewrite documentation_step_absorbs by eassumption. cbn [advance last].
  cbn [snd]. eexists. split; [reflexivity|]. split; [|reflexivity].
  cbn [completed_steps set_current_step set_completed_steps set_orchestrator_plan
       set_requirements_analysis set_research_data set_architecture_design
       set_why_reasoning set_business_impact set_educational_content
       set_documentation].
  unfold step_names. repeat rewrite <- app_assoc. reflexivity.
Qed.

End ClientFailure.

Lemma outage_run_completes_witness :
  exists final,
    snd (SequentialWorkflow.run_steps
           (SequentialWorkflow.steps Examples.env Examples.all_failing)
           Examples.blog_request) = Ok final
    /\ completed_steps final =
       [ "orchestrator"; "requirements"; "research"; "architecture";
         "why_reasoning"; "business_impact"; "educational"; "documentation" ]
    /\ architecture_design final = ArchitectureAgent._get_fallback_architecture.
Proof.
  apply (outage_run_completes Examples.env Examples.all_failing
           Examples.blog_request).
  reflexivity.
Defined.

(** C5 fails as stated: the client raises in the architecture step,
    and the run ends with the eight steps completed, the fallback
    architecture in its slot and an aggregate for the caller. *)
Lemma client_failure_not_fatal :
  SequentialWorkflow.architecture_reply Examples.failing_at_architecture =
  Raise Examples.outage
  /\ is_ok (SequentialWorkflow.outcome
              (SequentialWorkflow.execute Examples.env
                 Examples.failing_at_architecture Examples.blog_request)) = true
  /\ completed_steps
       (SequentialWorkflow.final_state Examples.env
          Examples.failing_at_architecture Examples.blog_request) =
     [ "orchestrator"; "requirements"; "research"; "architecture";
       "why_reasoning"; "business_impact"; "educational"; "documentation" ]
  /\ architecture_design
       (SequentialWorkflow.final_state Examples.env
          Examples.failing_at_architecture Examples.blog_request) =
     ArchitectureAgent._get_fallback_architecture.
Proof. repeat split; vm_compute; reflexivity. Qed.

Lemma client_failure_is_absorbed_witness :
  (snd (SequentialWorkflow.step_architecture Examples.env
          Examples.failing_at_architecture Examples.after_research) = Ok tt
   /\ architecture_design
        (last (fst (SequentialWorkflow.step_architecture Examples.env
                      Examples.failing_at_architecture Examples.after_research))
           Examples.after_research) =
      ArchitectureAgent._get_fallback_architecture
   /\ completed_steps
        (last (fst (SequentialWorkflow.step_architecture Examples.env
                      Examples.failing_at_architecture Examples.after_research))
           Examples.after_research) =
      ["orchestrator"; "requirements"; "research"; "architecture"])
  /\ ArchitectureAgent._analyze_system_complexity Examples.env
       "I need a blog platform" (VDict []) (Raise Examples.outage) =
     Ok ArchitectureAgent.default_complexity_analysis.
Proof.
  destruct (client_failure_is_absorbed Examples.env
              Examples.failing_at_architecture Examples.after_research
              Examples.outage) as [Hstep Hanalysis].
  split.
  - exact (Hstep "architecture"
             (SequentialWorkflow.step_architecture Examples.env
                Examples.failing_at_architecture)
             architecture_design ArchitectureAgent._get_fallback_architecture
             eq_refl eq_refl eq_refl eq_refl).
  - exact (Hanalysis [] eq_refl).
Defined.

(** * Further properties of the service *)

(** ** The orchestration plan *)

Section OrchestrationPlan.
Import Plans OrchestratorAgent.
Context (E : Env).




(** What validation leaves in a plan, whatever the plan was. *)
Lemma validated_plan_shape (plan plan' : value) :
  _validate_orchestration_plan plan = Ok plan' ->
  exists d' w agents,
    plan' = VDict d'
    /\ lookup d' "workflow_type" = Some (VStr w) /\ In w valid_workflows
    /\ lookup d' "agents_required" = Some agents /\ sized agents = true.
Proof.
  unfold _validate_orchestration_plan, plan_defaults. intros Hvalid.
  apply bind_returned in Hvalid. destruct Hvalid as (p0 & Hp0 & Hvalid).
  apply bind_returned in Hvalid. destruct Hvalid as (p1 & Hp1 & Hvalid).
  apply bind_returned in Hvalid. destruct Hvalid as (p2 & Hp2 & Hvalid).
  apply bind_returned in Hvalid. destruct Hvalid as (w & Hw & Hvalid).
  clear Hp0 Hp1 p0.
  assert (Hagents :
    exists d2 agents,
      p2 = VDict d2 /\ lookup d2 "agents_required" = Some agents
      /\ sized agents = true).
  { unfold require_agent in Hp2.
    apply bind_returned in Hp2. destruct Hp2 as (agents & Hagents & Hp2).
    apply bind_returned in Hp2. destruct Hp2 as (present & Hpresent & Hp2).
    destruct p1 as [ |b|z|q|s|l|d]; try discriminate Hagents.
    cbn [getitem] in Hagents.
    destruct (lookup d "agents_required") as [a|] eqn:Ha; [|discriminate Hagents].
    injection Hagents as <-.
    destruct present.
    - injection Hp2 as <-. exists d, a. repeat split; [exact Ha|].
      destruct a; try discriminate Hpresent; reflexivity.
    - apply bind_returned in Hp2. destruct Hp2 as (longer & Hlonger & Hp2).
      destruct a; try discriminate Hlonger. cbn [PyLib.append] in Hlonger.
      injection Hlonger as <-. cbn [setitem] in Hp2. injection Hp2 as <-.
      eexists _, _. repeat split; [apply lookup_insert | reflexivity]. }
  destruct Hagents as (d2 & agents & -> & Hagents & Hsized).
  cbn [getitem] in Hw.
  destruct (lookup d2 "workflow_type") as [w'|] eqn:Hw'; [|discriminate Hw].
  injection Hw as <-.
  destruct (existsb (eq_str w') valid_workflows) eqn:Hvalid_type.
  - injection Hvalid as <-.
    apply existsb_exists in Hvalid_type. destruct Hvalid_type as (name & Hin & Heq).
    destruct w'; try discriminate Heq. cbn [eq_str] in Heq.
    apply String.eqb_eq in Heq. subst s.
    exists d2, name, agents. repeat split; assumption.
  - cbn [setitem] in Hvalid. injection Hvalid as <-.
    eexists _, "SEQUENTIAL", agents. repeat split.
    + apply lookup_insert.
    + left. reflexivity.
    + rewrite lookup_insert_other by reflexivity. exact Hagents.
    + exact Hsized.
Qed.

Lemma workflow_type_of_valid (response : string) :
  In (workflow_type_of E response) valid_workflows.
Proof.
  unfold workflow_type_of, valid_workflows.
  repeat match goal with
         | |- context [if ?c then _ else _] => destruct c
         end; cbn; auto.
Qed.

(** The plan [_parse_orchestration_response] returns, whatever the
    completion and whatever [json.loads] makes of it. *)
Lemma parsed_plan_shape (response : string) :
  exists d w agents,
    _parse_orchestration_response E response = VDict d
    /\ lookup d "workflow_type" = Some (VStr w) /\ In w valid_workflows
    /\ lookup d "agents_required" = Some agents /\ sized agents = true.
Proof.
  unfold _parse_orchestration_response.
  destruct (PyLib.search_braces response) as [matched|].
  - destruct (json_loads E matched) as [plan|e]; cbn [bind].
    + destruct (_validate_orchestration_plan plan) as [plan'|e] eqn:Hvalid.
      * exact (validated_plan_shape plan plan' Hvalid).
      * eexists _, "SEQUENTIAL", _.
        repeat split; try reflexivity; left; reflexivity.
    + eexists _, "SEQUENTIAL", _.
        repeat split; try reflexivity; left; reflexivity.
  - unfold _extract_plan_from_text.
    eexists _, (workflow_type_of E response), _.
    repeat split; try reflexivity. apply workflow_type_of_valid.
Qed.

(** X6. Whatever the completion, the plan that comes out of
    [_parse_orchestration_response] names one of the four workflow
    types. *)
Theorem parsed_plan_workflow_type_valid (response : string) :
  exists w,
    get (_parse_orchestration_response E response) "workflow_type" VNone =
    Ok (VStr w)
    /\ In w valid_workflows.
Proof.
  destruct (parsed_plan_shape response) as (d & w & agents & -> & Hw & Hin & _).
  exists w. split; [|exact Hin]. cbn [get]. unfold dget. rewrite Hw. reflexivity.
Qed.

(** X7. When the prompt can be built and the client answers, the
    orchestrator returns the plan parsed from the answer, whatever the
    answer is: the fallback plan is for a failure of the client or of
    the prompt only. *)
Theorem orchestrator_returns_parsed_plan (state : WorkflowState)
    (prompt response : string) :
  _build_orchestration_prompt E state = Ok prompt ->
  is_ok (BaseAgent._build_context_prompt E prompt state) = true ->
  process E state (Ok response) =
  [("orchestrator_plan", _parse_orchestration_response E response)].
Proof.
  intros Hprompt Hcontext. unfold process, process_body.
  rewrite Hprompt. cbn [bind]. unfold BaseAgent.query_groq_with_context.
  destruct (BaseAgent._build_context_prompt E prompt state); [|discriminate Hcontext].
  cbn [bind catch].
  destruct (parsed_plan_shape response) as (d & w & agents & -> & Hw & _ & Ha & Hsized).
  cbn [get bind]. unfold dget at 1. rewrite Ha.
  unfold sized in Hsized. destruct (len agents); [|discriminate Hsized].
  reflexivity.
Qed.

End OrchestrationPlan.


Lemma orchestrator_returns_parsed_plan_witness :
  OrchestratorAgent.process Examples.env Examples.blog_request (Ok "{}") =
  [("orchestrator_plan",
    OrchestratorAgent._parse_orchestration_response Examples.env "{}")].
Proof.
  apply (orchestrator_returns_parsed_plan Examples.env Examples.blog_request
           "orchestrate" "{}").
  - reflexivity.
  - vm_compute. reflexivity.
Defined.

(** ** The requirements analysis *)

Section RequirementsAnalysis.
Import Plans RequirementsAgent.
Context (E : Env).

Lemma force_list_listed (d : dict) (key : string) (analysis' : value) :
  force_list (VDict d) key = Ok analysis' ->
  exists d' items,
    analysis' = VDict d' /\ lookup d' key = Some (VList items)
    /\ (forall k, String.eqb key k = false -> lookup d' k = lookup d k).
Proof.
  unfold force_list. cbn [getitem].
  destruct (lookup d key) as [entry|] eqn:Hentry; [|discriminate].
  cbn [bind]. destruct entry as [ |b|z|q|s|items|d0]; cbn [is_list setitem];
    intros Hforce; injection Hforce as <-.
  all: try (exists (insert d key (VList [])), []; repeat split;
            [apply lookup_insert | intros k Hk; apply lookup_insert_other, Hk]).
  exists d, items. repeat split. exact Hentry.
Qed.

Lemma validated_analysis_lists (analysis analysis' : value) :
  _validate_requirements_analysis analysis = Ok analysis' ->
  exists d' functional_items non_functional_items,
    analysis' = VDict d'
    /\ lookup d' "functional_requirements" = Some (VList functional_items)
    /\ lookup d' "non_functional_requirements" = Some (VList non_functional_items).
Proof.
  unfold _validate_requirements_analysis, analysis_defaults. intros Hvalid.
  apply bind_returned in Hvalid. destruct Hvalid as (a0 & Ha0 & Hvalid).
  apply bind_returned in Hvalid. destruct Hvalid as (a1 & Ha1 & Hvalid).
  destruct analysis as [ |b|z|q|s|l|d]; try discriminate Ha0.
  rewrite setdefaults_dict in Ha0. injection Ha0 as <-.
  destruct (force_list_listed _ _ _ Ha1) as (d1 & f & -> & Hf & _).
  destruct (force_list_listed _ _ _ Hvalid) as (d2 & n & -> & Hn & Hkeep).
  exists d2, f, n. repeat split; [|exact Hn].
  rewrite (Hkeep "functional_requirements" eq_refl). exact Hf.
Qed.

Lemma parsed_analysis_shape (response : string) :
  exists d functional_items non_functional_items,
    _parse_requirements_response E response = VDict d
    /\ lookup d "functional_requirements" = Some (VList functional_items)
    /\ lookup d "non_functional_requirements" = Some (VList non_functional_items).
Proof.
  unfold _parse_requirements_response.
  destruct (PyLib.search_braces response) as [matched|].
  - destruct (json_loads E matched) as [analysis|e]; cbn [bind].
    + destruct (_validate_requirements_analysis analysis) as [analysis'|e] eqn:Hvalid.
      * exact (validated_analysis_lists _ _ Hvalid).
      * eexists _, _, _. repeat split; reflexivity.
    + eexists _, _, _. repeat split; reflexivity.
  - eexists _, _, _. repeat split; reflexivity.
Qed.

(** X8. Whatever the completion, the two requirement lists of the
    analysis that comes out of [_parse_requirements_response] are
    lists. *)
Theorem parsed_requirements_are_lists (response : string) :
  exists functional_items non_functional_items,
    get (_parse_requirements_response E response) "functional_requirements" VNone =
    Ok (VList functional_items)
    /\ get (_parse_requirements_response E response)
         "non_functional_requirements" VNone =
       Ok (VList non_functional_items).
Proof.
  destruct (parsed_analysis_shape response) as (d & f & n & -> & Hf & Hn).
  exists f, n. cbn [get]. unfold dget. rewrite Hf, Hn. split; reflexivity.
Qed.

(** X9. When the prompt can be built and the client answers, the
    requirements agent returns the analysis parsed from the answer,
    whatever the answer is. *)
Theorem requirements_returns_parsed_analysis (state : WorkflowState)
    (prompt response : string) :
  _build_requirements_prompt E state = Ok prompt ->
  is_ok (BaseAgent._build_context_prompt E prompt state) = true ->
  process E state (Ok response) =
  [("requirements_analysis", _parse_requirements_response E response)].
Proof.
  intros Hprompt Hcontext. unfold process, process_body.
  rewrite Hprompt. cbn [bind]. unfold BaseAgent.query_groq_with_context.
  destruct (BaseAgent._build_context_prompt E prompt state); [|discriminate Hcontext].
  cbn [bind catch].
  destruct (parsed_analysis_shape response) as (d & f & n & -> & Hf & Hn).
  cbn [get]. unfold dget. rewrite Hf, Hn. reflexivity.
Qed.

End RequirementsAnalysis.

Lemma requirements_returns_parsed_analysis_witness :
  RequirementsAgent.process Examples.env Examples.blog_request
    (Ok "Functional requirements") =
  [("requirements_analysis",
    RequirementsAgent._parse_requirements_response Examples.env
      "Functional requirements")].
Proof.
  apply (requirements_returns_parsed_analysis Examples.env Examples.blog_request
           "requirements" "Functional requirements").
  - reflexivity.
  - vm_compute. reflexivity.
Defined.

(** ** Visualization metadata of a validated design *)

Section VisualizationMetadata.
Import Designs ArchitectureAgent.





End VisualizationMetadata.

(** ** Defaults of a parsed output *)

Section ParsedDefaults.
Import Decoding.
Context (E : Env).


End ParsedDefaults.


(** ** The aggregate of a run *)

Section Aggregates.
Import Aggregate Runs SequentialWorkflow.
Context (E : Env) (replies : Replies).

Lemma steps_append : Forall2 appends (steps E replies) step_names.
Proof.
  unfold steps, step_names.
  repeat (apply Forall2_cons; [intros state; reflexivity|]).
  apply Forall2_nil.
Qed.

Lemma run_steps_appends (todo : list Step) (names : list string)
    (state final : WorkflowState) :
  Forall2 appends todo names ->
  snd (run_steps todo state) = Ok final ->
  completed_steps final = completed_steps state ++ names.
Proof.
  intros Htodo. revert state.
  induction Htodo as [|step name rest names' Hstep _ IH]; intros state Hrun.
  - cbn in Hrun. injection Hrun as <-. rewrite app_nil_r. reflexivity.
  - cbn [run_steps] in Hrun. specialize (Hstep state).
    destruct (step state) as [visited outcome]. cbn [fst] in Hstep.
    destruct outcome as [done|e]; [|discriminate Hrun].
    specialize (IH (last visited state)).
    destruct (run_steps rest (last visited state)) as [later final'].
    cbn [snd] in *. rewrite (IH Hrun), Hstep, <- app_assoc. reflexivity.
Qed.

(** X12. An aggregate is returned only by a run in which the eight
    steps completed, in their order: its [completed_steps] are those
    of the initial state followed by the eight step names. *)
Theorem aggregate_lists_all_steps (initial_state : WorkflowState)
    (response : Response) :
  outcome (execute E replies initial_state) = Ok response ->
  response_completed_steps response = completed_steps initial_state ++ step_names.
Proof.
  unfold execute. destruct (negb (validate_state initial_state)); [discriminate|].
  pose proof (run_steps_appends (steps E replies) step_names initial_state) as Hrun.
  destruct (run_steps (steps E replies) initial_state) as [visited final].
  cbn [outcome snd] in *. destruct final as [final|e]; [|discriminate].
  cbn [bind catch]. intros Hcompile.
  destruct (_compile_comprehensive_response E final) as [r|e] eqn:Hr;
    [|discriminate Hcompile].
  cbn [catch] in Hcompile. injection Hcompile as <-.
  destruct (compiled_response E final r Hr) as (_ & _ & _ & _ & ->).
  exact (Hrun final steps_append eq_refl).
Qed.

End Aggregates.

Lemma aggregate_lists_all_steps_witness :
  match
    SequentialWorkflow.outcome
      (SequentialWorkflow.execute Examples.env Examples.failing_at_architecture
         Examples.blog_request)
  with
  | Ok response =>
      SequentialWorkflow.response_completed_steps response =
      completed_steps Examples.blog_request ++ SequentialWorkflow.step_names
  | Raise _ => False
  end.
Proof.
  destruct (SequentialWorkflow.outcome
              (SequentialWorkflow.execute Examples.env
                 Examples.failing_at_architecture Examples.blog_request))
    as [response|e] eqn:Hrun.
  - exact (aggregate_lists_all_steps Examples.env Examples.failing_at_architecture
             Examples.blog_request response Hrun).
  - vm_compute in Hrun. discriminate Hrun.
Defined.

Section SuggestionSizes.
Import SequentialWorkflow.
Context (E : Env).

Lemma first_four_sizes {A} (found fallback : list A) :
  (1 <= List.length fallback)%nat ->
  (1 <= List.length
          (firstn 4 match found with [] => fallback | _ :: _ => found end) <= 4)%nat.
Proof.
  intros Hfallback. rewrite length_firstn. destruct found; cbn [List.length]; lia.
Qed.

(** X13. Whenever the two extractors return, [next_questions] and
    [suggested_actions] have at least one entry and at most four. *)
Theorem suggestions_between_one_and_four (state : WorkflowState)
    (questions : list value) (actions : list string) :
  _extract_comprehensive_questions state = Ok questions ->
  _extract_comprehensive_actions E state = Ok actions ->
  (1 <= List.length questions <= 4)%nat /\ (1 <= List.length actions <= 4)%nat.
Proof.
  unfold _extract_comprehensive_questions, _extract_comprehensive_actions.
  intros Hquestions Hactions.
  apply bind_returned in Hquestions. destruct Hquestions as (found & _ & Hquestions).
  apply bind_returned in Hactions. destruct Hactions as (done & _ & Hactions).
  cbv zeta in Hquestions, Hactions.
  injection Hquestions as <-. injection Hactions as <-.
  split; apply first_four_sizes; cbn; lia.
Qed.

End SuggestionSizes.

Lemma suggestions_between_one_and_four_witness :
  (1 <= List.length
          [ Examples.repeated_question; Examples.repeated_question;
            VStr "What is a gateway?" ] <= 4)%nat
  /\ (1 <= List.length [ "Phase 1: Foundation (2 weeks)" ] <= 4)%nat.
Proof.
  apply (suggestions_between_one_and_four Examples.env Examples.asking_twice);
    reflexivity.
Defined.

(** ** Characters of a text *)

Section Characters.
Import Text.







End Characters.

(** ** The searches of the research agent *)

Section ExternalSources.
Import ResearchAgent.
Context (E : Env).






End ExternalSources.

